(** * MT5 historical-data ingestion pipeline: a shallow embedding

    This development embeds the ingestion logic of
    [src/data ingestion/mt5_database_builder.py] (class
    [MT5DatabaseBuilder]) and proves properties of it:

    - [classify_symbol]: the ticker classifier;
    - the per-row validation loop of [save_price_data] and the two-tier
      insert that follows it, over a model of the SQLite connection;
    - [download_symbol_data]: the per-symbol task over a stub of the
      MetaTrader 5 terminal;
    - [build_database]: the coordinating loop and its
      [try/except/finally] skeleton;
    - the methods around them: [load_config], [connect_to_mt5],
      [get_available_symbols], [save_symbols_info],
      [filter_symbols_by_category] and [main];
    - of [src/data ingestion/MT5_connection_manager.py] (class
      [MT5Manager]): [select_installation] and [get_available_symbols].

    Modelling conventions.  A Python [str] is the Rocq string of its
    UTF-8 encoding: an ASCII character is one byte, any other character
    two to four.  [Str.len] and [Str.take] count characters, not bytes,
    and [Str.upper] capitalises as Python does wherever a pattern test
    can tell (see there).  Python [int] is [Z] or [nat] (counters).  A finite float
    is a rational [Q]; the infinities and the missing values are separate
    constructors, so that every test the code performs on a value
    ([pd.isna], [value <= 0], [int(...)], [float(...)]) is decided as
    Python decides it.  Rounding of very large integers by [float] is not
    modelled.

    The SQLite connection is a pair of tables, each with the state seen
    on the connection and the state of the last commit; a failure of the
    backend is an oracle on the number and the content of the statement,
    so that transient and permanent failures are both covered.  The
    thread pool is observed through the order in which its tasks
    complete: the tasks are run one after the other in that order, which
    may be any permutation of the submitted symbols. *)

From Stdlib Require Import String Ascii ZArith QArith List Lia Permutation.
From stdpp Require Import base option gmap strings list.

Local Open Scope string_scope.
Local Open Scope list_scope.

(** ** Strings *)

Module Str.

(** A byte that is an ASCII character. *)
Definition is_ascii_char (c : ascii) : bool := (nat_of_ascii c <? 128)%nat.

(** A string of ASCII characters only. *)
Fixpoint is_ascii (s : string) : bool :=
  match s with
  | EmptyString => true
  | String c s' => is_ascii_char c && is_ascii s'
  end.

(** A byte that continues a character begun by an earlier byte. *)
Definition is_continuation (c : ascii) : bool :=
  let n := nat_of_ascii c in (128 <=? n)%nat && (n <=? 191)%nat.

(** [len(s)]: the number of characters, that is, of the bytes that begin
    one. *)
Fixpoint len (s : string) : nat :=
  match s with
  | EmptyString => 0
  | String c s' => if is_continuation c then len s' else S (len s')
  end.

(** [c.upper()] on an ASCII character. *)
Definition upper_char (c : ascii) : ascii :=
  let n := nat_of_ascii c in
  if (97 <=? n)%nat && (n <=? 122)%nat then ascii_of_nat (n - 32) else c.

(** The two bytes of a character from U+0080 to U+07FF. *)
Definition two_bytes (b1 b2 : nat) : string :=
  String (ascii_of_nat b1) (String (ascii_of_nat b2) EmptyString).

(** [s.upper()], exact in the ASCII characters of the result, in their
    order and in their adjacency, which is all that a pattern test
    reads.  The letters a-z are capitalised, and so is every other
    character whose capital contains an ASCII letter: sharp s U+00DF
    gives SS, dotless i U+0131 gives I, long s U+017F gives S, U+0149
    gives U+02BC N, U+01F0 gives J U+030C, U+1E96 to U+1E9A give H, T, W,
    Y, A with a mark, and the ligatures U+FB00 to U+FB06 give FF, FI, FL,
    FFI, FFL, ST, ST; there is no other such character.  A character
    whose capital has no ASCII letter (e with acute, say) is left as it
    is: the result then differs from Python's in that character, and in
    its length where the capital is several characters long. *)
Fixpoint upper (s : string) : string :=
  match s with
  | EmptyString => EmptyString
  | String "195" (String "159" rest) => "SS" ++ upper rest
  | String "196" (String "177" rest) => "I" ++ upper rest
  | String "197" (String "137" rest) => two_bytes 202 188 ++ "N" ++ upper rest
  | String "197" (String "191" rest) => "S" ++ upper rest
  | String "199" (String "176" rest) => "J" ++ two_bytes 204 140 ++ upper rest
  | String "225" (String "186" (String "150" rest)) =>
    "H" ++ two_bytes 204 177 ++ upper rest
  | String "225" (String "186" (String "151" rest)) =>
    "T" ++ two_bytes 204 136 ++ upper rest
  | String "225" (String "186" (String "152" rest)) =>
    "W" ++ two_bytes 204 138 ++ upper rest
  | String "225" (String "186" (String "153" rest)) =>
    "Y" ++ two_bytes 204 138 ++ upper rest
  | String "225" (String "186" (String "154" rest)) =>
    "A" ++ two_bytes 202 190 ++ upper rest
  | String "239" (String "172" (String "128" rest)) => "FF" ++ upper rest
  | String "239" (String "172" (String "129" rest)) => "FI" ++ upper rest
  | String "239" (String "172" (String "130" rest)) => "FL" ++ upper rest
  | String "239" (String "172" (String "131" rest)) => "FFI" ++ upper rest
  | String "239" (String "172" (String "132" rest)) => "FFL" ++ upper rest
  | String "239" (String "172" (String "133" rest)) => "ST" ++ upper rest
  | String "239" (String "172" (String "134" rest)) => "ST" ++ upper rest
  | String c s' => String (upper_char c) (upper s')
  end.

(** [s.lower()] on the letters A-Z, used to state case-insensitivity on
    ASCII strings and for the test [choice.lower() == 'q'], which only
    [q] and [Q] pass. *)
Definition lower_char (c : ascii) : ascii :=
  let n := nat_of_ascii c in
  if (65 <=? n)%nat && (n <=? 90)%nat then ascii_of_nat (n + 32) else c.

Fixpoint lower (s : string) : string :=
  match s with
  | EmptyString => EmptyString
  | String c s' => String (lower_char c) (lower s')
  end.

(** [pattern in s]: [pattern] occurs in [s] as a substring. *)
Fixpoint contains (pattern s : string) : bool :=
  String.prefix pattern s ||
  match s with
  | EmptyString => false
  | String _ s' => contains pattern s'
  end.

(** [any(pattern in s for pattern in patterns)]. *)
Definition any_in (patterns : list string) (s : string) : bool :=
  existsb (fun pattern => contains pattern s) patterns.

(** [s[:n]]: the first [n] characters, each with all its bytes. *)
Fixpoint take (n : nat) (s : string) : string :=
  match s with
  | EmptyString => EmptyString
  | String c s' =>
    if is_continuation c then String c (take n s')
    else match n with
         | 0 => EmptyString
         | S n' => String c (take n' s')
         end
  end.

End Str.

(** ** Symbol classifier *)

Inductive Category : Set := INDEX | FOREX | COMMODITY | CRYPTO | OTHER.

Definition index_patterns : list string :=
  ["US30"; "NAS100"; "SPX500"; "UK100"; "GER30"; "FRA40"; "JPN225";
   "AUS200"; "USTEC"; "VIX"].

Definition forex_patterns : list string :=
  ["EUR"; "USD"; "GBP"; "JPY"; "CHF"; "AUD"; "CAD"; "NZD"].

Definition commodity_patterns : list string :=
  ["GOLD"; "SILVER"; "OIL"; "BRENT"; "XAU"; "XAG"; "USO"].

Definition crypto_patterns : list string :=
  ["BTC"; "ETH"; "LTC"; "XRP"; "ADA"; "DOT"].

(** [MT5DatabaseBuilder.classify_symbol]. *)
Definition classify_symbol (symbol : string) : Category :=
  let symbol_upper := Str.upper symbol in
  if Str.any_in index_patterns symbol_upper then INDEX
  else if (Str.len symbol =? 6)%nat
          && Str.any_in forex_patterns symbol_upper then FOREX
  else if Str.any_in commodity_patterns symbol_upper then COMMODITY
  else if Str.any_in crypto_patterns symbol_upper then CRYPTO
  else OTHER.

(** Test data: a ticker of five characters, the last one the sharp s
    (U+00DF, two bytes), whose capital is SS. *)
Definition eur_sharp_s : string := "EURUß".

(** ** Python values, exceptions and conversions *)

(** The exception classes the code distinguishes.  [KeyboardInterrupt]
    is the only one that is not an [Exception]. *)
Inductive exn : Set :=
| ValueError | TypeError | OverflowError | KeyError | AttributeError
| SqliteError | RuntimeError | KeyboardInterrupt.

Inductive res (A : Type) : Type :=
| Ok (a : A)
| Raise (e : exn).
Arguments Ok {A} a.
Arguments Raise {A} e.

(** [except Exception]. *)
Definition is_Exception (e : exn) : bool :=
  match e with KeyboardInterrupt => false | _ => true end.

(** [except (ValueError, TypeError)]. *)
Definition is_value_or_type_error (e : exn) : bool :=
  match e with ValueError | TypeError => true | _ => false end.

(** [except sqlite3.Error]. *)
Definition is_sqlite_error (e : exn) : bool :=
  match e with SqliteError => true | _ => false end.

(** A number that is not NaN: finite, or one of the two infinities. *)
Inductive fval : Set :=
| FFin (q : Q)
| FInf (negative : bool).

(** One cell of a data frame row. *)
Inductive cell : Set :=
| CNull                    (* None or float NaN *)
| CNaT                     (* pandas.NaT *)
| CTimestamp (epoch : Q)   (* pandas.Timestamp, in seconds since the epoch *)
| CNum (x : fval)          (* an int or a float other than NaN *)
| CStr (s : string).       (* a str that does not spell a number *)

Module Py.

(** [int(x)] on a finite number truncates towards zero. *)
Definition trunc (q : Q) : Z := Z.quot (Qnum q) (Z.pos (Qden q)).

(** [pd.isna(value)]. *)
Definition isna (v : cell) : bool :=
  match v with CNull | CNaT => true | _ => false end.

(** [int(f)] for a float [f]. *)
Definition int_of_fval (x : fval) : res Z :=
  match x with
  | FFin q => Ok (trunc q)
  | FInf _ => Raise OverflowError
  end.

(** [float(value)]. *)
Definition float (v : cell) : res fval :=
  match v with
  | CNum x => Ok x
  | CStr _ => Raise ValueError
  | CNull | CNaT | CTimestamp _ => Raise TypeError
  end.

(** [value <= 0]. *)
Definition le_zero (v : cell) : res bool :=
  match v with
  | CNum (FFin q) => Ok (Qle_bool q 0)
  | CNum (FInf negative) => Ok negative
  | CNull | CNaT | CTimestamp _ | CStr _ => Raise TypeError
  end.

(** [int(v.timestamp()) if hasattr(v, 'timestamp') else int(v)]. *)
Definition time_value (v : cell) : res Z :=
  match v with
  | CTimestamp epoch => Ok (trunc epoch)
  | CNum x => int_of_fval x
  | CStr _ => Raise ValueError
  | CNull | CNaT => Raise ValueError
  end.

(** [v.isoformat()]; the ISO text of a timestamp is represented by its
    epoch, and that of [NaT] by [None]. *)
Definition isoformat (v : cell) : res (option Q) :=
  match v with
  | CTimestamp epoch => Ok (Some epoch)
  | CNaT => Ok None
  | CNull | CNum _ | CStr _ => Raise AttributeError
  end.

(** [int(float(v))]. *)
Definition int_float (v : cell) : res Z :=
  match float v with
  | Ok x => int_of_fval x
  | Raise e => Raise e
  end.

End Py.

(** ** Rows, records and the per-row validation of [save_price_data] *)

(** A row of a data frame: column name to cell. *)
Abbreviation Row := (gmap string cell).

(** A data frame, as the sequence of its rows ([df.iterrows()]).  All the
    rows of a frame have the same columns. *)
Abbreviation DataFrame := (list (gmap string cell)).

(** The 11-tuple bound to the [INSERT] statement on [price_data]. *)
Record PriceRow : Set := {
  bar_symbol : string;
  bar_timeframe : string;
  bar_time : Z;
  bar_open : fval;
  bar_high : fval;
  bar_low : fval;
  bar_close : fval;
  bar_volume : Z;
  bar_tick_volume : Z;
  bar_spread : Z;
  bar_real_volume : Z
}.

(** Why a row was counted in [problematic_rows]; one constructor per
    branch of the loop body that does so. *)
Inductive Reject : Set :=
| TimestampMissing                          (* 'time' not in row or isna *)
| FieldMissing (field : string)             (* field not in row *)
| FieldInvalid (field : string)             (* isna(value) or value <= 0 *)
| FieldConversion (field : string)          (* float(value) failed *)
| RowError (e : exn).                       (* except Exception as row_error *)

Inductive RowOutcome : Set :=
| Accepted (record : PriceRow)
| Rejected (reason : Reject).

Definition required_fields : list string := ["open"; "high"; "low"; "close"].

(** The [for field in required_fields] loop: [inl] when it breaks or an
    exception escapes it, [inr ohlc_values] when it runs to its [else]. *)
Fixpoint check_ohlc (row : Row) (fields : list string)
    (ohlc_values : gmap string fval) : Reject + gmap string fval :=
  match fields with
  | [] => inr ohlc_values
  | field :: rest =>
    match row !! field with
    | None => inl (FieldMissing field)
    | Some value =>
      if Py.isna value then inl (FieldInvalid field)
      else match Py.le_zero value with
           | Raise e => inl (RowError e)
           | Ok true => inl (FieldInvalid field)
           | Ok false =>
             match Py.float value with
             | Ok x => check_ohlc row rest (<[field := x]> ohlc_values)
             | Raise e =>
               if is_value_or_type_error e then inl (FieldConversion field)
               else inl (RowError e)
             end
           end
    end
  end.

(** The handling of [tick_volume], which feeds both [volume_val] and
    [tick_volume_val]: the pair [(volume_val, tick_volume_val)].  A
    [ValueError] or [TypeError] of the conversion gives zeros, any other
    exception escapes to the handler of the row. *)
Definition volume_vals (row : Row) : res (Z * Z) :=
  let volume_val := 0%Z in
  let tick_volume_val := 0%Z in
  match row !! "tick_volume" with
  | None => Ok (volume_val, tick_volume_val)
  | Some value =>
    if Py.isna value then Ok (volume_val, tick_volume_val)
    else match Py.int_float value with
         | Ok z =>
           let volume_val := z in
           let tick_volume_val := volume_val in
           Ok (volume_val, tick_volume_val)
         | Raise e =>
           if is_value_or_type_error e then Ok (0%Z, 0%Z) else Raise e
         end
  end.

(** The handling of [spread] and of [real_volume]: 0 unless the field is
    present and not missing, with the same exception rule. *)
Definition optional_int (row : Row) (field : string) : res Z :=
  match row !! field with
  | None => Ok 0%Z
  | Some value =>
    if Py.isna value then Ok 0%Z
    else match Py.int_float value with
         | Ok z => Ok z
         | Raise e => if is_value_or_type_error e then Ok 0%Z else Raise e
         end
  end.

(** [ohlc_values[field]]. *)
Definition ohlc_get (ohlc_values : gmap string fval) (field : string) : res fval :=
  match ohlc_values !! field with
  | Some x => Ok x
  | None => Raise KeyError
  end.

(** The body of [for idx, row in df.iterrows()]. *)
Definition process_row (symbol timeframe : string) (row : Row) : RowOutcome :=
  match row !! "time" with
  | None => Rejected TimestampMissing
  | Some t =>
    if Py.isna t then Rejected TimestampMissing
    else match Py.time_value t with
    | Raise e => Rejected (RowError e)
    | Ok time_val =>
      match check_ohlc row required_fields ∅ with
      | inl reason => Rejected reason
      | inr ohlc_values =>
        match volume_vals row with
        | Raise e => Rejected (RowError e)
        | Ok (volume_val, tick_volume_val) =>
          match optional_int row "spread" with
          | Raise e => Rejected (RowError e)
          | Ok spread_val =>
            match optional_int row "real_volume" with
            | Raise e => Rejected (RowError e)
            | Ok real_volume_val =>
              match ohlc_get ohlc_values "open", ohlc_get ohlc_values "high",
                    ohlc_get ohlc_values "low", ohlc_get ohlc_values "close" with
              | Ok o, Ok h, Ok l, Ok c =>
                Accepted {| bar_symbol := Str.take 50 symbol;
                            bar_timeframe := Str.take 10 timeframe;
                            bar_time := time_val;
                            bar_open := o; bar_high := h;
                            bar_low := l; bar_close := c;
                            bar_volume := volume_val;
                            bar_tick_volume := tick_volume_val;
                            bar_spread := spread_val;
                            bar_real_volume := real_volume_val |}
              | _, _, _, _ => Rejected (RowError KeyError)
              end
            end
          end
        end
      end
    end
  end.

(** The whole loop: [(data_to_insert, problematic_rows)]. *)
Fixpoint prepare (symbol timeframe : string) (df : DataFrame)
    : list PriceRow * nat :=
  match df with
  | [] => ([], 0)
  | row :: rest =>
    let '(data_to_insert, problematic_rows) := prepare symbol timeframe rest in
    match process_row symbol timeframe row with
    | Accepted record => (record :: data_to_insert, problematic_rows)
    | Rejected _ => (data_to_insert, S problematic_rows)
    end
  end.

(** ** The SQLite connection *)

(** The ISO text of a date, kept as the epoch it spells. *)
Inductive isodate : Set :=
| IsoNaT
| Iso (epoch : Q).

(** A row of [download_stats] ([id] and [download_date] are filled in by
    the database and left out). *)
Record StatRow : Set := {
  stat_symbol : string;
  stat_timeframe : string;
  stat_bars_count : nat;
  stat_first_date : isodate;
  stat_last_date : isodate;
  stat_success : bool
}.

(** The two statements [save_price_data] runs. *)
Inductive statement : Set :=
| InsertPrice (record : PriceRow)    (* INSERT OR IGNORE INTO price_data *)
| InsertStat (stat : StatRow).       (* INSERT INTO download_stats *)

(** The connection: the tables as the connection sees them (oldest row
    first), the tables as of the last commit, and the number of statements
    run so far. *)
Record Store : Set := {
  price_data : list PriceRow;
  download_stats : list StatRow;
  committed_price_data : list PriceRow;
  committed_download_stats : list StatRow;
  executed : nat
}.

Definition empty_store : Store :=
  {| price_data := []; download_stats := [];
     committed_price_data := []; committed_download_stats := [];
     executed := 0 |}.

Module Sql.

(** [UNIQUE(symbol, timeframe, time)]. *)
Definition same_key (a b : PriceRow) : bool :=
  String.eqb (bar_symbol a) (bar_symbol b)
  && String.eqb (bar_timeframe a) (bar_timeframe b)
  && Z.eqb (bar_time a) (bar_time b).

Definition has_key (rows : list PriceRow) (record : PriceRow) : bool :=
  existsb (same_key record) rows.

(** An integer is bound to a statement only if it fits SQLite's 64-bit
    INTEGER; otherwise the [sqlite3] module raises [OverflowError]. *)
Definition fits_int64 (z : Z) : bool :=
  (- 2 ^ 63 <=? z)%Z && (z <? 2 ^ 63)%Z.

Definition binds (record : PriceRow) : bool :=
  fits_int64 (bar_time record) && fits_int64 (bar_volume record)
  && fits_int64 (bar_tick_volume record) && fits_int64 (bar_spread record)
  && fits_int64 (bar_real_volume record).

Definition tick (s : Store) : Store :=
  {| price_data := price_data s; download_stats := download_stats s;
     committed_price_data := committed_price_data s;
     committed_download_stats := committed_download_stats s;
     executed := S (executed s) |}.

Definition add_price (record : PriceRow) (s : Store) : Store :=
  {| price_data := price_data s ++ [record];
     download_stats := download_stats s;
     committed_price_data := committed_price_data s;
     committed_download_stats := committed_download_stats s;
     executed := executed s |}.

Definition add_stat (stat : StatRow) (s : Store) : Store :=
  {| price_data := price_data s;
     download_stats := download_stats s ++ [stat];
     committed_price_data := committed_price_data s;
     committed_download_stats := committed_download_stats s;
     executed := executed s |}.

(** [self.connection.commit()]. *)
Definition commit (s : Store) : Store :=
  {| price_data := price_data s; download_stats := download_stats s;
     committed_price_data := price_data s;
     committed_download_stats := download_stats s;
     executed := executed s |}.

Section Backend.

(** [fault n st]: the backend raises [sqlite3.Error] when [st] is the
    [n]-th statement run on the connection.  Every pattern of backend
    failures is some [fault]; a failure tied to a record is a [fault]
    that ignores [n]. *)
Variable fault : nat -> statement -> bool.

(** [cursor.execute('INSERT OR IGNORE INTO price_data ...', record)]:
    the new connection state and [cursor.rowcount]. *)
Definition execute_insert (s : Store) (record : PriceRow) : Store * res nat :=
  if negb (binds record) then (s, Raise OverflowError)
  else if fault (executed s) (InsertPrice record) then (tick s, Raise SqliteError)
  else if has_key (price_data s) record then (tick s, Ok 0)
  else (tick (add_price record s), Ok 1).

(** [cursor.executemany('INSERT OR IGNORE ...', records)]: the rows are
    run in order, [cursor.rowcount] is the sum of their counts, and the
    first failure raises, leaving the earlier rows in the open
    transaction. *)
Fixpoint executemany_from (s : Store) (records : list PriceRow)
    (rowcount : nat) : Store * res nat :=
  match records with
  | [] => (s, Ok rowcount)
  | record :: rest =>
    match execute_insert s record with
    | (s', Ok n) => executemany_from s' rest (rowcount + n)
    | (s', Raise e) => (s', Raise e)
    end
  end.

Definition executemany (s : Store) (records : list PriceRow) : Store * res nat :=
  executemany_from s records 0.

(** [cursor.execute('INSERT INTO download_stats ...', stat)]. *)
Definition execute_stat (s : Store) (stat : StatRow) : Store * res nat :=
  if fault (executed s) (InsertStat stat) then (tick s, Raise SqliteError)
  else (tick (add_stat stat s), Ok 1).

End Backend.

End Sql.

(** ** [save_price_data] *)

(** [df['time'].iloc[0]] and [df['time'].iloc[-1]]: [KeyError] when the
    frame has no [time] column. *)
Definition time_cell (row : option Row) : res cell :=
  match row with
  | Some r => match r !! "time" with
              | Some v => Ok v
              | None => Raise KeyError
              end
  | None => Raise KeyError
  end.

Definition iso_of (row : option Row) : res isodate :=
  match time_cell row with
  | Ok v => match Py.isoformat v with
            | Ok (Some epoch) => Ok (Iso epoch)
            | Ok None => Ok IsoNaT
            | Raise e => Raise e
            end
  | Raise e => Raise e
  end.

Section SavePriceData.

Variable fault : nat -> statement -> bool.

(** The record-by-record loop of the fallback: it stops ([break]) at the
    first record on which the backend raises [sqlite3.Error]; any other
    exception escapes to the outermost handler. *)
Fixpoint insert_one_by_one (s : Store) (records : list PriceRow)
    (rows_inserted : nat) : Store * res nat :=
  match records with
  | [] => (s, Ok rows_inserted)
  | record :: rest =>
    match Sql.execute_insert fault s record with
    | (s', Ok rowcount) => insert_one_by_one s' rest (rows_inserted + rowcount)
    | (s', Raise e) =>
      if is_sqlite_error e then (s', Ok rows_inserted) else (s', Raise e)
    end
  end.

(** The final block, "save statistics only if there is data", and the
    [return rows_inserted] after it.  An exception that is not
    [sqlite3.Error] reaches the outermost handler, which returns 0. *)
Definition save_stats (symbol timeframe : string) (df : DataFrame)
    (s : Store) (rows_inserted : nat) : Store * nat :=
  if (0 <? length df)%nat && (0 <? rows_inserted)%nat then
    match iso_of (head df), iso_of (last df) with
    | Ok first_date, Ok last_date =>
      let stat := {| stat_symbol := symbol; stat_timeframe := timeframe;
                     stat_bars_count := length df;
                     stat_first_date := first_date;
                     stat_last_date := last_date;
                     stat_success := true |} in
      match Sql.execute_stat fault s stat with
      | (s', Ok _) => (Sql.commit s', rows_inserted)
      | (s', Raise e) =>
        if is_sqlite_error e then (s', rows_inserted) else (s', 0)
      end
    | _, _ => (s, 0)
    end
  else (s, rows_inserted).

(** [MT5DatabaseBuilder.save_price_data], on an open connection: the new
    connection state and the returned count.  [commit] is taken not to
    fail. *)
Definition save_price_data (symbol timeframe : string) (df : DataFrame)
    (s : Store) : Store * nat :=
  let '(data_to_insert, problematic_rows) := prepare symbol timeframe df in
  match data_to_insert with
  | [] => (s, 0)
  | first :: rest =>
    (* test insert of data_to_insert[0] *)
    match Sql.execute_insert fault s first with
    | (s1, Raise e) => (s1, 0)
    | (s1, Ok test_rows) =>
      (* batch insert of data_to_insert[1:] *)
      match Sql.executemany fault s1 rest with
      | (s2, Ok rowcount) =>
        let rows_inserted := rowcount + 1 in
        save_stats symbol timeframe df (Sql.commit s2) rows_inserted
      | (s2, Raise e) =>
        if is_sqlite_error e then
          match insert_one_by_one s2 rest 0 with
          | (s3, Ok rows_inserted) =>
            if (0 <? rows_inserted)%nat
            then save_stats symbol timeframe df (Sql.commit s3) (rows_inserted + 1)
            else (s3, 0)
          | (s3, Raise _) => (s3, 0)
          end
        else (s2, 0)
      end
    end
  end.

End SavePriceData.

(** A backend that never fails. *)
Definition no_fault : nat -> statement -> bool := fun _ _ => false.

(** ** The terminal and the builder *)

(** The MetaTrader 5 timeframe constants. *)
Inductive Timeframe : Set :=
| TIMEFRAME_M1 | TIMEFRAME_M5 | TIMEFRAME_M15 | TIMEFRAME_M30
| TIMEFRAME_H1 | TIMEFRAME_H4 | TIMEFRAME_D1 | TIMEFRAME_W1 | TIMEFRAME_MN1.

(** [self.timeframes]. *)
Definition timeframes : gmap string Timeframe :=
  list_to_map
    [("M1", TIMEFRAME_M1); ("M5", TIMEFRAME_M5); ("M15", TIMEFRAME_M15);
     ("M30", TIMEFRAME_M30); ("H1", TIMEFRAME_H1); ("H4", TIMEFRAME_H4);
     ("D1", TIMEFRAME_D1); ("W1", TIMEFRAME_W1); ("MN1", TIMEFRAME_MN1)].

(** The terminal, as the two calls the per-symbol task makes.
    [copy_rates_from_pos] answers [None] or an array of rows. *)
Record Terminal : Type := {
  symbol_select : string -> res bool;
  copy_rates_from_pos :
    string -> Timeframe -> Z -> Z -> res (option DataFrame)
}.

(** Calls to the outside that change it or are counted against it. *)
Inductive call : Set :=
| CallSymbolSelect (symbol : string)
| CallCopyRates (symbol : string) (tf : Timeframe) (start count : Z)
| CallConnectionClose
| CallShutdown.

(** [self.stats] ([start_time] is left out). *)
Record Stats : Set := {
  symbols_processed : nat;
  total_bars_downloaded : nat;
  errors : nat;
  symbols_completed : list string;
  symbols_failed : list string
}.

Definition initial_stats : Stats :=
  {| symbols_processed := 0; total_bars_downloaded := 0; errors := 0;
     symbols_completed := []; symbols_failed := [] |}.

(** The builder object together with the trace of its outside calls. *)
Record Builder : Set := {
  connection : option Store;
  mt5_connected : bool;
  stats : Stats;
  calls : list call
}.

Module Upd.

Definition with_connection (c : option Store) (b : Builder) : Builder :=
  {| connection := c; mt5_connected := mt5_connected b;
     stats := stats b; calls := calls b |}.

Definition with_stats (st : Stats) (b : Builder) : Builder :=
  {| connection := connection b; mt5_connected := mt5_connected b;
     stats := st; calls := calls b |}.

Definition log (c : call) (b : Builder) : Builder :=
  {| connection := connection b; mt5_connected := mt5_connected b;
     stats := stats b; calls := calls b ++ [c] |}.

(** [self.stats['total_bars_downloaded'] += n]. *)
Definition add_bars (n : nat) (st : Stats) : Stats :=
  {| symbols_processed := symbols_processed st;
     total_bars_downloaded := total_bars_downloaded st + n;
     errors := errors st;
     symbols_completed := symbols_completed st;
     symbols_failed := symbols_failed st |}.

(** [self.stats['errors'] += 1]. *)
Definition add_error (st : Stats) : Stats :=
  {| symbols_processed := symbols_processed st;
     total_bars_downloaded := total_bars_downloaded st;
     errors := S (errors st);
     symbols_completed := symbols_completed st;
     symbols_failed := symbols_failed st |}.

(** [self.stats['symbols_processed'] += 1]. *)
Definition add_processed (st : Stats) : Stats :=
  {| symbols_processed := S (symbols_processed st);
     total_bars_downloaded := total_bars_downloaded st;
     errors := errors st;
     symbols_completed := symbols_completed st;
     symbols_failed := symbols_failed st |}.

(** [self.stats['symbols_completed'].append(symbol)]. *)
Definition add_completed (symbol : string) (st : Stats) : Stats :=
  {| symbols_processed := symbols_processed st;
     total_bars_downloaded := total_bars_downloaded st;
     errors := errors st;
     symbols_completed := symbols_completed st ++ [symbol];
     symbols_failed := symbols_failed st |}.

(** [self.stats['symbols_failed'].append(symbol)]. *)
Definition add_failed (symbol : string) (st : Stats) : Stats :=
  {| symbols_processed := symbols_processed st;
     total_bars_downloaded := total_bars_downloaded st;
     errors := errors st;
     symbols_completed := symbols_completed st;
     symbols_failed := symbols_failed st ++ [symbol] |}.

End Upd.

(** ** [download_symbol_data] *)

Inductive TfError : Set :=
| NoValidDataAfterCleaning     (* 'Nessun dato valido dopo la pulizia' *)
| NoDataAvailable              (* 'Nessun dato disponibile - MT5 Error' *)
| TfException (e : exn).       (* str(e) *)

(** An entry of [results['timeframes']]. *)
Record TfResult : Set := {
  bars_count : nat;
  bars_saved : nat;
  first_date : option isodate;
  last_date : option isodate;
  tf_success : bool;
  tf_error : option TfError
}.

Inductive SymbolError : Set :=
| NotSelectable                (* 'Simbolo ... non selezionabile' *)
| SymbolException (e : exn).   (* str(e) *)

(** The [results] dictionary of one symbol. *)
Record SymbolResult : Set := {
  res_symbol : string;
  res_timeframes : gmap string TfResult;
  res_total_bars : nat;
  res_success : bool;
  res_error : option SymbolError
}.

Definition failed_timeframe (e : TfError) : TfResult :=
  {| bars_count := 0; bars_saved := 0; first_date := None; last_date := None;
     tf_success := false; tf_error := Some e |}.

(** [results['timeframes'][tf_name] = entry]. *)
Definition set_timeframe (tf_name : string) (entry : TfResult)
    (results : SymbolResult) : SymbolResult :=
  {| res_symbol := res_symbol results;
     res_timeframes := <[tf_name := entry]> (res_timeframes results);
     res_total_bars := res_total_bars results;
     res_success := res_success results;
     res_error := res_error results |}.

(** [results['total_bars'] += n]. *)
Definition add_total_bars (n : nat) (results : SymbolResult) : SymbolResult :=
  {| res_symbol := res_symbol results;
     res_timeframes := res_timeframes results;
     res_total_bars := res_total_bars results + n;
     res_success := res_success results;
     res_error := res_error results |}.

(** [results['success'] = False; results['error'] = e]. *)
Definition fail_symbol (e : SymbolError) (results : SymbolResult) : SymbolResult :=
  {| res_symbol := res_symbol results;
     res_timeframes := res_timeframes results;
     res_total_bars := res_total_bars results;
     res_success := false;
     res_error := Some e |}.

Module Pandas.

(** ['time' in df.columns], read off the first row. *)
Definition has_column (df : DataFrame) (column : string) : bool :=
  match df with
  | row :: _ => bool_decide (is_Some (row !! column))
  | [] => false
  end.

(** The largest epoch, in nanoseconds, a [Timestamp] holds. *)
Definition max_ns : Z := (2 ^ 63 - 1)%Z.

Definition in_bounds (q : Q) : bool :=
  Qle_bool (inject_Z (- max_ns)) (q * inject_Z (10 ^ 9))
  && Qle_bool (q * inject_Z (10 ^ 9)) (inject_Z max_ns).

(** [pd.to_datetime(v, unit='s', errors='coerce')] on one cell: what is
    not a representable number of seconds becomes [NaT]. *)
Definition to_datetime (v : cell) : cell :=
  match v with
  | CTimestamp epoch => CTimestamp epoch
  | CNum (FFin q) => if in_bounds q then CTimestamp q else CNaT
  | CNum (FInf _) | CNull | CNaT | CStr _ => CNaT
  end.

(** [df['time'] = pd.to_datetime(df['time'], unit='s', errors='coerce')]. *)
Definition convert_time (df : DataFrame) : DataFrame :=
  map (fun row : Row => match row !! "time" with
                        | Some v => <["time" := to_datetime v]> row
                        | None => row
                        end) df.

(** [df.dropna(subset=['time'])]. *)
Definition dropna_time (df : DataFrame) : DataFrame :=
  List.filter (fun row : Row => match row !! "time" with
                                | Some v => negb (Py.isna v)
                                | None => false
                                end) df.

End Pandas.

Section Download.

Variable fault : nat -> statement -> bool.
Variable mt5 : Terminal.

(** [self.save_price_data(symbol, tf_name, df)] on the builder: without a
    connection, [self.connection.cursor()] raises inside the method's own
    handler, which returns 0. *)
Definition save_price_data_on (symbol timeframe : string) (df : DataFrame)
    (b : Builder) : Builder * nat :=
  match connection b with
  | None => (b, 0)
  | Some s =>
    let '(s', rows_inserted) := save_price_data fault symbol timeframe df s in
    (Upd.with_connection (Some s') b, rows_inserted)
  end.

(** The body of the inner [try] of the timeframe loop.  It gives the
    updated [results], or the exception that left it (in which case
    [results] was not assigned to). *)
Definition fetch_timeframe (symbol : string) (max_bars : Z)
    (tf_name : string) (tf_value : Timeframe)
    (b : Builder) (results : SymbolResult) : Builder * res SymbolResult :=
  let b := Upd.log (CallCopyRates symbol tf_value 0%Z max_bars) b in
  match copy_rates_from_pos mt5 symbol tf_value 0%Z max_bars with
  | Raise e => (b, Raise e)
  | Ok (Some (row :: more)) =>
    let rates := row :: more in
    let df := if Pandas.has_column rates "time"
              then Pandas.dropna_time (Pandas.convert_time rates)
              else rates in
    if (length df =? 0)%nat then
      (b, Ok (set_timeframe tf_name
                (failed_timeframe NoValidDataAfterCleaning) results))
    else
      let '(b', saved) := save_price_data_on symbol tf_name df b in
      match iso_of (head df), iso_of (last df) with
      | Ok first, Ok lst =>
        let entry := {| bars_count := length df; bars_saved := saved;
                        first_date := Some first; last_date := Some lst;
                        tf_success := (0 <? saved)%nat; tf_error := None |} in
        (Upd.with_stats (Upd.add_bars saved (stats b')) b',
         Ok (add_total_bars saved (set_timeframe tf_name entry results)))
      | Raise e, _ => (b', Raise e)
      | Ok _, Raise e => (b', Raise e)
      end
  | Ok _ =>
    (b, Ok (set_timeframe tf_name (failed_timeframe NoDataAvailable) results))
  end.

(** [for tf_name in timeframes]: unsupported tags are skipped by
    [continue]; an [Exception] of the body is recorded against the tag.
    Only an exception that is not an [Exception] leaves the loop. *)
Fixpoint download_timeframes (symbol : string) (max_bars : Z)
    (tfs : list string) (b : Builder) (results : SymbolResult)
    : Builder * res SymbolResult :=
  match tfs with
  | [] => (b, Ok results)
  | tf_name :: rest =>
    match timeframes !! tf_name with
    | None => download_timeframes symbol max_bars rest b results
    | Some tf_value =>
      match fetch_timeframe symbol max_bars tf_name tf_value b results with
      | (b', Ok results') => download_timeframes symbol max_bars rest b' results'
      | (b', Raise e) =>
        if is_Exception e then
          download_timeframes symbol max_bars rest
            (Upd.with_stats (Upd.add_error (stats b')) b')
            (set_timeframe tf_name (failed_timeframe (TfException e)) results)
        else (b', Raise e)
      end
    end
  end.

(** [MT5DatabaseBuilder.download_symbol_data]. *)
Definition download_symbol_data (symbol : string) (tfs : list string)
    (max_bars : Z) (b : Builder) : Builder * res SymbolResult :=
  let results := {| res_symbol := symbol; res_timeframes := ∅;
                    res_total_bars := 0; res_success := true;
                    res_error := None |} in
  let b := Upd.log (CallSymbolSelect symbol) b in
  match symbol_select mt5 symbol with
  | Raise e =>
    if is_Exception e then
      (Upd.with_stats (Upd.add_error (stats b)) b,
       Ok (fail_symbol (SymbolException e) results))
    else (b, Raise e)
  | Ok false => (b, Ok (fail_symbol NotSelectable results))
  | Ok true => download_timeframes symbol max_bars tfs b results
  end.

End Download.

(** ** [build_database] *)

(** The configuration dictionary, after the merge with the defaults. *)
Record Config : Set := {
  mt5_executable_path : string;
  symbols_to_download : list string;
  cfg_timeframes : list string;
  max_bars_per_request : Z;
  include_indices : bool;
  include_forex : bool;
  include_commodities : bool;
  include_crypto : bool;
  auto_detect_symbols : bool;
  max_workers : Z
}.

(** [MT5DatabaseBuilder.filter_symbols_by_category]. *)
Definition filter_symbols_by_category (symbols : list string) (config : Config)
    : list string :=
  List.filter
    (fun symbol =>
       match classify_symbol symbol with
       | INDEX => include_indices config
       | FOREX => include_forex config
       | COMMODITY => include_commodities config
       | CRYPTO => include_crypto config
       | OTHER => true
       end) symbols.

(** Computations on the builder that may raise. *)
Definition M (A : Type) : Type := Builder -> Builder * res A.

Definition ret {A} (a : A) : M A := fun b => (b, Ok a).

(** [raise e]. *)
Definition throw {A} (e : exn) : M A := fun b => (b, Raise e).

Definition bind {A B} (m : M A) (k : A -> M B) : M B :=
  fun b => match m b with
           | (b', Ok a) => k a b'
           | (b', Raise e) => (b', Raise e)
           end.

Notation "'let*' x ':=' m 'in' k" := (bind m (fun x => k))
  (at level 10, x name, m at level 100, k at level 200).

(** [try: body  except Exception: handler]. *)
Definition try_except {A} (body : M A) (handler : exn -> M A) : M A :=
  fun b => match body b with
           | (b', Raise e) =>
             if is_Exception e then handler e b' else (b', Raise e)
           | done => done
           end.

(** [try: body  finally: final]. *)
Definition try_finally {A} (body : M A) (final : Builder -> Builder) : M A :=
  fun b => let '(b', outcome) := body b in (final b', outcome).

(** [MT5DatabaseBuilder.cleanup]; [close] and [shutdown] are taken not to
    fail. *)
Definition cleanup (b : Builder) : Builder :=
  let b := match connection b with
           | Some _ => Upd.log CallConnectionClose b
           | None => b
           end in
  if mt5_connected b then Upd.log CallShutdown b else b.

(** The methods of the builder that only touch the file system, the
    terminal installation and the log: any behaviour is allowed. *)
Record Periphery : Type := {
  load_config : M Config;
  connect_to_mt5 : string -> M bool;
  setup_database : M unit;
  get_available_symbols : M (list string);
  print_final_stats : M unit
}.

(** The thread pool, as what the coordinating loop observes of it: the
    order in which the submitted tasks complete, and, possibly, the
    completion at which the main thread is interrupted while it waits. *)
Record Schedule : Type := {
  completion_order : list string -> list string;
  interrupt_at : option nat
}.

Section BuildDatabase.

Variable fault : nat -> statement -> bool.
Variable mt5 : Terminal.
Variable env : Periphery.
Variable pool : Schedule.

(** The body of [for future in as_completed(...)], given the outcome of
    [future.result()]. *)
Definition collect (symbol : string) (outcome : res SymbolResult) : M unit :=
  fun b =>
    match outcome with
    | Ok result =>
      let st := Upd.add_processed (stats b) in
      let st := if res_success result then Upd.add_completed symbol st
                else Upd.add_failed symbol st in
      (Upd.with_stats st b, Ok tt)
    | Raise e =>
      if is_Exception e
      then (Upd.with_stats (Upd.add_failed symbol (stats b)) b, Ok tt)
      else (b, Raise e)
    end.

(** Leaving the [with ThreadPoolExecutor] block waits for the tasks that
    are still to run; their results are not looked at. *)
Fixpoint drain (task : string -> M SymbolResult) (order : list string)
    (b : Builder) : Builder :=
  match order with
  | [] => b
  | symbol :: rest => drain task rest (fst (task symbol b))
  end.

(** The tasks, run in their completion order, each followed by the loop
    body on its result. *)
Fixpoint run_pool (task : string -> M SymbolResult) (order : list string)
    (interrupt : option nat) : M unit :=
  fun b =>
    match order with
    | [] => (b, Ok tt)
    | symbol :: rest =>
      match interrupt with
      | Some 0 => (drain task order b, Raise KeyboardInterrupt)
      | _ =>
        let '(b1, outcome) := task symbol b in
        match collect symbol outcome b1 with
        | (b2, Ok _) => run_pool task rest (pred <$> interrupt) b2
        | (b2, Raise e) => (drain task rest b2, Raise e)
        end
      end
    end.

(** [MT5DatabaseBuilder.build_database].  [ThreadPoolExecutor] raises
    [ValueError] when [max_workers] is not positive; otherwise the number
    of workers shows in the order of completion only. *)
Definition build_database : M bool :=
  try_finally
    (try_except
       (let* config := load_config env in
        let* connected := connect_to_mt5 env (mt5_executable_path config) in
        if negb connected then ret false
        else
          let* _ := setup_database env in
          let* symbols_to_process :=
            (if auto_detect_symbols config
             then let* all_symbols := get_available_symbols env in
                  ret (filter_symbols_by_category all_symbols config)
             else ret (symbols_to_download config)) in
          match symbols_to_process with
          | [] => ret false
          | _ =>
            if (max_workers config <=? 0)%Z then throw ValueError
            else
            let* _ := run_pool
                   (fun symbol =>
                      download_symbol_data fault mt5 symbol
                        (cfg_timeframes config) (max_bars_per_request config))
                   (completion_order pool symbols_to_process)
                   (interrupt_at pool) in
            let* _ := print_final_stats env in
            ret true
          end)
       (fun _ => ret false))
    cleanup.

End BuildDatabase.

(** ** Vocabulary of the statements *)

(** A cell from which the code obtains an integer epoch. *)
Definition epoch_convertible (v : cell) : Prop :=
  match v with
  | CTimestamp _ | CNum (FFin _) => True
  | _ => False
  end.

(** A cell holding a number greater than zero; [+inf] is one. *)
Definition is_positive (v : cell) : Prop :=
  match v with
  | CNum (FFin q) => (0 < q)%Q
  | CNum (FInf negative) => negative = false
  | _ => False
  end.

(** A cell holding a finite number greater than zero. *)
Definition is_finite_positive (v : cell) : Prop :=
  match v with
  | CNum (FFin q) => (0 < q)%Q
  | _ => False
  end.

(** The timestamp of the row is present and convertible. *)
Definition timestamp_usable (row : Row) : Prop :=
  exists v, row !! "time" = Some v /\ epoch_convertible v.

(** Each of open, high, low, close is present and positive. *)
Definition ohlc_positive (row : Row) : Prop :=
  forall field, In field required_fields ->
    exists v, row !! field = Some v /\ is_positive v.

(** Each of open, high, low, close is present, finite and positive. *)
Definition ohlc_finite_positive (row : Row) : Prop :=
  forall field, In field required_fields ->
    exists v, row !! field = Some v /\ is_finite_positive v.

(** None of tick_volume, spread, real_volume is an infinity. *)
Definition optional_fields_finite (row : Row) : Prop :=
  forall field negative,
    In field ["tick_volume"; "spread"; "real_volume"] ->
    row !! field <> Some (CNum (FInf negative)).

Definition is_rejected (outcome : RowOutcome) : Prop :=
  exists reason, outcome = Rejected reason.

(** The reasons that come from the handling of the timestamp. *)
Definition timestamp_reason (reason : Reject) : Prop :=
  match reason with
  | TimestampMissing | RowError _ => True
  | _ => False
  end.

(** The tick volume a row carries: the truncated value of the field when
    it is a finite number, 0 otherwise. *)
Definition tick_volume_of (row : Row) : Z :=
  match row !! "tick_volume" with
  | Some (CNum (FFin q)) => Py.trunc q
  | _ => 0%Z
  end.

(** Test data: a raw bar as the terminal delivers it. *)
Definition raw_bar (time : Z) (o h l c : cell) (tick_volume : Z) : Row :=
  list_to_map
    [("time", CNum (FFin (inject_Z time)));
     ("open", o); ("high", h); ("low", l); ("close", c);
     ("tick_volume", CNum (FFin (inject_Z tick_volume)));
     ("spread", CNum (FFin 2)); ("real_volume", CNum (FFin 0))].

Definition price (q : Q) : cell := CNum (FFin q).

(** A bar whose open price is [+inf]. *)
Definition bar_open_inf : Row :=
  raw_bar 1700000000 (CNum (FInf false)) (price 1.2) (price 1.0) (price 1.1) 100.

(** A bar whose close price is [-1]. *)
Definition bar_close_negative : Row :=
  raw_bar 1700003600 (price 1.1) (price 1.2) (price 1.0) (price (-1)) 100.

(** A valid bar. *)
Definition bar_valid (time : Z) : Row :=
  raw_bar time (price 1.1) (price 1.2) (price 1.0) (price 1.15) 100.

(** The effect of one [INSERT OR IGNORE] on the table, and of a sequence
    of them. *)
Definition insert_ignore (rows : list PriceRow) (record : PriceRow) : list PriceRow :=
  if Sql.has_key rows record then rows else rows ++ [record].

Definition insert_all (rows records : list PriceRow) : list PriceRow :=
  fold_left insert_ignore records rows.

(** The backend accepts [record] whenever it is asked to insert it. *)
Definition healthy (fault : nat -> statement -> bool) (record : PriceRow) : Prop :=
  Sql.binds record = true /\ forall n, fault n (InsertPrice record) = false.

(** The backend raises [sqlite3.Error] whenever it is asked to insert
    [record]. *)
Definition failing (fault : nat -> statement -> bool) (record : PriceRow) : Prop :=
  Sql.binds record = true /\ forall n, fault n (InsertPrice record) = true.

(** The first and the last row of the frame carry a date. *)
Definition dated (df : DataFrame) : Prop :=
  exists first_date last_date,
    iso_of (head df) = Ok first_date /\ iso_of (last df) = Ok last_date.

(** The two connections hold the same tables. *)
Definition same_tables (s s' : Store) : Prop :=
  price_data s' = price_data s /\
  download_stats s' = download_stats s /\
  committed_price_data s' = committed_price_data s /\
  committed_download_stats s' = committed_download_stats s.

(** Test data: three valid hourly bars of EURUSD, as [download_symbol_data]
    hands them to [save_price_data]. *)
Definition eurusd_h1_rates : DataFrame :=
  [bar_valid 1700000000; bar_valid 1700003600; bar_valid 1700007200].

Definition eurusd_h1 : DataFrame := Pandas.convert_time eurusd_h1_rates.

(** A backend that fails on every insert of a bar at the given time. *)
Definition fault_at_time (time : Z) : nat -> statement -> bool :=
  fun _ st =>
    match st with
    | InsertPrice record => Z.eqb (bar_time record) time
    | InsertStat _ => false
    end.

(** The two connections differ at most in [price_data] (and in the count
    of statements run). *)
Definition same_but_prices (s s' : Store) : Prop :=
  download_stats s' = download_stats s /\
  committed_price_data s' = committed_price_data s /\
  committed_download_stats s' = committed_download_stats s.

(** The record prepared from [bar_valid time] for EURUSD H1. *)
Definition eurusd_record (time : Z) : PriceRow :=
  {| bar_symbol := "EURUSD"; bar_timeframe := "H1"; bar_time := time;
     bar_open := FFin 1.1; bar_high := FFin 1.2;
     bar_low := FFin 1.0; bar_close := FFin 1.15;
     bar_volume := 100; bar_tick_volume := 100;
     bar_spread := 2; bar_real_volume := 0 |}.

(** The stored volume of the record is its stored tick volume. *)
Definition volume_mirrors_tick_volume (record : PriceRow) : Prop :=
  bar_volume record = bar_tick_volume record.

(** The terminal of the end-to-end scenario: every symbol can be
    selected; EURUSD has three hourly bars and an empty answer on every
    other timeframe. *)
Definition scenario_terminal : Terminal :=
  {| symbol_select := fun _ => Ok true;
     copy_rates_from_pos := fun symbol tf _ _ =>
       match tf with
       | TIMEFRAME_H1 =>
         if String.eqb symbol "EURUSD" then Ok (Some eurusd_h1_rates)
         else Ok (Some [])
       | _ => Ok (Some [])
       end |}.

(** A builder connected to the terminal and to an empty database. *)
Definition ready_builder : Builder :=
  {| connection := Some empty_store; mt5_connected := true;
     stats := initial_stats; calls := [] |}.

(** The tables of the builder, when it has a connection. *)
Definition stat_rows (b : Builder) : list StatRow :=
  match connection b with
  | Some s => download_stats s
  | None => []
  end.

Definition price_rows (b : Builder) : list PriceRow :=
  match connection b with
  | Some s => price_data s
  | None => []
  end.

(** The tags [download_symbol_data] knows. *)
Definition supported_tags : list string :=
  ["M1"; "M5"; "M15"; "M30"; "H1"; "H4"; "D1"; "W1"; "MN1"].

(** The terminal raises nothing but [Exception]s: a [KeyboardInterrupt]
    is delivered to the main thread, never to a worker in a terminal
    call. *)
Definition raises_exceptions_only (mt5 : Terminal) : Prop :=
  (forall symbol e, symbol_select mt5 symbol = Raise e -> is_Exception e = true) /\
  (forall symbol tf start count e,
     copy_rates_from_pos mt5 symbol tf start count = Raise e ->
     is_Exception e = true).

(** [mt5.symbol_select(symbol, True)] answers [True]. *)
Definition selectable (mt5 : Terminal) (symbol : string) : bool :=
  match symbol_select mt5 symbol with
  | Ok true => true
  | _ => false
  end.

(** The fetches made for [symbol], in order. *)
Definition fetches_of (symbol : string) (cs : list call) : list call :=
  List.filter
    (fun c => match c with
              | CallCopyRates s _ _ _ => String.eqb s symbol
              | _ => false
              end) cs.

(** The two statistics agree on the fields the coordinating loop owns. *)
Definition same_symbols (st st' : Stats) : Prop :=
  symbols_processed st' = symbols_processed st /\
  symbols_completed st' = symbols_completed st /\
  symbols_failed st' = symbols_failed st.

(** The builder as [__init__] leaves it. *)
Definition fresh_builder : Builder :=
  {| connection := None; mt5_connected := false;
     stats := initial_stats; calls := [] |}.

(** The configuration of the end-to-end scenario. *)
Definition scenario_config : Config :=
  {| mt5_executable_path := ""; symbols_to_download := ["EURUSD"];
     cfg_timeframes := ["M1"; "H1"]; max_bars_per_request := 50000;
     include_indices := true; include_forex := true;
     include_commodities := true; include_crypto := true;
     auto_detect_symbols := false; max_workers := 4 |}.

(** A periphery in which everything works: the configuration is read,
    the terminal answers, and the database opens empty. *)
Definition scenario_env (config : Config) : Periphery :=
  {| load_config := ret config;
     connect_to_mt5 := fun _ b =>
       ({| connection := connection b; mt5_connected := true;
           stats := stats b; calls := calls b |}, Ok true);
     setup_database := fun b => (Upd.with_connection (Some empty_store) b, Ok tt);
     get_available_symbols := ret [];
     print_final_stats := ret tt |}.

(** The tasks complete in the order of submission; no interrupt. *)
Definition in_order : Schedule :=
  {| completion_order := fun symbols => symbols; interrupt_at := None |}.

(** The end-to-end run. *)
Definition scenario_run : Builder * res bool :=
  build_database no_fault scenario_terminal (scenario_env scenario_config)
    in_order fresh_builder.

(** The statistics row of the three hourly bars of EURUSD. *)
Definition eurusd_h1_stat : StatRow :=
  {| stat_symbol := "EURUSD"; stat_timeframe := "H1"; stat_bars_count := 3;
     stat_first_date := Iso (inject_Z 1700000000);
     stat_last_date := Iso (inject_Z 1700007200);
     stat_success := true |}.

(** A terminal on which every symbol but "B" can be selected, and which
    has no data. *)
Definition abc_terminal : Terminal :=
  {| symbol_select := fun symbol => Ok (negb (String.eqb symbol "B"));
     copy_rates_from_pos := fun _ _ _ _ => Ok None |}.

(** The calls by which [cleanup] releases what the builder holds. *)
Definition cleanup_calls (b : Builder) : list call :=
  match connection b with Some _ => [CallConnectionClose] | None => [] end
  ++ (if mt5_connected b then [CallShutdown] else []).

(** The main thread is interrupted while it waits for the first task. *)
Definition interrupted : Schedule :=
  {| completion_order := fun symbols => symbols; interrupt_at := Some 0 |}.

(** A periphery whose database cannot be opened. *)
Definition broken_database_env (config : Config) : Periphery :=
  {| load_config := load_config (scenario_env config);
     connect_to_mt5 := connect_to_mt5 (scenario_env config);
     setup_database := fun b => (b, Raise SqliteError);
     get_available_symbols := get_available_symbols (scenario_env config);
     print_final_stats := print_final_stats (scenario_env config) |}.

(** Three bars of which the second carries a tick volume of [10^19],
    which a 64-bit unsigned column holds and SQLite's INTEGER does not. *)
Definition eurusd_h1_huge_volume : DataFrame :=
  Pandas.convert_time
    [bar_valid 1700000000;
     raw_bar 1700003600 (price 1.1) (price 1.2) (price 1.0) (price 1.15) (10 ^ 19);
     bar_valid 1700007200].

(** ** Vocabulary of the further statements *)

(** What an accepted row is turned into, [None] for a rejected one. *)
Definition accepted_of (symbol timeframe : string) (row : Row) : option PriceRow :=
  match process_row symbol timeframe row with
  | Accepted record => Some record
  | Rejected _ => None
  end.

(** The integer epoch the code reads off the [time] cell. *)
Definition epoch_of (row : Row) : option Z :=
  match row !! "time" with
  | Some (CTimestamp epoch) => Some (Py.trunc epoch)
  | Some (CNum (FFin q)) => Some (Py.trunc q)
  | _ => None
  end.

(** The number held by a cell of the row. *)
Definition number_of (row : Row) (field : string) : option fval :=
  match row !! field with
  | Some (CNum x) => Some x
  | _ => None
  end.

(** The integer an optional field stands for: its truncated value when it
    is a finite number, 0 otherwise. *)
Definition int_field_of (row : Row) (field : string) : Z :=
  match row !! field with
  | Some (CNum (FFin q)) => Py.trunc q
  | _ => 0%Z
  end.

(** The key of the unique index of [price_data]. *)
Definition key_of (record : PriceRow) : string * string * Z :=
  (bar_symbol record, bar_timeframe record, bar_time record).

(** No two rows of the table have the same key. *)
Definition unique_keys (rows : list PriceRow) : Prop :=
  NoDup (map key_of rows).

(** A valid bar whose spread is [+inf]. *)
Definition bar_spread_inf : Row :=
  <["spread" := CNum (FInf false)]> (bar_valid 1700000000).

(** The backend accepts the records when they are run, one statement
    each, from statement number [n] on. *)
Definition quiet (fault : nat -> statement -> bool) (n : nat)
    (records : list PriceRow) : Prop :=
  forall j r, records !! j = Some r ->
    Sql.binds r = true /\ fault (n + j) (InsertPrice r) = false.

(** A backend whose only failure is at statement number [n]. *)
Definition fault_once (n : nat) : nat -> statement -> bool :=
  fun m _ => (m =? n)%nat.

(** The terminal constants of the supported tags of a list, in order. *)
Definition tag_values (tfs : list string) : list Timeframe :=
  omap (fun tf => timeframes !! tf) tfs.

(** What holds of every entry of [results['timeframes']]. *)
Definition entry_consistent (entry : TfResult) : Prop :=
  bars_saved entry <= bars_count entry /\
  (tf_success entry = true <-> 0 < bars_saved entry) /\
  (tf_success entry = true ->
   tf_error entry = None /\ is_Some (first_date entry) /\ is_Some (last_date entry)) /\
  (tf_success entry = false /\ bars_count entry = 0 -> is_Some (tf_error entry)).

(** ** The configuration file *)

(** JSON values. *)
#[local] Unset Elimination Schemes.
Inductive json : Type :=
| JNull
| JBool (b : bool)
| JNumber (q : Q)
| JString (s : string)
| JArray (items : list json)
| JObject (members : list (string * json)).
#[local] Set Elimination Schemes.

(** [default_config] of [load_config], in the order of the literal. *)
Definition default_config : list (string * json) :=
  [("mt5_executable_path", JString "");
   ("symbols_to_download", JArray []);
   ("timeframes",
    JArray (map JString ["M1"; "M5"; "M15"; "M30"; "H1"; "H4"; "D1"; "W1"; "MN1"]));
   ("max_bars_per_request", JNumber (inject_Z 50000));
   ("batch_size", JNumber (inject_Z 10));
   ("include_indices", JBool true);
   ("include_forex", JBool true);
   ("include_commodities", JBool true);
   ("include_crypto", JBool true);
   ("auto_detect_symbols", JBool true);
   ("max_workers", JNumber (inject_Z 4))].

(** The configuration file as [load_config] finds it: absent; present
    but such that opening or parsing it raises; or holding a JSON object.
    A file that holds another kind of JSON value is outside this model. *)
Inductive ConfigFile : Type :=
| FileMissing
| FileUnreadable
| FileObject (config : gmap string json).

(** The loop [for key, value in default_config.items()] of
    [load_config]. *)
Definition merge_defaults (config : gmap string json) : gmap string json :=
  fold_left
    (fun (config : gmap string json) (item : string * json) =>
       match config !! item.1 with
       | Some _ => config
       | None => <[item.1 := item.2]> config
       end)
    default_config config.

(** [MT5DatabaseBuilder.load_config]: the file afterwards and the
    configuration returned.  A missing file is created with the defaults
    by [save_config], which swallows its own failure ([writable] tells
    whether it succeeds); what [json.dump] writes is what [json.load]
    reads back. *)
Definition load_config_file (file : ConfigFile) (writable : bool)
    : ConfigFile * gmap string json :=
  match file with
  | FileObject config => (file, merge_defaults config)
  | FileUnreadable => (file, list_to_map default_config)
  | FileMissing =>
    (if writable then FileObject (list_to_map default_config) else FileMissing,
     list_to_map default_config)
  end.

(** [config.get(key, fallback)]. *)
Definition dict_get (config : gmap string json) (key : string) (fallback : json) : json :=
  match config !! key with
  | Some value => value
  | None => fallback
  end.

(** The keys [build_database] and [filter_symbols_by_category] read with
    [config.get]. *)
Definition consulted_keys : list string :=
  ["mt5_executable_path"; "auto_detect_symbols"; "symbols_to_download";
   "timeframes"; "max_bars_per_request"; "max_workers";
   "include_indices"; "include_forex"; "include_commodities"; "include_crypto"].

(** Whether [filter_symbols_by_category] lets a category through. *)
Definition category_enabled (config : Config) (category : Category) : bool :=
  match category with
  | INDEX => include_indices config
  | FOREX => include_forex config
  | COMMODITY => include_commodities config
  | CRYPTO => include_crypto config
  | OTHER => true
  end.

(** ** The symbol table *)

(** A symbol as the terminal describes it; every attribute but the name
    is read with [getattr] and a default. *)
Record RawSymbol : Type := {
  raw_name : string;
  raw_description : option string;
  raw_currency_base : option string;
  raw_currency_profit : option string;
  raw_currency_margin : option string;
  raw_digits : option Z;
  raw_point : option Q;
  raw_trade_mode : option Z;
  raw_trade_execution : option Z;
  raw_swap_mode : option Z
}.

(** A row of [symbol_info]: the eleven values bound to the statement,
    and [last_update], which the database sets to the time of the
    statement (column default [CURRENT_TIMESTAMP]). *)
Record InfoRow : Type := {
  info_symbol : string;
  info_description : string;
  info_currency_base : string;
  info_currency_profit : string;
  info_currency_margin : string;
  info_digits : Z;
  info_point : Q;
  info_trade_mode : Z;
  info_trade_execution : Z;
  info_swap_mode : Z;
  info_category : Category;
  info_last_update : Z
}.

(** The row that [INSERT OR REPLACE INTO symbol_info] stores for the
    symbol when it runs at the time [now]. *)
Definition info_row (now : Z) (symbol : RawSymbol) : InfoRow :=
  let category := classify_symbol (raw_name symbol) in
  {| info_symbol := raw_name symbol;
     info_description := default "" (raw_description symbol);
     info_currency_base := default "" (raw_currency_base symbol);
     info_currency_profit := default "" (raw_currency_profit symbol);
     info_currency_margin := default "" (raw_currency_margin symbol);
     info_digits := default 0%Z (raw_digits symbol);
     info_point := default 0%Q (raw_point symbol);
     info_trade_mode := default 0%Z (raw_trade_mode symbol);
     info_trade_execution := default 0%Z (raw_trade_execution symbol);
     info_swap_mode := default 0%Z (raw_swap_mode symbol);
     info_category := category;
     info_last_update := now |}.

(** The row without the time of its last update. *)
Definition unstamped (row : InfoRow) : InfoRow :=
  {| info_symbol := info_symbol row;
     info_description := info_description row;
     info_currency_base := info_currency_base row;
     info_currency_profit := info_currency_profit row;
     info_currency_margin := info_currency_margin row;
     info_digits := info_digits row;
     info_point := info_point row;
     info_trade_mode := info_trade_mode row;
     info_trade_execution := info_trade_execution row;
     info_swap_mode := info_swap_mode row;
     info_category := info_category row;
     info_last_update := 0 |}.

(** The table [symbol_info], whose primary key is the symbol: as seen on
    the connection, and as last committed. *)
Record SymbolDb : Type := {
  symbol_info : gmap string InfoRow;
  committed_symbol_info : gmap string InfoRow
}.

(** The loop of [save_symbols_info]: [INSERT OR REPLACE] puts the row in
    the place of the one with the same symbol.  [clock i] is the time at
    which the [i]-th statement of the call runs, and [fault i row] says
    that it raises; the loop is then left, with the earlier rows in the
    open transaction. *)
Fixpoint replace_rows (fault : nat -> InfoRow -> bool) (clock : nat -> Z)
    (i : nat) (symbols : list RawSymbol) (table : gmap string InfoRow)
    : gmap string InfoRow * bool :=
  match symbols with
  | [] => (table, true)
  | symbol :: rest =>
    if fault i (info_row (clock i) symbol) then (table, false)
    else replace_rows fault clock (S i) rest
           (<[raw_name symbol := info_row (clock i) symbol]> table)
  end.

(** [MT5DatabaseBuilder.save_symbols_info], on an open connection: the
    commit is reached only if no statement raised; the exception is
    logged and swallowed. *)
Definition save_symbols_info (fault : nat -> InfoRow -> bool)
    (clock : nat -> Z) (symbols : list RawSymbol) (db : SymbolDb) : SymbolDb :=
  match replace_rows fault clock 0 symbols (symbol_info db) with
  | (table, true) => {| symbol_info := table; committed_symbol_info := table |}
  | (table, false) =>
    {| symbol_info := table; committed_symbol_info := committed_symbol_info db |}
  end.

(** [MT5DatabaseBuilder.get_available_symbols], given the flag
    [mt5_connected] and the answer of [mt5.symbols_get()]. *)
Definition get_available_symbols_of (connected : bool)
    (symbols_get : res (option (list RawSymbol)))
    (fault : nat -> InfoRow -> bool) (clock : nat -> Z) (db : SymbolDb)
    : SymbolDb * res (list string) :=
  if negb connected then (db, Ok [])
  else match symbols_get with
       | Raise e => if is_Exception e then (db, Ok []) else (db, Raise e)
       | Ok None | Ok (Some []) => (db, Ok [])
       | Ok (Some symbols) =>
         let symbol_list := map raw_name symbols in
         (save_symbols_info fault clock symbols db, Ok symbol_list)
       end.

(** The last symbol of the list that has the given name. *)
Definition last_named (name : string) (symbols : list RawSymbol) : option RawSymbol :=
  List.find (fun symbol => String.eqb (raw_name symbol) name) (rev symbols).

(** A backend of the symbol table that never fails. *)
Definition no_info_fault : nat -> InfoRow -> bool := fun _ _ => false.

(** ** The connection to the terminal *)

(** The terminal calls of [connect_to_mt5]: the two information calls
    answer the object asked for ([true]) or [None] ([false]). *)
Record TerminalApi : Type := {
  path_exists : string -> bool;
  initialize : option string -> res bool;
  terminal_info : res bool;
  account_info : res bool
}.

(** The body of the [try] of [connect_to_mt5]: the new value of
    [mt5_connected], if it is set, and the value returned; reading an
    attribute of [None] raises [AttributeError]. *)
Definition connect_body (api : TerminalApi) (executable_path : string) : res bool :=
  let started :=
    if negb (String.eqb executable_path "") && path_exists api executable_path
    then initialize api (Some executable_path)
    else initialize api None in
  match started with
  | Raise e => Raise e
  | Ok false => Ok false
  | Ok true =>
    match terminal_info api with
    | Raise e => Raise e
    | Ok has_terminal =>
      match account_info api with
      | Raise e => Raise e
      | Ok has_account =>
        if has_terminal && has_account then Ok true else Raise AttributeError
      end
    end
  end.

(** [MT5DatabaseBuilder.connect_to_mt5]. *)
Definition connect_to_mt5_with (api : TerminalApi) (executable_path : string) : M bool :=
  try_except
    (fun b =>
       match connect_body api executable_path with
       | Ok true =>
         ({| connection := connection b; mt5_connected := true;
             stats := stats b; calls := calls b |}, Ok true)
       | Ok false => (b, Ok false)
       | Raise e => (b, Raise e)
       end)
    (fun _ => ret false).

(** The terminal has been started by [connect_to_mt5]. *)
Definition terminal_started (api : TerminalApi) (executable_path : string) : Prop :=
  (if negb (String.eqb executable_path "") && path_exists api executable_path
   then initialize api (Some executable_path)
   else initialize api None) = Ok true.

(** A terminal that starts but has no account to report. *)
Definition no_account_api : TerminalApi :=
  {| path_exists := fun _ => false;
     initialize := fun _ => Ok true;
     terminal_info := Ok true;
     account_info := Ok false |}.

(** The periphery in which everything works but the connection, which
    is [connect_to_mt5] itself on the given terminal. *)
Definition terminal_env (api : TerminalApi) (config : Config) : Periphery :=
  {| load_config := load_config (scenario_env config);
     connect_to_mt5 := connect_to_mt5_with api;
     setup_database := setup_database (scenario_env config);
     get_available_symbols := get_available_symbols (scenario_env config);
     print_final_stats := print_final_stats (scenario_env config) |}.

(** ** [main] *)

(** The answers [main] takes for a yes. *)
Definition affirmative : list string := ["s"; "si"; "sì"; "y"; "yes"].

(** [main] of the builder, from the point where [response] holds the
    stripped, lower-cased answer of the user; [build] is
    [builder.build_database()]. *)
Definition builder_main (env : Periphery) (build : M bool) (response : string) : M unit :=
  let* _ := load_config env in
  if bool_decide (In response affirmative) then
    fun b =>
      match build b with
      | (b', Ok _) => (b', Ok tt)
      | (b', Raise _) => (cleanup b', Ok tt)
      end
  else ret tt.

(** Test data: a symbol of which the terminal gives the name only, and
    an empty symbol table. *)
Definition bare_symbol (name : string) : RawSymbol :=
  {| raw_name := name; raw_description := None; raw_currency_base := None;
     raw_currency_profit := None; raw_currency_margin := None;
     raw_digits := None; raw_point := None; raw_trade_mode := None;
     raw_trade_execution := None; raw_swap_mode := None |}.

Definition empty_symbol_db : SymbolDb :=
  {| symbol_info := ∅; committed_symbol_info := ∅ |}.

(** A backend of the symbol table that fails at its second statement. *)
Definition info_fault_second : nat -> InfoRow -> bool := fun i _ => (i =? 1)%nat.

(** A clock that gives each statement its own second. *)
Definition second_clock (start : Z) : nat -> Z := fun i => (start + Z.of_nat i)%Z.

(** ** The coordinating loop under an interrupt *)

(** An update of the statistics by the coordinating loop: it commutes
    with the two updates the tasks make, and leaves their counters
    alone. *)
Definition loop_update (g : Stats -> Stats) : Prop :=
  (forall n st, g (Upd.add_bars n st) = Upd.add_bars n (g st)) /\
  (forall st, g (Upd.add_error st) = Upd.add_error (g st)) /\
  (forall st, total_bars_downloaded (g st) = total_bars_downloaded st) /\
  (forall st, errors (g st) = errors st).

(** The builder with its statistics updated by [g]. *)
Definition lift (g : Stats -> Stats) (b : Builder) : Builder :=
  Upd.with_stats (g (stats b)) b.

(** The number of results the loop looks at before it is left. *)
Definition collected (interrupt : option nat) (order : list string) : nat :=
  match interrupt with
  | None => length order
  | Some k => Nat.min k (length order)
  end.

(** ** The connection manager *)

Module Manager.

Definition index_patterns : list string :=
  ["US30"; "NAS100"; "SPX500"; "UK100"; "GER30"; "FRA40"; "JPN225";
   "AUS200"; "US500"; "USTEC"; "DJ30"; "DAX30"; "CAC40"; "FTSE";
   "NDX"; "SPY"; "QQQ"; "IWM"; "VIX"].

Definition forex_patterns : list string :=
  ["EURUSD"; "GBPUSD"; "USDJPY"; "USDCHF"; "AUDUSD"; "USDCAD";
   "NZDUSD"; "EURJPY"; "GBPJPY"; "EURGBP"; "CHFJPY"; "GBPCHF"].

Definition commodity_patterns : list string :=
  ["GOLD"; "SILVER"; "OIL"; "BRENT"; "XAUUSD"; "XAGUSD"; "USOIL"; "UKOIL"].

Definition crypto_patterns : list string :=
  ["BTC"; "ETH"; "LTC"; "XRP"; "ADA"; "DOT"; "BITCOIN"; "ETHEREUM"].

(** The lists [get_available_symbols] sorts the symbols into. *)
Inductive Group : Set := Indices | Forex | Commodities | Crypto | Stocks | Others.

(** The place of a list in the returned concatenation. *)
Definition rank (g : Group) : nat :=
  match g with
  | Indices => 0 | Forex => 1 | Commodities => 2
  | Crypto => 3 | Stocks => 4 | Others => 5
  end.

Definition is_letter (c : ascii) : bool :=
  let n := nat_of_ascii c in
  ((65 <=? n)%nat && (n <=? 90)%nat) || ((97 <=? n)%nat && (n <=? 122)%nat).

Fixpoint all_letters (s : string) : bool :=
  match s with
  | EmptyString => true
  | String c s' => is_letter c && all_letters s'
  end.

(** [s.isalpha()] on an ASCII string.  A letter that is not ASCII, which
    Python counts as alphabetic, is not one here: a short name with such
    a letter goes to the stocks in the code and to the others here.  The
    four pattern tests before it are exact on every name. *)
Definition isalpha (s : string) : bool :=
  match s with
  | EmptyString => false
  | _ => all_letters s
  end.

(** The [if/elif] chain of the loop over the symbols. *)
Definition group_of (symbol_name : string) : Group :=
  let name := Str.upper symbol_name in
  if Str.any_in index_patterns name then Indices
  else if Str.any_in forex_patterns name then Forex
  else if Str.any_in commodity_patterns name then Commodities
  else if Str.any_in crypto_patterns name then Crypto
  else if (Str.len name <=? 6)%nat && isalpha name then Stocks
  else Others.

Definition in_group (g : Group) (names : list string) : list string :=
  List.filter (fun name => Nat.eqb (rank (group_of name)) (rank g)) names.

(** The six lists the loop appends to. *)
Record Buckets : Set := {
  indices : list string;
  forex : list string;
  commodities : list string;
  crypto : list string;
  stocks : list string;
  others : list string
}.

Definition empty_buckets : Buckets :=
  {| indices := []; forex := []; commodities := []; crypto := [];
     stocks := []; others := [] |}.

(** One turn of [for symbol in symbols]. *)
Definition append_symbol (bk : Buckets) (symbol_name : string) : Buckets :=
  match group_of symbol_name with
  | Indices =>
    {| indices := indices bk ++ [symbol_name]; forex := forex bk;
       commodities := commodities bk; crypto := crypto bk;
       stocks := stocks bk; others := others bk |}
  | Forex =>
    {| indices := indices bk; forex := forex bk ++ [symbol_name];
       commodities := commodities bk; crypto := crypto bk;
       stocks := stocks bk; others := others bk |}
  | Commodities =>
    {| indices := indices bk; forex := forex bk;
       commodities := commodities bk ++ [symbol_name]; crypto := crypto bk;
       stocks := stocks bk; others := others bk |}
  | Crypto =>
    {| indices := indices bk; forex := forex bk;
       commodities := commodities bk; crypto := crypto bk ++ [symbol_name];
       stocks := stocks bk; others := others bk |}
  | Stocks =>
    {| indices := indices bk; forex := forex bk;
       commodities := commodities bk; crypto := crypto bk;
       stocks := stocks bk ++ [symbol_name]; others := others bk |}
  | Others =>
    {| indices := indices bk; forex := forex bk;
       commodities := commodities bk; crypto := crypto bk;
       stocks := stocks bk; others := others bk ++ [symbol_name] |}
  end.

(** [MT5Manager.get_available_symbols]: [connected] is the truth value
    of [mt5.terminal_info()], [symbols] the names of what
    [mt5.symbols_get()] answers.  The two parameters only decide what is
    printed. *)
Definition get_available_symbols (connected : bool) (symbols : option (list string))
    (limit : Z) (prefer_indices : bool) : list string :=
  if negb connected then []
  else match symbols with
       | None | Some [] => []
       | Some names =>
         let bk := fold_left append_symbol names empty_buckets in
         indices bk ++ forex bk ++ commodities bk ++ crypto bk
         ++ stocks bk ++ others bk
       end.

(** The order of the returned list: by the place of the group. *)
Definition group_le (a b : string) : Prop :=
  rank (group_of a) <= rank (group_of b).

(** An entry of [mt5_installations]. *)
Record Installation : Set := {
  inst_name : string;
  inst_path : string;
  inst_executable : string
}.

(** How [select_installation] ends: with an installation, with [None],
    or with the exception of [input()] when the input is exhausted. *)
Inductive Selection : Set :=
| Selected (installation : Installation)
| NoSelection
| InputClosed.

Section Select.

(** [int(choice)], [None] when it raises [ValueError]. *)
Variable parse_int : string -> option Z.

(** The [while True] loop over the lines the user types. *)
Fixpoint choose (installations : list Installation) (lines : list string) : Selection :=
  match lines with
  | [] => InputClosed
  | choice :: rest =>
    if String.eqb (Str.lower choice) "q" then NoSelection
    else match parse_int choice with
         | None => choose installations rest
         | Some n =>
           let choice_idx := (n - 1)%Z in
           if (0 <=? choice_idx)%Z && (choice_idx <? Z.of_nat (length installations))%Z
           then match installations !! Z.to_nat choice_idx with
                | Some selected => Selected selected
                | None => InputClosed
                end
           else choose installations rest
         end
  end.

(** [MT5Manager.select_installation], given what
    [find_mt5_installations] has found. *)
Definition select_installation (installations : list Installation)
    (lines : list string) : Selection :=
  match installations with
  | [] => NoSelection
  | _ => choose installations lines
  end.

(** A line that neither quits nor names an installation. *)
Definition ignored (installations : list Installation) (choice : string) : Prop :=
  Str.lower choice <> "q" /\
  forall n, parse_int choice = Some n ->
            (n < 1 \/ Z.of_nat (length installations) < n)%Z.

End Select.

End Manager.

(** Test data: a reader of one-digit numbers, and two installations. *)
Definition parse_digit (s : string) : option Z :=
  match s with
  | String c EmptyString =>
    let n := nat_of_ascii c in
    if (48 <=? n)%nat && (n <=? 57)%nat then Some (Z.of_nat (n - 48)) else None
  | _ => None
  end.

Definition two_installations : list Manager.Installation :=
  [{| Manager.inst_name := "MetaTrader 5"; Manager.inst_path := "C:\MT5";
      Manager.inst_executable := "C:\MT5\terminal64.exe" |};
   {| Manager.inst_name := "MetaTrader 5 - XM"; Manager.inst_path := "C:\XM";
      Manager.inst_executable := "C:\XM\terminal64.exe" |}].

(** * Properties *)

(** ** The classifier *)

Lemma upper_char_idem (c : ascii) : Str.upper_char (Str.upper_char c) = Str.upper_char c.
Proof. destruct c as [[] [] [] [] [] [] [] []]; reflexivity. Qed.

Lemma upper_lower_char (c : ascii) : Str.upper_char (Str.lower_char c) = Str.upper_char c.
Proof. destruct c as [[] [] [] [] [] [] [] []]; reflexivity. Qed.

Lemma upper_char_ascii (c : ascii) :
  Str.is_ascii_char c = true -> Str.is_ascii_char (Str.upper_char c) = true.
Proof. destruct c as [[] [] [] [] [] [] [] []]; intros H; try discriminate H; reflexivity. Qed.

Lemma lower_char_ascii (c : ascii) :
  Str.is_ascii_char c = true -> Str.is_ascii_char (Str.lower_char c) = true.
Proof. destruct c as [[] [] [] [] [] [] [] []]; intros H; try discriminate H; reflexivity. Qed.

(** On an ASCII character [upper] works character by character. *)
Lemma upper_ascii_cons (c : ascii) (s : string) :
  Str.is_ascii_char c = true ->
  Str.upper (String c s) = String (Str.upper_char c) (Str.upper s).
Proof.
  destruct c as [b0 b1 b2 b3 b4 b5 b6 b7]. destruct b7.
  - destruct b0, b1, b2, b3, b4, b5, b6; discriminate.
  - intros _. destruct b0, b1, b2, b3, b4, b5, b6; reflexivity.
Qed.

Lemma upper_ascii (s : string) :
  Str.is_ascii s = true -> Str.is_ascii (Str.upper s) = true.
Proof.
  induction s as [|c s IH]; [reflexivity|]. cbn [Str.is_ascii].
  intros [Hc Hs]%andb_prop. rewrite (upper_ascii_cons c s Hc).
  cbn [Str.is_ascii]. now rewrite (upper_char_ascii c Hc), (IH Hs).
Qed.

Lemma lower_ascii (s : string) :
  Str.is_ascii s = true -> Str.is_ascii (Str.lower s) = true.
Proof.
  induction s as [|c s IH]; [reflexivity|]. simpl.
  intros [Hc Hs]%andb_prop. now rewrite (lower_char_ascii c Hc), (IH Hs).
Qed.

Lemma upper_idem (s : string) :
  Str.is_ascii s = true -> Str.upper (Str.upper s) = Str.upper s.
Proof.
  induction s as [|c s IH]; [reflexivity|]. cbn [Str.is_ascii].
  intros [Hc Hs]%andb_prop. rewrite (upper_ascii_cons c s Hc).
  rewrite (upper_ascii_cons _ _ (upper_char_ascii c Hc)).
  now rewrite upper_char_idem, (IH Hs).
Qed.

Lemma upper_lower (s : string) :
  Str.is_ascii s = true -> Str.upper (Str.lower s) = Str.upper s.
Proof.
  induction s as [|c s IH]; [reflexivity|]. cbn [Str.is_ascii Str.lower].
  intros [Hc Hs]%andb_prop.
  rewrite (upper_ascii_cons _ _ (lower_char_ascii c Hc)), (upper_ascii_cons c s Hc).
  now rewrite upper_lower_char, (IH Hs).
Qed.

Lemma len_ascii (s : string) :
  Str.is_ascii s = true -> Str.len s = String.length s.
Proof.
  induction s as [|c s IH]; [reflexivity|]. simpl.
  intros [Hc Hs]%andb_prop. rewrite (IH Hs).
  destruct c as [[] [] [] [] [] [] [] []]; try discriminate Hc; reflexivity.
Qed.

Lemma len_upper (s : string) :
  Str.is_ascii s = true -> Str.len (Str.upper s) = Str.len s.
Proof.
  induction s as [|c s IH]; [reflexivity|]. cbn [Str.is_ascii].
  intros [Hc Hs]%andb_prop. rewrite (upper_ascii_cons c s Hc).
  cbn [Str.len]. rewrite (IH Hs).
  destruct c as [[] [] [] [] [] [] [] []]; try discriminate Hc; reflexivity.
Qed.

Lemma len_lower (s : string) : Str.len (Str.lower s) = Str.len s.
Proof.
  induction s as [|c s IH]; [reflexivity|]. simpl. rewrite IH.
  destruct c as [[] [] [] [] [] [] [] []]; reflexivity.
Qed.

(** The category depends on the ticker only through its upper-case form
    and its length. *)
Lemma classify_symbol_upper_length (s t : string) :
  Str.upper s = Str.upper t -> Str.len s = Str.len t ->
  classify_symbol s = classify_symbol t.
Proof. intros Hu Hl. unfold classify_symbol. now rewrite Hu, Hl. Qed.

(** C3: of the five fixture tickers, "US30" is an INDEX, "EURUSD" is
    FOREX and "ZZZZZZ" is OTHER, as the claim says; but "XAUUSD" and
    "BTCUSD", six characters long and containing "USD", are caught by the
    forex test before the commodity patterns (among them XAU) and the
    crypto patterns (among them BTC) are tried, and come out FOREX where
    the claim says COMMODITY and CRYPTO.  The connection manager, which
    tests its lists in the order indices, forex, commodities, crypto as
    well, puts the same two tickers into commodities and crypto. *)
Theorem classify_symbol_fixtures :
  classify_symbol "US30" = INDEX /\
  classify_symbol "EURUSD" = FOREX /\
  classify_symbol "XAUUSD" = FOREX /\
  classify_symbol "BTCUSD" = FOREX /\
  classify_symbol "ZZZZZZ" = OTHER /\
  Str.any_in commodity_patterns (Str.upper "XAUUSD") = true /\
  Str.any_in crypto_patterns (Str.upper "BTCUSD") = true /\
  Manager.group_of "XAUUSD" = Manager.Commodities /\
  Manager.group_of "BTCUSD" = Manager.Crypto.
Proof. repeat split; reflexivity. Qed.

(** C7: [classify_symbol] is a total function into the five categories
    that tries the index patterns first, then the forex patterns on
    tickers of length exactly 6, then the commodity patterns, then the
    crypto patterns, the first match deciding; a ticker that matches an
    index pattern is an INDEX whatever else it matches, and a ticker that
    matches nothing is OTHER.  The letter case of an ASCII ticker does
    not matter.  But the function is not case-insensitive: the forex test
    measures the ticker as given, while the patterns are looked for in
    its upper-case form, and a capital may be longer than its letter.
    The five-character ticker that ends in a sharp s is OTHER, and its
    upper-case form "EURUSS" is FOREX. *)
Theorem classify_symbol_priority :
  (forall symbol : string,
     let u := Str.upper symbol in
     let index := Str.any_in index_patterns u in
     let forex := (Str.len symbol =? 6)%nat && Str.any_in forex_patterns u in
     let commodity := Str.any_in commodity_patterns u in
     let crypto := Str.any_in crypto_patterns u in
     In (classify_symbol symbol) [INDEX; FOREX; COMMODITY; CRYPTO; OTHER] /\
     (index = true -> classify_symbol symbol = INDEX) /\
     (index = false -> forex = true -> classify_symbol symbol = FOREX) /\
     (index = false -> forex = false -> commodity = true ->
      classify_symbol symbol = COMMODITY) /\
     (index = false -> forex = false -> commodity = false -> crypto = true ->
      classify_symbol symbol = CRYPTO) /\
     (index = false -> forex = false -> commodity = false -> crypto = false ->
      classify_symbol symbol = OTHER) /\
     (Str.is_ascii symbol = true ->
      classify_symbol (Str.upper symbol) = classify_symbol symbol /\
      classify_symbol (Str.lower symbol) = classify_symbol symbol)) /\
  Str.len eur_sharp_s = 5 /\
  Str.upper eur_sharp_s = "EURUSS" /\
  classify_symbol eur_sharp_s = OTHER /\
  classify_symbol (Str.upper eur_sharp_s) = FOREX.
Proof.
  split; [|repeat split; reflexivity].
  intros symbol u index forex commodity crypto.
  assert (Hdef : classify_symbol symbol =
                 if index then INDEX else if forex then FOREX
                 else if commodity then COMMODITY
                 else if crypto then CRYPTO else OTHER) by reflexivity.
  split.
  { rewrite Hdef. destruct index, forex, commodity, crypto; simpl; tauto. }
  repeat split.
  - intros Hi. now rewrite Hdef, Hi.
  - intros Hi Hf. now rewrite Hdef, Hi, Hf.
  - intros Hi Hf Hc. now rewrite Hdef, Hi, Hf, Hc.
  - intros Hi Hf Hc Hy. now rewrite Hdef, Hi, Hf, Hc, Hy.
  - intros Hi Hf Hc Hy. now rewrite Hdef, Hi, Hf, Hc, Hy.
  - apply classify_symbol_upper_length;
      [now apply upper_idem | now apply len_upper].
  - apply classify_symbol_upper_length;
      [now apply upper_lower | apply len_lower].
Qed.

(** "vixusd" matches the index pattern VIX and, being six characters
    long and containing USD, the forex test as well: it is an INDEX. *)
Lemma classify_symbol_priority_witness :
  Str.any_in index_patterns (Str.upper "vixusd") = true /\
  ((Str.len "vixusd" =? 6)%nat
   && Str.any_in forex_patterns (Str.upper "vixusd") = true) /\
  classify_symbol "vixusd" = INDEX.
Proof.
  split; [reflexivity|]. split; [reflexivity|].
  apply (proj1 (proj2 (proj1 classify_symbol_priority "vixusd"))). reflexivity.
Defined.

(** ** The per-row validation *)

Lemma le_zero_positive (v : cell) :
  Py.isna v = false -> (Py.le_zero v = Ok false <-> is_positive v).
Proof.
  destruct v as [| |e|[q|[]]|s]; simpl; intros Hna; try discriminate;
    try (split; [discriminate | tauto]); try (split; [tauto | reflexivity]).
  - split.
    + intros H. injection H as H. apply Qnot_le_lt. intros Hle.
      apply Qle_bool_iff in Hle. congruence.
    + intros H. f_equal. destruct (Qle_bool q 0) eqn:E; [|reflexivity].
      apply Qle_bool_iff in E. exfalso. exact (Qlt_not_le _ _ H E).
  - split; [discriminate | discriminate].
Qed.

Lemma is_positive_not_na (v : cell) : is_positive v -> Py.isna v = false.
Proof. destruct v as [| |e|[q|[]]|s]; simpl; tauto || reflexivity || discriminate. Qed.

Lemma is_positive_float (v : cell) :
  is_positive v -> exists x, Py.float v = Ok x /\ v = CNum x.
Proof. destruct v as [| |e|x|s]; simpl; try tauto. eauto. Qed.

(** The OHLC loop runs to its end exactly when every field it visits is
    present and positive. *)
Lemma check_ohlc_inr (row : Row) (fields : list string) (vals : gmap string fval) :
  (exists vals', check_ohlc row fields vals = inr vals') <->
  (forall field, In field fields -> exists v, row !! field = Some v /\ is_positive v).
Proof.
  revert vals. induction fields as [|f fields IH]; intros vals; simpl.
  - split; [intros _ ? [] | eauto].
  - split.
    + intros [vals' H] field [<-|Hin].
      * destruct (row !! f) as [v|] eqn:Ef; [|discriminate].
        exists v. split; [reflexivity|].
        destruct (Py.isna v) eqn:Ena; [discriminate|].
        apply le_zero_positive; [assumption|].
        destruct (Py.le_zero v) as [[]|e]; try discriminate. reflexivity.
      * destruct (row !! f) as [v|] eqn:Ef; [|discriminate].
        destruct (Py.isna v); [discriminate|].
        destruct (Py.le_zero v) as [[]|e]; try discriminate.
        destruct (Py.float v) as [x|e]; [|destruct (is_value_or_type_error e); discriminate].
        apply (proj1 (IH (<[f:=x]> vals))); eauto.
    + intros H. destruct (H f (or_introl eq_refl)) as (v & -> & Hpos).
      rewrite (is_positive_not_na _ Hpos).
      rewrite (proj2 (le_zero_positive v (is_positive_not_na _ Hpos)) Hpos).
      destruct (is_positive_float _ Hpos) as (x & -> & _).
      apply IH. intros field Hin. apply H. now right.
Qed.

(** What the loop has collected for the fields it visited. *)
Lemma check_ohlc_collects (row : Row) (fields : list string)
    (vals vals' : gmap string fval) :
  check_ohlc row fields vals = inr vals' ->
  forall field, In field fields \/ is_Some (vals !! field) -> is_Some (vals' !! field).
Proof.
  revert vals. induction fields as [|f fields IH]; intros vals; simpl.
  - intros [= <-] field [[]|H]. exact H.
  - destruct (row !! f) as [v|]; [|discriminate].
    destruct (Py.isna v); [discriminate|].
    destruct (Py.le_zero v) as [[]|e]; try discriminate.
    destruct (Py.float v) as [x|e]; [|destruct (is_value_or_type_error e); discriminate].
    intros H field Hf. apply (IH _ H).
    destruct Hf as [[<-|Hin]|Hs].
    + right. rewrite lookup_insert_eq. eauto.
    + now left.
    + right. destruct (decide (f = field)) as [->|Hne].
      * rewrite lookup_insert_eq. eauto.
      * now rewrite lookup_insert_ne.
Qed.

Lemma optional_int_finite (row : Row) (field : string) :
  (forall negative, row !! field <> Some (CNum (FInf negative))) ->
  exists z, optional_int row field = Ok z.
Proof.
  intros H. unfold optional_int.
  destruct (row !! field) as [[| |e|[q|b]|s]|]; simpl; eauto.
  now destruct (H b).
Qed.

Lemma volume_vals_spec (row : Row) (volume_val tick_volume_val : Z) :
  volume_vals row = Ok (volume_val, tick_volume_val) ->
  volume_val = tick_volume_val /\ tick_volume_val = tick_volume_of row.
Proof.
  unfold volume_vals, tick_volume_of.
  destruct (row !! "tick_volume") as [[| |e|[q|b]|s]|]; simpl;
    intros [= <- <-]; split; reflexivity.
Qed.

Lemma volume_vals_finite (row : Row) :
  (forall negative, row !! "tick_volume" <> Some (CNum (FInf negative))) ->
  exists z, volume_vals row = Ok (z, z).
Proof.
  intros H. unfold volume_vals.
  destruct (row !! "tick_volume") as [[| |e|[q|b]|s]|]; simpl; eauto.
  now destruct (H b).
Qed.

(** Inversion of an accepted row. *)
Lemma process_row_accepted (symbol timeframe : string) (row : Row) (record : PriceRow) :
  process_row symbol timeframe row = Accepted record ->
  timestamp_usable row /\ ohlc_positive row /\
  bar_symbol record = Str.take 50 symbol /\
  bar_timeframe record = Str.take 10 timeframe /\
  bar_volume record = bar_tick_volume record /\
  bar_tick_volume record = tick_volume_of row.
Proof.
  unfold process_row.
  destruct (row !! "time") as [t|] eqn:Et; [|discriminate].
  destruct (Py.isna t) eqn:Ena; [discriminate|].
  destruct (Py.time_value t) as [time_val|e] eqn:Etv; [|discriminate].
  destruct (check_ohlc row required_fields ∅) as [reason|vals] eqn:Eo; [discriminate|].
  destruct (volume_vals row) as [[vv tv]|e] eqn:Ev; [|discriminate].
  destruct (optional_int row "spread") as [sp|e]; [|discriminate].
  destruct (optional_int row "real_volume") as [rv|e]; [|discriminate].
  destruct (ohlc_get vals "open") as [o|]; [|discriminate].
  destruct (ohlc_get vals "high") as [h|]; [|discriminate].
  destruct (ohlc_get vals "low") as [l|]; [|discriminate].
  destruct (ohlc_get vals "close") as [c|]; [|discriminate].
  intros [= <-]. simpl.
  destruct (volume_vals_spec _ _ _ Ev) as [-> ->].
  repeat split; try reflexivity.
  - exists t. split; [exact Et|].
    destruct t as [| |e|[q|b]|s]; simpl in *; try discriminate; exact I.
  - unfold ohlc_positive.
    apply (proj1 (check_ohlc_inr row required_fields ∅)). eauto.
Qed.

Lemma epoch_convertible_time_value (t : cell) :
  epoch_convertible t <-> Py.isna t = false /\ exists z, Py.time_value t = Ok z.
Proof.
  destruct t as [| |e|[q|b]|s]; simpl; split;
    try tauto; try (intros _; split; eauto);
    try (intros [? [z ?]]; discriminate).
Qed.

(** A row whose timestamp is unusable is rejected on the timestamp alone:
    no other field of the row is looked at. *)
Lemma process_row_timestamp_first (symbol timeframe : string) (row : Row) :
  ~ timestamp_usable row ->
  exists reason,
    timestamp_reason reason /\
    forall row' : Row, row' !! "time" = row !! "time" ->
      process_row symbol timeframe row' = Rejected reason.
Proof.
  intros Hno. unfold process_row.
  destruct (row !! "time") as [t|] eqn:Et.
  - destruct (Py.isna t) eqn:Ena.
    + exists TimestampMissing. split; [exact I|]. intros row' ->. now rewrite Ena.
    + destruct (Py.time_value t) as [z|e] eqn:Etv.
      * exfalso. apply Hno. exists t. split; [exact Et|].
        apply epoch_convertible_time_value. eauto.
      * exists (RowError e). split; [exact I|]. intros row' ->. now rewrite Ena, Etv.
  - exists TimestampMissing. split; [exact I|]. now intros row' ->.
Qed.

Lemma process_row_accepts (symbol timeframe : string) (row : Row) :
  optional_fields_finite row -> timestamp_usable row -> ohlc_positive row ->
  exists record, process_row symbol timeframe row = Accepted record.
Proof.
  intros Hopt (t & Et & Ht) Hohlc. unfold process_row. rewrite Et.
  apply epoch_convertible_time_value in Ht as [-> [z ->]].
  destruct (proj2 (check_ohlc_inr row required_fields ∅) Hohlc) as [vals Hv].
  rewrite Hv.
  destruct (volume_vals_finite row) as [v ->].
  { intros b. apply Hopt. simpl; tauto. }
  destruct (optional_int_finite row "spread") as [sp ->].
  { intros b. apply Hopt. simpl; tauto. }
  destruct (optional_int_finite row "real_volume") as [rv ->].
  { intros b. apply Hopt. simpl; tauto. }
  pose proof (check_ohlc_collects _ _ _ _ Hv) as Hc. unfold ohlc_get.
  destruct (Hc "open") as [o ->]; [left; simpl; tauto|].
  destruct (Hc "high") as [h ->]; [left; simpl; tauto|].
  destruct (Hc "low") as [l ->]; [left; simpl; tauto|].
  destruct (Hc "close") as [c ->]; [left; simpl; tauto|].
  eauto.
Qed.

Lemma process_row_outcome (symbol timeframe : string) (row : Row) :
  is_rejected (process_row symbol timeframe row) \/
  exists record, process_row symbol timeframe row = Accepted record.
Proof.
  destruct (process_row symbol timeframe row) as [record|reason].
  - right. eauto.
  - left. exists reason. reflexivity.
Qed.

(** The loop over the rows is a filter: it never stops at a row. *)
Lemma prepare_app (symbol timeframe : string) (pre post : DataFrame) :
  prepare symbol timeframe (pre ++ post) =
  (fst (prepare symbol timeframe pre) ++ fst (prepare symbol timeframe post),
   snd (prepare symbol timeframe pre) + snd (prepare symbol timeframe post)).
Proof.
  induction pre as [|row pre IH]; simpl.
  - now destruct (prepare symbol timeframe post).
  - rewrite IH. destruct (prepare symbol timeframe pre) as [d n].
    destruct (process_row symbol timeframe row); reflexivity.
Qed.

Lemma prepare_In (symbol timeframe : string) (df : DataFrame) (record : PriceRow) :
  In record (fst (prepare symbol timeframe df)) <->
  exists row, In row df /\ process_row symbol timeframe row = Accepted record.
Proof.
  induction df as [|row df IH]; simpl.
  - split; [tauto | intros (? & [] & _)].
  - destruct (prepare symbol timeframe df) as [d n] eqn:E. simpl in IH.
    destruct (process_row symbol timeframe row) as [r|reason] eqn:Ep; simpl.
    + rewrite IH. split.
      * intros [<-|(row' & Hin & H)]; eauto.
      * intros (row' & [<-|Hin] & H); [left; congruence | right; eauto].
    + rewrite IH. split.
      * intros (row' & Hin & H); eauto.
      * intros (row' & [<-|Hin] & H); [congruence | eauto].
Qed.

(** C4, as the code has it: a row whose tick_volume, spread and
    real_volume are not infinite is rejected exactly when its timestamp is
    absent or not convertible to an integer epoch, or when one of open,
    high, low, close is absent, missing, not a number or not greater than
    zero (finiteness is not tested: [+inf] passes); a row with an unusable
    timestamp is rejected on the timestamp alone, before any other field
    is looked at; and a rejected row is only counted: the rows before and
    after it are prepared as if it were not there. *)
Theorem process_row_rejects_exactly (symbol timeframe : string) (row : Row) :
  (optional_fields_finite row ->
   (is_rejected (process_row symbol timeframe row) <->
    ~ timestamp_usable row \/ ~ ohlc_positive row)) /\
  (~ timestamp_usable row ->
   exists reason,
     timestamp_reason reason /\
     forall row' : Row, row' !! "time" = row !! "time" ->
       process_row symbol timeframe row' = Rejected reason) /\
  (is_rejected (process_row symbol timeframe row) ->
   forall pre post : DataFrame,
     prepare symbol timeframe (pre ++ row :: post) =
     (fst (prepare symbol timeframe pre) ++ fst (prepare symbol timeframe post),
      S (snd (prepare symbol timeframe pre) + snd (prepare symbol timeframe post)))).
Proof.
  split; [|split].
  - intros Hopt. split.
    + intros [reason Hrej].
      destruct (row !! "time") as [t|] eqn:Et.
      2:{ left. intros (v & Hv & _). congruence. }
      destruct (Py.isna t) eqn:Ena.
      { left. intros (v & Hv & Hc). rewrite Et in Hv. injection Hv as <-.
        apply epoch_convertible_time_value in Hc. destruct Hc; congruence. }
      destruct (Py.time_value t) as [z|e] eqn:Etv.
      2:{ left. intros (v & Hv & Hc). rewrite Et in Hv. injection Hv as <-.
          apply epoch_convertible_time_value in Hc. destruct Hc as [_ [z' Hz]].
          congruence. }
      right. intros Hohlc.
      destruct (process_row_accepts symbol timeframe row Hopt) as [record Hacc];
        [|exact Hohlc|congruence].
      exists t. split; [exact Et|]. apply epoch_convertible_time_value. eauto.
    + intros Hbad.
      destruct (process_row_outcome symbol timeframe row) as [Hrej|[record Hacc]];
        [exact Hrej|].
      apply process_row_accepted in Hacc. tauto.
  - apply process_row_timestamp_first.
  - intros [reason Hrej] pre post.
    rewrite prepare_app. simpl. rewrite Hrej.
    destruct (prepare symbol timeframe post) as [d n]. simpl.
    f_equal. lia.
Qed.

Lemma optional_fields_finite_raw_bar (time : Z) (o h l c : cell) (tick_volume : Z) :
  optional_fields_finite (raw_bar time o h l c tick_volume).
Proof.
  intros field negative [<-|[<-|[<-|[]]]]; vm_compute; intros H; discriminate H.
Defined.

(** The bar with [close = -1] is rejected. *)
Lemma process_row_rejects_exactly_witness :
  optional_fields_finite bar_close_negative /\
  is_rejected (process_row "EURUSD" "H1" bar_close_negative).
Proof.
  split; [apply optional_fields_finite_raw_bar|].
  apply (proj1 (process_row_rejects_exactly "EURUSD" "H1" bar_close_negative)).
  - apply optional_fields_finite_raw_bar.
  - right. intros H. destruct (H "close") as (v & Hv & Hpos).
    + simpl; tauto.
    + vm_compute in Hv. injection Hv as <-. vm_compute in Hpos. discriminate Hpos.
Defined.

(** C4 as stated does not hold: a bar whose open price is [+inf] has an
    OHLC field that is not a finite positive number, and is accepted. *)
Lemma process_row_accepts_infinite_open :
  ~ (is_rejected (process_row "EURUSD" "H1" bar_open_inf) <->
     ~ timestamp_usable bar_open_inf \/ ~ ohlc_finite_positive bar_open_inf).
Proof.
  intros [_ H].
  destruct H as [reason Hrej].
  - right. intros Hfin. destruct (Hfin "open") as (v & Hv & Hpos).
    + simpl; tauto.
    + vm_compute in Hv. injection Hv as <-. exact Hpos.
  - vm_compute in Hrej. discriminate Hrej.
Qed.

(** ** The connection *)

Lemma same_key_refl (r : PriceRow) : Sql.same_key r r = true.
Proof.
  unfold Sql.same_key. now rewrite !String.eqb_refl, Z.eqb_refl.
Qed.

Lemma has_key_app (rows more : list PriceRow) (r : PriceRow) :
  Sql.has_key (rows ++ more) r = Sql.has_key rows r || Sql.has_key more r.
Proof. unfold Sql.has_key. apply existsb_app. Qed.

Lemma has_key_insert_ignore (rows : list PriceRow) (record r : PriceRow) :
  Sql.has_key rows r = true -> Sql.has_key (insert_ignore rows record) r = true.
Proof.
  intros H. unfold insert_ignore. destruct (Sql.has_key rows record); [exact H|].
  rewrite has_key_app, H. reflexivity.
Qed.

Lemma has_key_insert_ignore_self (rows : list PriceRow) (record : PriceRow) :
  Sql.has_key (insert_ignore rows record) record = true.
Proof.
  unfold insert_ignore. destruct (Sql.has_key rows record) eqn:E; [exact E|].
  rewrite has_key_app. simpl. rewrite same_key_refl. now rewrite orb_true_r.
Qed.

Lemma has_key_insert_all_keep (records rows : list PriceRow) (r : PriceRow) :
  Sql.has_key rows r = true -> Sql.has_key (insert_all rows records) r = true.
Proof.
  revert rows. induction records as [|x records IH]; intros rows H; simpl; [exact H|].
  apply IH. now apply has_key_insert_ignore.
Qed.

Lemma has_key_insert_all (records rows : list PriceRow) (r : PriceRow) :
  In r records -> Sql.has_key (insert_all rows records) r = true.
Proof.
  revert rows. induction records as [|x records IH]; intros rows; simpl; [tauto|].
  intros [->|Hin]; [|now apply IH].
  apply has_key_insert_all_keep, has_key_insert_ignore_self.
Qed.

Lemma insert_all_present (records rows : list PriceRow) :
  Forall (fun r => Sql.has_key rows r = true) records -> insert_all rows records = rows.
Proof.
  induction 1 as [|x records Hx _ IH]; simpl; [reflexivity|].
  unfold insert_ignore. now rewrite Hx.
Qed.

Lemma insert_all_app (rows xs ys : list PriceRow) :
  insert_all rows (xs ++ ys) = insert_all (insert_all rows xs) ys.
Proof. apply fold_left_app. Qed.

Lemma insert_ignore_In (rows : list PriceRow) (record r : PriceRow) :
  In r (insert_ignore rows record) -> In r rows \/ r = record.
Proof.
  unfold insert_ignore. destruct (Sql.has_key rows record); [tauto|].
  rewrite in_app_iff. simpl. intuition auto.
Qed.

Lemma insert_all_In (records rows : list PriceRow) (r : PriceRow) :
  In r (insert_all rows records) -> In r rows \/ In r records.
Proof.
  revert rows. induction records as [|x records IH]; intros rows; simpl; [tauto|].
  intros H. destruct (IH _ H) as [H'|H']; [|tauto].
  destruct (insert_ignore_In _ _ _ H'); auto.
Qed.

Lemma insert_all_length (records rows : list PriceRow) :
  length rows <= length (insert_all rows records).
Proof.
  revert rows. induction records as [|x records IH]; intros rows; simpl; [lia|].
  etransitivity; [|apply IH]. unfold insert_ignore.
  destruct (Sql.has_key rows x); [lia|]. rewrite length_app. simpl. lia.
Qed.

(** One [INSERT OR IGNORE], in all its outcomes. *)
Lemma execute_insert_spec (fault : nat -> statement -> bool) (s : Store) (record : PriceRow) :
  let s' := fst (Sql.execute_insert fault s record) in
  let r := snd (Sql.execute_insert fault s record) in
  download_stats s' = download_stats s /\
  committed_price_data s' = committed_price_data s /\
  committed_download_stats s' = committed_download_stats s /\
  ((r = Raise OverflowError /\ Sql.binds record = false /\ s' = s) \/
   (r = Raise SqliteError /\ Sql.binds record = true /\
    fault (executed s) (InsertPrice record) = true /\
    price_data s' = price_data s) \/
   (exists n, r = Ok n /\ Sql.binds record = true /\
    fault (executed s) (InsertPrice record) = false /\
    price_data s' = insert_ignore (price_data s) record /\
    length (price_data s') = length (price_data s) + n)).
Proof.
  unfold Sql.execute_insert, insert_ignore.
  destruct (Sql.binds record); simpl; [|tauto].
  destruct (fault (executed s) (InsertPrice record)); simpl.
  { do 3 (split; [reflexivity|]). right; left. tauto. }
  destruct (Sql.has_key (price_data s) record); simpl.
  - do 3 (split; [reflexivity|]). right; right. exists 0.
    repeat split; auto.
  - do 3 (split; [reflexivity|]). right; right. exists 1.
    repeat split; auto. rewrite length_app. reflexivity.
Qed.

Lemma same_but_prices_refl (s : Store) : same_but_prices s s.
Proof. repeat split. Qed.

Lemma same_but_prices_trans (s1 s2 s3 : Store) :
  same_but_prices s1 s2 -> same_but_prices s2 s3 -> same_but_prices s1 s3.
Proof. unfold same_but_prices. intros (-> & -> & ->) (-> & -> & ->). tauto. Qed.

Lemma execute_insert_healthy (fault : nat -> statement -> bool) (s : Store) (record : PriceRow) :
  healthy fault record ->
  exists s',
    Sql.execute_insert fault s record =
      (s', Ok (length (price_data s') - length (price_data s))) /\
    price_data s' = insert_ignore (price_data s) record /\
    same_but_prices s s'.
Proof.
  intros [Hb Hf].
  pose proof (execute_insert_spec fault s record) as H. simpl in H.
  destruct (Sql.execute_insert fault s record) as [s' r]. simpl in H.
  destruct H as (H1 & H2 & H3 & [(_ & Hb' & _)|[(_ & _ & Hf' & _)|(n & -> & _ & _ & Hp & Hl)]]).
  - congruence.
  - rewrite Hf in Hf'. discriminate.
  - exists s'. repeat split; auto. do 2 f_equal. lia.
Qed.

Lemma execute_insert_failing (fault : nat -> statement -> bool) (s : Store) (record : PriceRow) :
  failing fault record ->
  exists s',
    Sql.execute_insert fault s record = (s', Raise SqliteError) /\
    price_data s' = price_data s /\ same_but_prices s s'.
Proof.
  intros [Hb Hf].
  pose proof (execute_insert_spec fault s record) as H. simpl in H.
  destruct (Sql.execute_insert fault s record) as [s' r]. simpl in H.
  destruct H as (H1 & H2 & H3 & [(_ & Hb' & _)|[(-> & _ & _ & Hp)|(n & _ & _ & Hf' & _)]]).
  - congruence.
  - exists s'. repeat split; auto.
  - rewrite Hf in Hf'. discriminate.
Qed.

(** A batch of healthy records goes through, and [rowcount] counts the
    rows that are new. *)
Lemma executemany_from_healthy (fault : nat -> statement -> bool)
    (records : list PriceRow) (s : Store) (k : nat) :
  Forall (healthy fault) records ->
  exists s',
    Sql.executemany_from fault s records k =
      (s', Ok (k + (length (price_data s') - length (price_data s)))) /\
    price_data s' = insert_all (price_data s) records /\
    same_but_prices s s'.
Proof.
  revert s k. induction records as [|x records IH]; intros s k H; simpl.
  - exists s. rewrite Nat.sub_diag, Nat.add_0_r. repeat split.
  - inversion H as [|? ? Hx Hrest]; subst.
    destruct (execute_insert_healthy fault s x Hx) as (s1 & -> & Hp1 & Hs1).
    destruct (IH s1 (k + (length (price_data s1) - length (price_data s))) Hrest)
      as (s' & -> & Hp & Hs).
    exists s'. split; [|split].
    + do 2 f_equal.
      assert (length (price_data s) <= length (price_data s1))
        by (rewrite Hp1; apply (insert_all_length [x])).
      assert (length (price_data s1) <= length (price_data s'))
        by (rewrite Hp; apply insert_all_length).
      lia.
    + now rewrite Hp, Hp1.
    + eapply same_but_prices_trans; eassumption.
Qed.

(** A batch stops at its first failing record; the records before it
    stay in the open transaction. *)
Lemma executemany_from_failing (fault : nat -> statement -> bool)
    (pre post : list PriceRow) (bad : PriceRow) (s : Store) (k : nat) :
  Forall (healthy fault) pre -> failing fault bad ->
  exists s',
    Sql.executemany_from fault s (pre ++ bad :: post) k = (s', Raise SqliteError) /\
    price_data s' = insert_all (price_data s) pre /\
    same_but_prices s s'.
Proof.
  revert s k. induction pre as [|x pre IH]; intros s k H Hbad; simpl.
  - destruct (execute_insert_failing fault s bad Hbad) as (s' & -> & Hp & Hs).
    exists s'. auto.
  - inversion H as [|? ? Hx Hrest]; subst.
    destruct (execute_insert_healthy fault s x Hx) as (s1 & -> & Hp1 & Hs1).
    destruct (IH s1 (k + (length (price_data s1) - length (price_data s))) Hrest Hbad)
      as (s' & -> & Hp & Hs).
    exists s'. split; [reflexivity|]. split.
    + now rewrite Hp, Hp1.
    + eapply same_but_prices_trans; eassumption.
Qed.

(** The record-by-record loop stops at the first failing record as well:
    the records after it are never tried. *)
Lemma insert_one_by_one_failing (fault : nat -> statement -> bool)
    (pre post : list PriceRow) (bad : PriceRow) (s : Store) (k : nat) :
  Forall (healthy fault) pre -> failing fault bad ->
  exists s',
    insert_one_by_one fault s (pre ++ bad :: post) k =
      (s', Ok (k + (length (price_data s') - length (price_data s)))) /\
    price_data s' = insert_all (price_data s) pre /\
    same_but_prices s s'.
Proof.
  revert s k. induction pre as [|x pre IH]; intros s k H Hbad; simpl.
  - destruct (execute_insert_failing fault s bad Hbad) as (s' & -> & Hp & Hs).
    simpl. exists s'. rewrite Hp, Nat.sub_diag, Nat.add_0_r. auto.
  - inversion H as [|? ? Hx Hrest]; subst.
    destruct (execute_insert_healthy fault s x Hx) as (s1 & -> & Hp1 & Hs1).
    destruct (IH s1 (k + (length (price_data s1) - length (price_data s))) Hrest Hbad)
      as (s' & -> & Hp & Hs).
    exists s'. split; [|split].
    + do 2 f_equal.
      assert (length (price_data s) <= length (price_data s1))
        by (rewrite Hp1; apply (insert_all_length [x])).
      assert (length (price_data s1) <= length (price_data s'))
        by (rewrite Hp; apply insert_all_length).
      lia.
    + now rewrite Hp, Hp1.
    + eapply same_but_prices_trans; eassumption.
Qed.

(** ** [save_price_data] *)

(** The statistics block: it leaves [price_data] alone, appends at most
    one row, marked successful, and only for a positive count. *)
Lemma save_stats_spec (fault : nat -> statement -> bool) (symbol timeframe : string)
    (df : DataFrame) (s : Store) (n : nat) :
  let s' := fst (save_stats fault symbol timeframe df s n) in
  let m := snd (save_stats fault symbol timeframe df s n) in
  price_data s' = price_data s /\
  (committed_price_data s' = committed_price_data s \/
   committed_price_data s' = price_data s) /\
  (download_stats s' = download_stats s \/
   (0 < n /\ m = n /\ dated df /\ exists stat,
      download_stats s' = download_stats s ++ [stat] /\
      stat_success stat = true /\ stat_symbol stat = symbol /\
      stat_timeframe stat = timeframe /\ stat_bars_count stat = length df)) /\
  (m = n \/ m = 0) /\
  (dated df -> m = n).
Proof.
  unfold save_stats.
  destruct ((0 <? length df)%nat && (0 <? n)%nat) eqn:Eg; simpl.
  2:{ repeat split; auto. }
  apply andb_prop in Eg as [_ Hn%Nat.ltb_lt].
  destruct (iso_of (head df)) as [d1|e1] eqn:E1.
  2:{ simpl. repeat split; auto. intros (? & ? & ? & _). congruence. }
  destruct (iso_of (last df)) as [d2|e2] eqn:E2.
  2:{ simpl. repeat split; auto. intros (? & ? & _ & ?). congruence. }
  unfold Sql.execute_stat.
  match goal with |- context [fault ?a ?b] => destruct (fault a b) end; simpl.
  - repeat split; auto.
  - repeat split; auto. right. split; [exact Hn|]. split; [reflexivity|].
    split; [now exists d1, d2|]. eexists. repeat split.
Qed.

(** On a backend that accepts all the prepared records, the call returns
    one more than the number of new rows among the records after the
    first, whether or not the first record was new. *)
Lemma save_price_data_healthy (fault : nat -> statement -> bool)
    (symbol timeframe : string) (df : DataFrame) (s : Store)
    (first : PriceRow) (rest : list PriceRow) :
  fst (prepare symbol timeframe df) = first :: rest ->
  Forall (healthy fault) (first :: rest) -> dated df ->
  exists s',
    save_price_data fault symbol timeframe df s =
      (s', S (length (price_data s')
              - length (insert_ignore (price_data s) first))) /\
    price_data s' = insert_all (price_data s) (first :: rest) /\
    committed_price_data s' = price_data s'.
Proof.
  intros Hdata Hh Hd. unfold save_price_data.
  destruct (prepare symbol timeframe df) as [data bad]. simpl in Hdata. subst data.
  inversion Hh as [|? ? Hfirst Hrest]; subst.
  destruct (execute_insert_healthy fault s first Hfirst) as (s1 & -> & Hp1 & _).
  unfold Sql.executemany.
  destruct (executemany_from_healthy fault rest s1 0 Hrest) as (s2 & -> & Hp2 & _).
  pose proof (save_stats_spec fault symbol timeframe df (Sql.commit s2)
                (0 + (length (price_data s2) - length (price_data s1)) + 1)) as H.
  simpl in H.
  destruct (save_stats fault symbol timeframe df (Sql.commit s2) _) as [s' m].
  simpl in H. destruct H as (Hp & Hc & _ & _ & Hm).
  simpl in Hp, Hc. exists s'. rewrite (Hm Hd), Hp. split; [|split].
  - f_equal. rewrite <- Hp1. lia.
  - simpl. now rewrite Hp2, Hp1.
  - destruct Hc as [->| ->]; reflexivity.
Qed.

(** C1, on the code: writing the same frame twice on a backend that
    accepts all its records leaves the price rows, seen and committed,
    as after the first write, and the first call returns a non-zero
    count; but the second call returns 1, not 0: the count is the
    batch's [rowcount] plus one for the test record, which is added
    although the test record was ignored as a duplicate. *)
Theorem save_price_data_twice (fault : nat -> statement -> bool)
    (symbol timeframe : string) (df : DataFrame) (s : Store)
    (first : PriceRow) (rest : list PriceRow) :
  fst (prepare symbol timeframe df) = first :: rest ->
  Forall (healthy fault) (first :: rest) -> dated df ->
  let out1 := save_price_data fault symbol timeframe df s in
  let out2 := save_price_data fault symbol timeframe df (fst out1) in
  0 < snd out1 /\
  snd out2 = 1 /\
  price_data (fst out2) = price_data (fst out1) /\
  committed_price_data (fst out2) = committed_price_data (fst out1).
Proof.
  intros Hdata Hh Hd.
  destruct (save_price_data_healthy fault symbol timeframe df s first rest Hdata Hh Hd)
    as (s1 & E1 & Hp1 & Hc1).
  destruct (save_price_data_healthy fault symbol timeframe df s1 first rest Hdata Hh Hd)
    as (s2 & E2 & Hp2 & Hc2).
  simpl. rewrite E1. simpl. rewrite E2. simpl.
  assert (Hsame : insert_all (price_data s1) (first :: rest) = price_data s1).
  { apply insert_all_present, List.Forall_forall. intros r Hin.
    rewrite Hp1. now apply has_key_insert_all. }
  assert (Hfirst : insert_ignore (price_data s1) first = price_data s1).
  { unfold insert_ignore. rewrite Hp1 at 1.
    rewrite has_key_insert_all; [reflexivity | now left]. }
  rewrite Hsame in Hp2.
  split; [lia|]. split; [rewrite Hfirst, Hp2; lia|].
  split; [exact Hp2 | congruence].
Qed.

Lemma healthy_no_fault (record : PriceRow) :
  Sql.binds record = true -> healthy no_fault record.
Proof. intros H. split; [exact H | reflexivity]. Defined.

Lemma dated_eurusd_h1 : dated eurusd_h1.
Proof. eexists _, _. split; vm_compute; reflexivity. Defined.

(** Writing the three EURUSD H1 bars twice into an empty store: the
    second call returns 1. *)
Lemma save_price_data_twice_witness :
  dated eurusd_h1 /\
  snd (save_price_data no_fault "EURUSD" "H1" eurusd_h1
         (fst (save_price_data no_fault "EURUSD" "H1" eurusd_h1 empty_store))) = 1.
Proof.
  split; [exact dated_eurusd_h1|].
  refine (proj1 (proj2 (save_price_data_twice no_fault "EURUSD" "H1" eurusd_h1
                          empty_store _ _ _ _ dated_eurusd_h1))).
  - vm_compute. reflexivity.
  - repeat constructor; apply healthy_no_fault; reflexivity.
Defined.

(** When a prepared record fails at insert time, the batch raises at it,
    the record-by-record pass meets the same record and stops there.  The
    records before it, which the failed batch had inserted, are then
    duplicates to that pass: it counts no new row, so that they are left
    in the table without a commit, no statistics row is written, and the
    call returns 0. *)
Lemma save_price_data_failing_record (fault : nat -> statement -> bool)
    (symbol timeframe : string) (df : DataFrame) (s : Store)
    (pre post : list PriceRow) (bad : PriceRow) :
  fst (prepare symbol timeframe df) = pre ++ bad :: post ->
  Forall (healthy fault) pre -> failing fault bad ->
  let out := save_price_data fault symbol timeframe df s in
  snd out = 0 /\
  price_data (fst out) = insert_all (price_data s) pre /\
  same_but_prices s (fst out) /\
  (forall r, In r post -> ~ In r (price_data s) -> ~ In r pre ->
             ~ In r (price_data (fst out))).
Proof.
  intros Hdata Hpre Hbad.
  assert (Hgoal : let out := save_price_data fault symbol timeframe df s in
                  snd out = 0 /\
                  price_data (fst out) = insert_all (price_data s) pre /\
                  same_but_prices s (fst out)).
  { unfold save_price_data.
    destruct (prepare symbol timeframe df) as [data n]. simpl in Hdata. subst data.
    destruct pre as [|first pre]; simpl.
    - destruct (execute_insert_failing fault s bad Hbad) as (s1 & -> & Hp & Hs).
      simpl. auto.
    - inversion Hpre as [|? ? Hfirst Hrest]; subst.
      destruct (execute_insert_healthy fault s first Hfirst) as (s1 & -> & Hp1 & Hs1).
      unfold Sql.executemany.
      destruct (executemany_from_failing fault pre post bad s1 0 Hrest Hbad)
        as (s2 & -> & Hp2 & Hs2).
      simpl.
      destruct (insert_one_by_one_failing fault pre post bad s2 0 Hrest Hbad)
        as (s3 & -> & Hp3 & Hs3).
      assert (Hsame : insert_all (price_data s2) pre = price_data s2).
      { apply insert_all_present, List.Forall_forall. intros r Hin.
        rewrite Hp2. now apply has_key_insert_all. }
      rewrite Hsame in Hp3. rewrite Hp3, Nat.sub_diag. simpl.
      split; [reflexivity|]. split.
      + now rewrite Hp3, Hp2, Hp1.
      + eapply same_but_prices_trans; [|exact Hs3].
        eapply same_but_prices_trans; eassumption. }
  simpl in *. destruct Hgoal as (H0 & Hp & Hs). repeat split; try apply Hs; auto.
  intros r _ Hs0 Hpre0 Hin. rewrite Hp in Hin.
  apply insert_all_In in Hin. tauto.
Qed.

Lemma prepare_eurusd_h1 :
  fst (prepare "EURUSD" "H1" eurusd_h1) =
  [eurusd_record 1700000000] ++ eurusd_record 1700003600 :: [eurusd_record 1700007200].
Proof. vm_compute. reflexivity. Defined.

(** C2, as the code has it: when the batch fails on a record, the
    record-by-record pass does not continue past that record: it stops
    at it.  For every batch with a record that fails at insert time,
    what the call has inserted is exactly the records prepared before the
    failing one; the failing record and the records after it are never
    inserted, however valid they are. *)
Theorem save_price_data_stops_at_failure (fault : nat -> statement -> bool)
    (symbol timeframe : string) (df : DataFrame) (s : Store)
    (pre post : list PriceRow) (bad : PriceRow) :
  fst (prepare symbol timeframe df) = pre ++ bad :: post ->
  Forall (healthy fault) pre -> failing fault bad ->
  let out := save_price_data fault symbol timeframe df s in
  price_data (fst out) = insert_all (price_data s) pre /\
  (forall r, In r (bad :: post) -> ~ In r (price_data s) -> ~ In r pre ->
             ~ In r (price_data (fst out))).
Proof.
  intros Hdata Hpre Hbad.
  destruct (save_price_data_failing_record fault symbol timeframe df s
              pre post bad Hdata Hpre Hbad) as (_ & Hp & _).
  cbv zeta in Hp |- *. split; [exact Hp|].
  intros r _ Hs Hr Hin. rewrite Hp in Hin.
  apply insert_all_In in Hin. tauto.
Qed.

(** The backend fails on the second of the three bars: only the first
    is inserted. *)
Lemma save_price_data_stops_at_failure_witness :
  failing (fault_at_time 1700003600) (eurusd_record 1700003600) /\
  price_data
    (fst (save_price_data (fault_at_time 1700003600) "EURUSD" "H1" eurusd_h1
            empty_store))
  = insert_all [] [eurusd_record 1700000000].
Proof.
  assert (Hbad : failing (fault_at_time 1700003600) (eurusd_record 1700003600)).
  { split; [reflexivity | intros n; reflexivity]. }
  split; [exact Hbad|].
  refine (proj1 (save_price_data_stops_at_failure (fault_at_time 1700003600)
                   "EURUSD" "H1" eurusd_h1 empty_store
                   [eurusd_record 1700000000] [eurusd_record 1700007200]
                   (eurusd_record 1700003600) prepare_eurusd_h1 _ Hbad)).
  repeat constructor.
Defined.

(** C2 as stated does not hold: with a backend that fails on the second
    of three bars, the third bar, which the backend accepts, is prepared
    but not inserted, nothing is committed, and the call returns 0
    although the first bar was inserted. *)
Lemma save_price_data_bad_record_loses_rest :
  let out := save_price_data (fault_at_time 1700003600) "EURUSD" "H1" eurusd_h1
               empty_store in
  healthy (fault_at_time 1700003600) (eurusd_record 1700007200) /\
  In (eurusd_record 1700007200) (fst (prepare "EURUSD" "H1" eurusd_h1)) /\
  price_data (fst out) = [eurusd_record 1700000000] /\
  ~ In (eurusd_record 1700007200) (price_data (fst out)) /\
  committed_price_data (fst out) = [] /\
  snd out = 0.
Proof.
  assert (E : price_data (fst (save_price_data (fault_at_time 1700003600)
                "EURUSD" "H1" eurusd_h1 empty_store)) = [eurusd_record 1700000000])
    by (vm_compute; reflexivity).
  cbv zeta. rewrite E. repeat split.
  - rewrite prepare_eurusd_h1. simpl. tauto.
  - intros [H|[]]. discriminate H.
Qed.

(** A record that cannot be bound to the statement raises
    [OverflowError], which is not an [sqlite3.Error]: the fallback is not
    even entered, the bar after it is not inserted, nothing is committed
    and the call returns 0. *)
Example save_price_data_overflow_loses_rest :
  let out := save_price_data no_fault "EURUSD" "H1" eurusd_h1_huge_volume
               empty_store in
  length (fst (prepare "EURUSD" "H1" eurusd_h1_huge_volume)) = 3 /\
  price_data (fst out) = [eurusd_record 1700000000] /\
  committed_price_data (fst out) = [] /\
  download_stats (fst out) = [] /\
  snd out = 0.
Proof. vm_compute. repeat split. Qed.

(** The second of two identical writes also appends a second statistics
    row. *)
Example save_price_data_twice_stats :
  let s1 := fst (save_price_data no_fault "EURUSD" "H1" eurusd_h1 empty_store) in
  let out2 := save_price_data no_fault "EURUSD" "H1" eurusd_h1 s1 in
  snd (save_price_data no_fault "EURUSD" "H1" eurusd_h1 empty_store) = 3 /\
  snd out2 = 1 /\
  download_stats s1 = [eurusd_h1_stat] /\
  download_stats (fst out2) = [eurusd_h1_stat; eurusd_h1_stat] /\
  price_data (fst out2) = price_data s1.
Proof. vm_compute. repeat split. Qed.

(** ** Where the stored rows come from *)

Lemma execute_insert_In (fault : nat -> statement -> bool) (s : Store) (record r : PriceRow) :
  In r (price_data (fst (Sql.execute_insert fault s record))) ->
  In r (price_data s) \/ r = record.
Proof.
  pose proof (execute_insert_spec fault s record) as H. simpl in H.
  destruct H as (_ & _ & _ & [(_ & _ & ->)|[(_ & _ & _ & ->)|(n & _ & _ & _ & -> & _)]]);
    auto using insert_ignore_In.
Qed.

Lemma execute_insert_same_but_prices (fault : nat -> statement -> bool) (s : Store)
    (record : PriceRow) :
  same_but_prices s (fst (Sql.execute_insert fault s record)).
Proof.
  pose proof (execute_insert_spec fault s record) as H. simpl in H.
  unfold same_but_prices. tauto.
Qed.

Lemma executemany_from_In (fault : nat -> statement -> bool) (records : list PriceRow)
    (s : Store) (k : nat) :
  let s' := fst (Sql.executemany_from fault s records k) in
  same_but_prices s s' /\
  forall r, In r (price_data s') -> In r (price_data s) \/ In r records.
Proof.
  revert s k. induction records as [|x records IH]; intros s k; simpl.
  - split; [apply same_but_prices_refl | auto].
  - pose proof (execute_insert_In fault s x) as Hin.
    pose proof (execute_insert_same_but_prices fault s x) as Hs.
    destruct (Sql.execute_insert fault s x) as [s1 [n|e]]; simpl in *.
    + destruct (IH s1 (k + n)) as [Hs' Hin'].
      split; [eapply same_but_prices_trans; eassumption|].
      intros r Hr. destruct (Hin' r Hr) as [H|H]; [|tauto].
      destruct (Hin r H); auto.
    + split; [exact Hs|]. intros r Hr. destruct (Hin r Hr); auto.
Qed.

Lemma insert_one_by_one_In (fault : nat -> statement -> bool) (records : list PriceRow)
    (s : Store) (k : nat) :
  let s' := fst (insert_one_by_one fault s records k) in
  same_but_prices s s' /\
  forall r, In r (price_data s') -> In r (price_data s) \/ In r records.
Proof.
  revert s k. induction records as [|x records IH]; intros s k; simpl.
  - split; [apply same_but_prices_refl | auto].
  - pose proof (execute_insert_In fault s x) as Hin.
    pose proof (execute_insert_same_but_prices fault s x) as Hs.
    destruct (Sql.execute_insert fault s x) as [s1 [n|e]]; simpl in *.
    + destruct (IH s1 (k + n)) as [Hs' Hin'].
      split; [eapply same_but_prices_trans; eassumption|].
      intros r Hr. destruct (Hin' r Hr) as [H|H]; [|tauto].
      destruct (Hin r H); auto.
    + destruct (is_sqlite_error e); simpl;
        (split; [exact Hs|]; intros r Hr; destruct (Hin r Hr); auto).
Qed.

(** Whatever the backend does, a row of [price_data] after the call was
    there before or is one of the prepared records, and a committed row
    was committed before or is in [price_data] after the call. *)
Lemma save_price_data_In (fault : nat -> statement -> bool) (symbol timeframe : string)
    (df : DataFrame) (s : Store) :
  let s' := fst (save_price_data fault symbol timeframe df s) in
  (forall r, In r (price_data s') ->
     In r (price_data s) \/ In r (fst (prepare symbol timeframe df))) /\
  (forall r, In r (committed_price_data s') ->
     In r (committed_price_data s) \/ In r (price_data s')).
Proof.
  unfold save_price_data.
  destruct (prepare symbol timeframe df) as [data n]. simpl fst.
  destruct data as [|first rest]; [simpl; auto|].
  pose proof (execute_insert_In fault s first) as Hin1.
  pose proof (execute_insert_same_but_prices fault s first) as Hs1.
  destruct (Sql.execute_insert fault s first) as [s1 [n1|e1]]; simpl in Hin1, Hs1.
  2:{ simpl. destruct Hs1 as (_ & -> & _). split; [|auto].
      intros r Hr. destruct (Hin1 r Hr); auto. }
  unfold Sql.executemany.
  pose proof (executemany_from_In fault rest s1 0) as [Hs2 Hin2].
  destruct (Sql.executemany_from fault s1 rest 0) as [s2 [n2|e2]]; simpl in Hin2, Hs2.
  - pose proof (save_stats_spec fault symbol timeframe df (Sql.commit s2) (n2 + 1)) as H.
    simpl in H.
    destruct (save_stats fault symbol timeframe df (Sql.commit s2) (n2 + 1)) as [s' m].
    simpl in *. destruct H as (Hp & Hc & _). rewrite Hp. split.
    + intros r Hr. destruct (Hin2 r Hr) as [H|H]; [|auto].
      destruct (Hin1 r H); auto.
    + intros r Hr. right. destruct Hc as [Hc|Hc]; now rewrite Hc in Hr.
  - assert (Hbase : (forall r, In r (price_data s2) ->
                       In r (price_data s) \/ In r (first :: rest)) /\
                    committed_price_data s2 = committed_price_data s).
    { split.
      - intros r Hr. destruct (Hin2 r Hr) as [H|H]; [|simpl; auto].
        destruct (Hin1 r H); simpl; auto.
      - destruct Hs1 as (_ & H1 & _), Hs2 as (_ & H2 & _). congruence. }
    destruct Hbase as [Hb1 Hb2].
    destruct (is_sqlite_error e2); [|simpl; rewrite Hb2; auto].
    pose proof (insert_one_by_one_In fault rest s2 0) as [Hs3 Hin3].
    destruct (insert_one_by_one fault s2 rest 0) as [s3 [n3|e3]]; simpl in Hin3, Hs3.
    2:{ simpl. destruct Hs3 as (_ & -> & _). rewrite Hb2. split; [|auto].
        intros r Hr. destruct (Hin3 r Hr) as [H|H]; [auto | simpl; auto]. }
    destruct (0 <? n3)%nat.
    + pose proof (save_stats_spec fault symbol timeframe df (Sql.commit s3) (n3 + 1)) as H.
      simpl in H.
      destruct (save_stats fault symbol timeframe df (Sql.commit s3) (n3 + 1)) as [s' m].
      simpl in *. destruct H as (Hp & Hc & _). rewrite Hp. split.
      * intros r Hr. destruct (Hin3 r Hr) as [H|H]; auto.
      * intros r Hr. right. destruct Hc as [Hc|Hc]; now rewrite Hc in Hr.
    + simpl. destruct Hs3 as (_ & -> & _). rewrite Hb2. split; [|auto].
      intros r Hr. destruct (Hin3 r Hr) as [H|H]; [auto | simpl; auto].
Qed.

(** C9: every row that [save_price_data] adds to [price_data] comes from
    an accepted row of the frame, its stored volume equals its stored
    tick volume, and both are the tick volume of that row (its truncated
    value when the field is a finite number, 0 otherwise); hence, if no
    row of the store had a volume distinct from its tick volume before
    the call, none has after it, among the rows seen on the connection
    and among the committed ones. *)
Theorem save_price_data_volume (fault : nat -> statement -> bool)
    (symbol timeframe : string) (df : DataFrame) (s : Store) :
  let s' := fst (save_price_data fault symbol timeframe df s) in
  (forall record,
     In record (price_data s') -> ~ In record (price_data s) ->
     exists row,
       In row df /\ process_row symbol timeframe row = Accepted record /\
       bar_volume record = bar_tick_volume record /\
       bar_tick_volume record = tick_volume_of row) /\
  (Forall volume_mirrors_tick_volume (price_data s) ->
   Forall volume_mirrors_tick_volume (committed_price_data s) ->
   Forall volume_mirrors_tick_volume (price_data s') /\
   Forall volume_mirrors_tick_volume (committed_price_data s')).
Proof.
  intros s'. destruct (save_price_data_In fault symbol timeframe df s) as [Hp Hc].
  fold s' in Hp, Hc.
  assert (Hnew : forall record, In record (fst (prepare symbol timeframe df)) ->
            exists row, In row df /\ process_row symbol timeframe row = Accepted record /\
              bar_volume record = bar_tick_volume record /\
              bar_tick_volume record = tick_volume_of row).
  { intros record (row & Hin & Hacc)%prepare_In. exists row.
    pose proof (process_row_accepted _ _ _ _ Hacc). tauto. }
  split.
  - intros record Hin Hold. destruct (Hp record Hin) as [H|H]; [tauto | auto].
  - intros Hs Hcs.
    assert (Hall : Forall volume_mirrors_tick_volume (price_data s')).
    { apply List.Forall_forall. intros r Hr. destruct (Hp r Hr) as [H|H].
      - exact (proj1 (List.Forall_forall _ _) Hs r H).
      - destruct (Hnew r H) as (row & _ & _ & Hv & _). exact Hv. }
    split; [exact Hall|].
    apply List.Forall_forall. intros r Hr. destruct (Hc r Hr) as [H|H].
    + exact (proj1 (List.Forall_forall _ _) Hcs r H).
    + exact (proj1 (List.Forall_forall _ _) Hall r H).
Qed.

(** ** Download statistics *)

(** [save_price_data] appends at most one statistics row; when it does,
    the row is marked successful and the returned count is positive. *)
Lemma save_price_data_stats (fault : nat -> statement -> bool) (symbol timeframe : string)
    (df : DataFrame) (s : Store) :
  let out := save_price_data fault symbol timeframe df s in
  download_stats (fst out) = download_stats s \/
  (0 < snd out /\ dated df /\ exists stat,
     download_stats (fst out) = download_stats s ++ [stat] /\
     stat_success stat = true /\ stat_symbol stat = symbol /\
     stat_timeframe stat = timeframe /\ stat_bars_count stat = length df).
Proof.
  unfold save_price_data.
  destruct (prepare symbol timeframe df) as [data n].
  destruct data as [|first rest]; [simpl; auto|].
  pose proof (execute_insert_same_but_prices fault s first) as Hs1.
  destruct (Sql.execute_insert fault s first) as [s1 [n1|e1]]; simpl in Hs1.
  2:{ simpl. left. apply Hs1. }
  unfold Sql.executemany.
  pose proof (executemany_from_In fault rest s1 0) as [Hs2 _].
  destruct (Sql.executemany_from fault s1 rest 0) as [s2 [n2|e2]]; simpl in Hs2.
  - pose proof (save_stats_spec fault symbol timeframe df (Sql.commit s2) (n2 + 1)) as H.
    simpl in H.
    destruct (save_stats fault symbol timeframe df (Sql.commit s2) (n2 + 1)) as [s' m].
    simpl in *. destruct H as (_ & _ & [H|(Hn & -> & Hd & stat & H & Hrest)] & _).
    + left. destruct Hs1 as (H1 & _), Hs2 as (H2 & _). congruence.
    + right. split; [lia|]. split; [exact Hd|]. exists stat.
      destruct Hs1 as (H1 & _), Hs2 as (H2 & _). rewrite H, H2, H1. tauto.
  - destruct (is_sqlite_error e2).
    2:{ simpl. left. destruct Hs1 as (H1 & _), Hs2 as (H2 & _). congruence. }
    pose proof (insert_one_by_one_In fault rest s2 0) as [Hs3 _].
    destruct (insert_one_by_one fault s2 rest 0) as [s3 [n3|e3]]; simpl in Hs3.
    2:{ simpl. left. destruct Hs1 as (H1 & _), Hs2 as (H2 & _), Hs3 as (H3 & _).
        congruence. }
    destruct (0 <? n3)%nat.
    2:{ simpl. left. destruct Hs1 as (H1 & _), Hs2 as (H2 & _), Hs3 as (H3 & _).
        congruence. }
    pose proof (save_stats_spec fault symbol timeframe df (Sql.commit s3) (n3 + 1)) as H.
    simpl in H.
    destruct (save_stats fault symbol timeframe df (Sql.commit s3) (n3 + 1)) as [s' m].
    simpl in *. destruct H as (_ & _ & [H|(Hn & -> & Hd & stat & H & Hrest)] & _).
    + left. destruct Hs1 as (H1 & _), Hs2 as (H2 & _), Hs3 as (H3 & _). congruence.
    + right. split; [lia|]. split; [exact Hd|]. exists stat.
      destruct Hs1 as (H1 & _), Hs2 as (H2 & _), Hs3 as (H3 & _).
      rewrite H, H3, H2, H1. tauto.
Qed.

(** ** The per-symbol task *)

Lemma same_symbols_refl (st : Stats) : same_symbols st st.
Proof. repeat split. Qed.

Lemma same_symbols_trans (a b c : Stats) :
  same_symbols a b -> same_symbols b c -> same_symbols a c.
Proof. unfold same_symbols. intros (-> & -> & ->) (-> & -> & ->). tauto. Qed.

Lemma save_price_data_on_frame (fault : nat -> statement -> bool)
    (symbol timeframe : string) (df : DataFrame) (b : Builder) :
  let out := save_price_data_on fault symbol timeframe df b in
  calls (fst out) = calls b /\ stats (fst out) = stats b /\
  mt5_connected (fst out) = mt5_connected b /\
  (connection b = None <-> connection (fst out) = None) /\
  (stat_rows (fst out) = stat_rows b \/
   (0 < snd out /\ dated df /\ exists stat,
      stat_rows (fst out) = stat_rows b ++ [stat] /\
      stat_success stat = true /\ stat_symbol stat = symbol /\
      stat_timeframe stat = timeframe /\ stat_bars_count stat = length df)).
Proof.
  unfold save_price_data_on, stat_rows.
  destruct (connection b) as [s|] eqn:Ec; simpl.
  - pose proof (save_price_data_stats fault symbol timeframe df s) as H. simpl in H.
    destruct (save_price_data fault symbol timeframe df s) as [s' n]. simpl in *.
    repeat split; try discriminate. exact H.
  - rewrite Ec. repeat split; auto.
Qed.

Lemma iso_of_raise (row : option Row) (e : exn) :
  iso_of row = Raise e -> is_Exception e = true.
Proof.
  unfold iso_of, time_cell.
  destruct row as [r|]; [destruct (r !! "time") as [[]|]|]; simpl;
    intros H; try discriminate H; injection H as <-; reflexivity.
Qed.

(** One fetch: what it logs, what it leaves alone, and what it records. *)
Lemma fetch_timeframe_shape (fault : nat -> statement -> bool) (mt5 : Terminal)
    (symbol : string) (max_bars : Z) (tf_name : string) (tf_value : Timeframe)
    (b : Builder) (results : SymbolResult) :
  let out := fetch_timeframe fault mt5 symbol max_bars tf_name tf_value b results in
  calls (fst out) = calls b ++ [CallCopyRates symbol tf_value 0%Z max_bars] /\
  mt5_connected (fst out) = mt5_connected b /\
  same_symbols (stats b) (stats (fst out)) /\
  (connection b = None <-> connection (fst out) = None) /\
  match snd out with
  | Ok results' =>
    res_success results' = res_success results /\
    res_error results' = res_error results /\
    res_symbol results' = res_symbol results /\
    (exists entry,
       res_timeframes results' = <[tf_name := entry]> (res_timeframes results) /\
       (stat_rows (fst out) = stat_rows b /\
        (tf_success entry = true -> 0 < bars_saved entry) \/
        tf_success entry = true /\ 0 < bars_saved entry /\
        exists stat,
          stat_rows (fst out) = stat_rows b ++ [stat] /\
          stat_success stat = true /\ stat_symbol stat = symbol /\
          stat_timeframe stat = tf_name))
  | Raise e =>
    stat_rows (fst out) = stat_rows b /\
    (copy_rates_from_pos mt5 symbol tf_value 0%Z max_bars = Raise e \/
     is_Exception e = true)
  end.
Proof.
  unfold fetch_timeframe. cbv zeta.
  destruct (copy_rates_from_pos mt5 symbol tf_value 0%Z max_bars)
    as [[[|row more]|]|e] eqn:Ecr.
  1,3: simpl; repeat split; try tauto; eexists; split; [reflexivity|];
       left; split; [reflexivity | discriminate].
  2: simpl; repeat split; tauto.
  set (df := if Pandas.has_column (row :: more) "time"
             then Pandas.dropna_time (Pandas.convert_time (row :: more))
             else row :: more).
  destruct (length df =? 0)%nat.
  { simpl. repeat split; try tauto. eexists; split; [reflexivity|].
    left; split; [reflexivity | discriminate]. }
  pose proof (save_price_data_on_frame fault symbol tf_name df
                (Upd.log (CallCopyRates symbol tf_value 0%Z max_bars) b)) as H.
  simpl in H.
  destruct (save_price_data_on fault symbol tf_name df
              (Upd.log (CallCopyRates symbol tf_value 0%Z max_bars) b)) as [b' saved].
  simpl in H. destruct H as (Hc & Hst & Hm & Hconn & Hstat).
  change (stat_rows (Upd.log (CallCopyRates symbol tf_value 0%Z max_bars) b))
    with (stat_rows b) in Hstat.
  destruct (iso_of (head df)) as [d1|e1] eqn:E1.
  2:{ simpl. rewrite Hst. repeat split; try tauto.
      - destruct Hstat as [H|(_ & (? & ? & ? & _) & _)]; [exact H | congruence].
      - right. exact (iso_of_raise _ _ E1). }
  destruct (iso_of (last df)) as [d2|e2] eqn:E2.
  2:{ simpl. rewrite Hst. repeat split; try tauto.
      - destruct Hstat as [H|(_ & (? & ? & _ & ?) & _)]; [exact H | congruence].
      - right. exact (iso_of_raise _ _ E2). }
  simpl. rewrite Hst. repeat split; try tauto.
  eexists. split; [reflexivity|]. simpl.
  destruct Hstat as [H|(Hpos & _ & stat & H & Hs1 & Hs2 & Hs3 & _)].
  - left. split; [exact H|]. intros Hlt. now apply Nat.ltb_lt.
  - right. split; [now apply Nat.ltb_lt|]. split; [exact Hpos|].
    exists stat. tauto.
Qed.

Lemma fetches_of_app (symbol : string) (cs ds : list call) :
  fetches_of symbol (cs ++ ds) = fetches_of symbol cs ++ fetches_of symbol ds.
Proof. apply List.filter_app. Qed.

Lemma fetches_of_other (symbol y : string) (tf : Timeframe) (start count : Z)
    (cs : list call) :
  y <> symbol ->
  fetches_of y (cs ++ [CallCopyRates symbol tf start count]) = fetches_of y cs.
Proof.
  intros Hne. rewrite fetches_of_app. simpl.
  destruct (String.eqb_spec symbol y) as [->|_]; [congruence|].
  apply app_nil_r.
Qed.

(** An unsupported tag in the list changes nothing. *)
Lemma download_timeframes_skip (fault : nat -> statement -> bool) (mt5 : Terminal)
    (symbol : string) (max_bars : Z) (tf : string) (pre post : list string)
    (b : Builder) (results : SymbolResult) :
  timeframes !! tf = None ->
  download_timeframes fault mt5 symbol max_bars (pre ++ tf :: post) b results =
  download_timeframes fault mt5 symbol max_bars (pre ++ post) b results.
Proof.
  intros Hno. revert b results. induction pre as [|x pre IH]; intros b results.
  - simpl. now rewrite Hno.
  - simpl. destruct (timeframes !! x) as [tf_value|]; [|apply IH].
    destruct (fetch_timeframe fault mt5 symbol max_bars x tf_value b results)
      as [b' [results'|e]]; [apply IH|].
    destruct (is_Exception e); [apply IH | reflexivity].
Qed.

(** The loop records entries under supported tags only. *)
Lemma download_timeframes_keys (fault : nat -> statement -> bool) (mt5 : Terminal)
    (symbol : string) (max_bars : Z) (tf : string) (tfs : list string)
    (b : Builder) (results r : SymbolResult) :
  timeframes !! tf = None ->
  res_timeframes results !! tf = None ->
  snd (download_timeframes fault mt5 symbol max_bars tfs b results) = Ok r ->
  res_timeframes r !! tf = None.
Proof.
  intros Hno. revert b results. induction tfs as [|x tfs IH]; intros b results Hr.
  - simpl. now intros [= <-].
  - simpl. destruct (timeframes !! x) as [tf_value|] eqn:Ex; [|now apply IH].
    assert (Hne : x <> tf) by congruence.
    pose proof (fetch_timeframe_shape fault mt5 symbol max_bars x tf_value b results) as H.
    simpl in H.
    destruct (fetch_timeframe fault mt5 symbol max_bars x tf_value b results)
      as [b' [results'|e]]; simpl in H.
    + destruct H as (_ & _ & _ & _ & _ & _ & _ & entry & Heq & _).
      apply IH. rewrite Heq. now rewrite lookup_insert_ne.
    + destruct (is_Exception e); [|discriminate].
      apply IH. simpl. now rewrite lookup_insert_ne.
Qed.

(** With a terminal that raises only [Exception]s the loop always ends
    with a result; it keeps the success flag, touches no statistic of the
    coordinating loop and fetches for its own symbol only. *)
Lemma download_timeframes_spec (fault : nat -> statement -> bool) (mt5 : Terminal)
    (symbol : string) (max_bars : Z) (tfs : list string)
    (b : Builder) (results : SymbolResult) :
  raises_exceptions_only mt5 ->
  exists b' r,
    download_timeframes fault mt5 symbol max_bars tfs b results = (b', Ok r) /\
    res_success r = res_success results /\
    same_symbols (stats b) (stats b') /\
    (forall y, y <> symbol -> fetches_of y (calls b') = fetches_of y (calls b)).
Proof.
  intros [_ Hcopy]. revert b results.
  induction tfs as [|x tfs IH]; intros b results; simpl.
  - exists b, results. repeat split.
  - destruct (timeframes !! x) as [tf_value|]; [|apply IH].
    pose proof (fetch_timeframe_shape fault mt5 symbol max_bars x tf_value b results) as H.
    simpl in H.
    destruct (fetch_timeframe fault mt5 symbol max_bars x tf_value b results)
      as [b1 [results1|e]]; simpl in H.
    + destruct H as (Hc & _ & Hst & _ & Hs & _).
      destruct (IH b1 results1) as (b' & r & -> & Hr & Hst' & Hf).
      exists b', r. split; [reflexivity|]. split; [congruence|].
      split; [eapply same_symbols_trans; eassumption|].
      intros y Hy. rewrite (Hf y Hy), Hc. now apply fetches_of_other.
    + destruct H as (Hc & _ & Hst & _ & _ & He).
      assert (Hexc : is_Exception e = true) by (destruct He; eauto).
      rewrite Hexc.
      destruct (IH (Upd.with_stats (Upd.add_error (stats b1)) b1)
                  (set_timeframe x (failed_timeframe (TfException e)) results))
        as (b' & r & -> & Hr & Hst' & Hf).
      exists b', r. split; [reflexivity|]. split; [exact Hr|].
      split.
      * eapply same_symbols_trans; [exact Hst|].
        eapply same_symbols_trans; [|exact Hst']. repeat split.
      * intros y Hy. rewrite (Hf y Hy). simpl. rewrite Hc.
        now apply fetches_of_other.
Qed.

(** A symbol that cannot be selected: the task stops after the
    selection, with a failed result and no fetch. *)
Lemma download_symbol_data_unselectable (fault : nat -> statement -> bool)
    (mt5 : Terminal) (symbol : string) (tfs : list string) (max_bars : Z)
    (b : Builder) :
  symbol_select mt5 symbol = Ok false ->
  download_symbol_data fault mt5 symbol tfs max_bars b =
  (Upd.log (CallSymbolSelect symbol) b,
   Ok {| res_symbol := symbol; res_timeframes := ∅; res_total_bars := 0;
         res_success := false; res_error := Some NotSelectable |}).
Proof. intros H. unfold download_symbol_data. now rewrite H. Qed.

(** The task always ends with a result, whose success flag says whether
    the symbol could be selected. *)
Lemma download_symbol_data_spec (fault : nat -> statement -> bool)
    (mt5 : Terminal) (symbol : string) (tfs : list string) (max_bars : Z)
    (b : Builder) :
  raises_exceptions_only mt5 ->
  exists b' r,
    download_symbol_data fault mt5 symbol tfs max_bars b = (b', Ok r) /\
    res_success r = selectable mt5 symbol /\
    same_symbols (stats b) (stats b') /\
    (forall y, y <> symbol -> fetches_of y (calls b') = fetches_of y (calls b)) /\
    (selectable mt5 symbol = false ->
     forall y, fetches_of y (calls b') = fetches_of y (calls b)).
Proof.
  intros Hmt5. unfold download_symbol_data, selectable.
  assert (Hlog : forall y, fetches_of y (calls b ++ [CallSymbolSelect symbol])
                           = fetches_of y (calls b)).
  { intros y. rewrite fetches_of_app. apply app_nil_r. }
  destruct (symbol_select mt5 symbol) as [[|]|e] eqn:Es.
  - destruct (download_timeframes_spec fault mt5 symbol max_bars tfs
                (Upd.log (CallSymbolSelect symbol) b)
                {| res_symbol := symbol; res_timeframes := ∅; res_total_bars := 0;
                   res_success := true; res_error := None |} Hmt5)
      as (b' & r & -> & Hr & Hst & Hf).
    exists b', r. split; [reflexivity|]. split; [exact Hr|]. split; [exact Hst|].
    split; [|discriminate].
    intros y Hy. rewrite (Hf y Hy). apply Hlog.
  - eexists _, _. split; [reflexivity|]. simpl. repeat split; auto.
  - rewrite (proj1 Hmt5 _ _ Es).
    eexists _, _. split; [reflexivity|]. simpl. repeat split; auto.
Qed.

Lemma timeframes_unsupported (tf : string) :
  ~ In tf supported_tags -> timeframes !! tf = None.
Proof.
  intros H. unfold timeframes. apply not_elem_of_list_to_map_1.
  intros Hin. apply H. apply list_elem_of_In in Hin. exact Hin.
Qed.

Lemma timeframes_supported (tf : string) :
  In tf supported_tags -> is_Some (timeframes !! tf).
Proof.
  intros H. simpl in H.
  repeat (destruct H as [<-|H]; [vm_compute; eauto|]). destruct H.
Qed.

(** C10: a tag of the requested list that is not one of the nine
    supported tags is skipped: the task behaves exactly as if the tag were
    not in the list (same calls to the terminal, hence no fetch for it;
    same store; same statistics; same result, hence same success flag and
    bar totals), and the result has no entry under that tag. *)
Theorem download_symbol_data_unsupported_tag (fault : nat -> statement -> bool)
    (mt5 : Terminal) (symbol : string) (max_bars : Z) (b : Builder)
    (pre post : list string) (tf : string) :
  ~ In tf supported_tags ->
  let out := download_symbol_data fault mt5 symbol (pre ++ tf :: post) max_bars b in
  out = download_symbol_data fault mt5 symbol (pre ++ post) max_bars b /\
  (forall r, snd out = Ok r -> res_timeframes r !! tf = None).
Proof.
  intros Hno%timeframes_unsupported. simpl. split.
  - unfold download_symbol_data.
    destruct (symbol_select mt5 symbol) as [[|]|e]; try reflexivity.
    now apply download_timeframes_skip.
  - intros r. unfold download_symbol_data.
    destruct (symbol_select mt5 symbol) as [[|]|e].
    + apply download_timeframes_keys; [exact Hno | apply lookup_empty].
    + simpl. intros [= <-]. apply lookup_empty.
    + destruct (is_Exception e); simpl; [|discriminate].
      intros [= <-]. apply lookup_empty.
Qed.

(** With the tag "X9" between "M1" and "H1", the EURUSD task does what
    it does without it. *)
Lemma download_symbol_data_unsupported_tag_witness :
  ~ In "X9" supported_tags /\
  download_symbol_data no_fault scenario_terminal "EURUSD" ["M1"; "X9"; "H1"]
    50000 ready_builder =
  download_symbol_data no_fault scenario_terminal "EURUSD" ["M1"; "H1"]
    50000 ready_builder.
Proof.
  assert (Hno : ~ In "X9" supported_tags).
  { intros H. simpl in H.
    repeat (destruct H as [H|H]; [discriminate H|]). exact H. }
  split; [exact Hno|].
  exact (proj1 (download_symbol_data_unsupported_tag no_fault scenario_terminal
                  "EURUSD" 50000 ready_builder ["M1"] ["H1"] "X9" Hno)).
Defined.

(** The end-to-end scenario, evaluated: one symbol processed and
    completed, three bars, three price rows, and the connections closed
    at the end. *)
Example scenario_run_result :
  snd scenario_run = Ok true /\
  symbols_processed (stats (fst scenario_run)) = 1 /\
  symbols_completed (stats (fst scenario_run)) = ["EURUSD"] /\
  symbols_failed (stats (fst scenario_run)) = [] /\
  total_bars_downloaded (stats (fst scenario_run)) = 3 /\
  map bar_time (price_rows (fst scenario_run))
    = [1700000000; 1700003600; 1700007200]%Z /\
  calls (fst scenario_run)
    = [CallSymbolSelect "EURUSD";
       CallCopyRates "EURUSD" TIMEFRAME_M1 0 50000;
       CallCopyRates "EURUSD" TIMEFRAME_H1 0 50000;
       CallConnectionClose; CallShutdown].
Proof. vm_compute. repeat split. Qed.

(** C5, as the code has it: a fetch attempt appends at most one
    DownloadStat row, and it appends one only when [save_price_data]
    returned a positive count; the row carries the symbol, the tag and
    the success flag [True], and the attempt is then recorded as
    successful.  An attempt that fails (no data, nothing valid, nothing
    saved, an exception) appends no row.  In the end-to-end scenario the
    store holds exactly one DownloadStat row, for H1 and marked
    successful, and none for M1, whose attempt is recorded as failed in
    the result of the task only. *)
Theorem download_stat_only_when_saved :
  (forall (fault : nat -> statement -> bool) (mt5 : Terminal) (symbol : string)
          (max_bars : Z) (tf_name : string) (tf_value : Timeframe)
          (b : Builder) (results : SymbolResult),
     let out := fetch_timeframe fault mt5 symbol max_bars tf_name tf_value b results in
     stat_rows (fst out) = stat_rows b \/
     exists stat results' entry,
       stat_rows (fst out) = stat_rows b ++ [stat] /\
       stat_success stat = true /\ stat_symbol stat = symbol /\
       stat_timeframe stat = tf_name /\
       snd out = Ok results' /\
       res_timeframes results' !! tf_name = Some entry /\
       tf_success entry = true /\ 0 < bars_saved entry) /\
  stat_rows (fst scenario_run) = [eurusd_h1_stat] /\
  (let task := download_symbol_data no_fault scenario_terminal "EURUSD"
                 ["M1"; "H1"] 50000 ready_builder in
   stat_rows (fst task) = [eurusd_h1_stat] /\
   exists r m1 h1,
     snd task = Ok r /\
     res_timeframes r !! "M1" = Some m1 /\ tf_success m1 = false /\
     res_timeframes r !! "H1" = Some h1 /\ tf_success h1 = true /\
     bars_saved h1 = 3).
Proof.
  split; [|split; [|split]].
  - intros fault mt5 symbol max_bars tf_name tf_value b results.
    pose proof (fetch_timeframe_shape fault mt5 symbol max_bars tf_name tf_value
                  b results) as H.
    simpl in *.
    destruct (fetch_timeframe fault mt5 symbol max_bars tf_name tf_value b results)
      as [b' [results'|e]]; simpl in *.
    + destruct H as (_ & _ & _ & _ & _ & _ & _ & entry & Heq & [[H _]|(Hs & Hb & stat & H)]).
      * now left.
      * right. exists stat, results', entry. rewrite Heq, lookup_insert_eq. tauto.
    + left. tauto.
  - vm_compute. reflexivity.
  - vm_compute. reflexivity.
  - eexists _, _, _. vm_compute. repeat split.
Qed.

(** C5 as stated does not hold: after the end-to-end scenario the store
    has a single DownloadStat row; none is for M1 and none is marked
    failed. *)
Lemma scenario_has_no_failed_download_stat :
  length (stat_rows (fst scenario_run)) = 1 /\
  ~ (exists stat, In stat (stat_rows (fst scenario_run)) /\
                  (stat_timeframe stat = "M1" \/ stat_success stat = false)).
Proof.
  assert (E : stat_rows (fst scenario_run) = [eurusd_h1_stat])
    by (vm_compute; reflexivity).
  rewrite E. split; [reflexivity|].
  intros (stat & [<-|[]] & [H|H]); discriminate H.
Qed.

(** ** The coordinating loop *)

Lemma Permutation_filter {A} (f : A -> bool) (l l' : list A) :
  Permutation l l' -> Permutation (List.filter f l) (List.filter f l').
Proof.
  induction 1 as [|x l l' _ IH|x y l|l l' l'' _ IH1 _ IH2]; simpl.
  - constructor.
  - destruct (f x); [now constructor | exact IH].
  - destruct (f x), (f y); try reflexivity. apply perm_swap.
  - etransitivity; eassumption.
Qed.

(** Without interrupt and with a terminal that raises only [Exception]s,
    the loop processes every task: the selectable symbols are completed,
    the others failed, each list in completion order, and no fetch is made
    for a symbol that is not selectable. *)
Lemma run_pool_spec (fault : nat -> statement -> bool) (mt5 : Terminal)
    (tfs : list string) (max_bars : Z) (order : list string) (b : Builder) :
  raises_exceptions_only mt5 ->
  exists b',
    run_pool (fun symbol => download_symbol_data fault mt5 symbol tfs max_bars)
      order None b = (b', Ok tt) /\
    symbols_processed (stats b') = symbols_processed (stats b) + length order /\
    symbols_completed (stats b')
      = symbols_completed (stats b) ++ List.filter (selectable mt5) order /\
    symbols_failed (stats b')
      = symbols_failed (stats b)
        ++ List.filter (fun symbol => negb (selectable mt5 symbol)) order /\
    (forall y, selectable mt5 y = false ->
               fetches_of y (calls b') = fetches_of y (calls b)).
Proof.
  intros Hmt5. revert b. induction order as [|symbol order IH]; intros b.
  - exists b. simpl. rewrite !app_nil_r, Nat.add_0_r. repeat split.
  - simpl.
    destruct (download_symbol_data_spec fault mt5 symbol tfs max_bars b Hmt5)
      as (b1 & r & -> & Hr & (Hp & Hc & Hf) & Hfo & Hfu).
    unfold collect at 1. rewrite Hr.
    destruct (selectable mt5 symbol) eqn:Hsel; simpl.
    + match goal with |- context [run_pool _ order None ?x] =>
        destruct (IH x) as (b' & -> & Hp' & Hc' & Hf' & Hfe') end.
      exists b'. simpl in *. split; [reflexivity|].
      rewrite Hp', Hc', Hf', Hp, Hc, Hf. repeat split.
      * lia.
      * now rewrite <- app_assoc.
      * intros y Hy. rewrite (Hfe' y Hy). apply Hfo. congruence.
    + match goal with |- context [run_pool _ order None ?x] =>
        destruct (IH x) as (b' & -> & Hp' & Hc' & Hf' & Hfe') end.
      exists b'. simpl in *. split; [reflexivity|].
      rewrite Hp', Hc', Hf', Hp, Hc, Hf. repeat split.
      * lia.
      * now rewrite <- app_assoc.
      * intros y Hy. rewrite (Hfe' y Hy). now apply Hfu.
Qed.

(** C6: a symbol that cannot be selected makes its task stop right after
    the selection, with a failed result and without any fetch; and over
    the symbols A, B, C of which only B cannot be selected, in whatever
    order the three tasks complete, the loop processes all three, reports
    B alone as failed, A and C as completed, and no fetch is made for
    B. *)
Theorem unselectable_symbol_is_contained (fault : nat -> statement -> bool)
    (mt5 : Terminal) (tfs : list string) (max_bars : Z) :
  (forall symbol b,
     symbol_select mt5 symbol = Ok false ->
     download_symbol_data fault mt5 symbol tfs max_bars b =
     (Upd.log (CallSymbolSelect symbol) b,
      Ok {| res_symbol := symbol; res_timeframes := ∅; res_total_bars := 0;
            res_success := false; res_error := Some NotSelectable |})) /\
  (raises_exceptions_only mt5 ->
   symbol_select mt5 "A" = Ok true ->
   symbol_select mt5 "B" = Ok false ->
   symbol_select mt5 "C" = Ok true ->
   forall order b,
     Permutation order ["A"; "B"; "C"] ->
     let out := run_pool
                  (fun symbol => download_symbol_data fault mt5 symbol tfs max_bars)
                  order None b in
     snd out = Ok tt /\
     symbols_processed (stats (fst out)) = symbols_processed (stats b) + 3 /\
     symbols_failed (stats (fst out)) = symbols_failed (stats b) ++ ["B"] /\
     (exists completed,
        symbols_completed (stats (fst out)) = symbols_completed (stats b) ++ completed /\
        Permutation completed ["A"; "C"]) /\
     fetches_of "B" (calls (fst out)) = fetches_of "B" (calls b)).
Proof.
  split; [intros symbol b; apply download_symbol_data_unselectable|].
  intros Hmt5 HA HB HC order b Hperm.
  destruct (run_pool_spec fault mt5 tfs max_bars order b Hmt5)
    as (b' & E & Hp & Hc & Hf & Hfe).
  simpl. rewrite E. simpl.
  assert (SA : selectable mt5 "A" = true) by (unfold selectable; now rewrite HA).
  assert (SB : selectable mt5 "B" = false) by (unfold selectable; now rewrite HB).
  assert (SC : selectable mt5 "C" = true) by (unfold selectable; now rewrite HC).
  split; [reflexivity|]. split; [|split; [|split]].
  - rewrite Hp, (Permutation_length Hperm). reflexivity.
  - rewrite Hf. f_equal.
    pose proof (Permutation_filter (fun symbol => negb (selectable mt5 symbol))
                  _ _ Hperm) as H.
    simpl in H. rewrite SA, SB, SC in H. simpl in H.
    now apply Permutation_singleton_r.
  - eexists. split; [exact Hc|].
    pose proof (Permutation_filter (selectable mt5) _ _ Hperm) as H.
    simpl in H. now rewrite SA, SB, SC in H.
  - now apply Hfe.
Qed.

Lemma abc_terminal_raises_exceptions_only : raises_exceptions_only abc_terminal.
Proof. split; intros; discriminate. Defined.

(** The tasks complete in the order C, A, B: B alone is reported failed. *)
Lemma unselectable_symbol_is_contained_witness :
  Permutation ["C"; "A"; "B"] ["A"; "B"; "C"] /\
  symbols_failed
    (stats (fst (run_pool
                   (fun symbol => download_symbol_data no_fault abc_terminal symbol
                                    ["M1"; "H1"] 50000)
                   ["C"; "A"; "B"] None ready_builder))) = ["B"].
Proof.
  assert (Hperm : Permutation ["C"; "A"; "B"] ["A"; "B"; "C"]).
  { apply Permutation_sym. apply (Permutation_cons_app ["C"] ["B"]).
    apply perm_swap. }
  split; [exact Hperm|].
  exact (proj1 (proj2 (proj2
    (proj2 (unselectable_symbol_is_contained no_fault abc_terminal ["M1"; "H1"] 50000)
       abc_terminal_raises_exceptions_only eq_refl eq_refl eq_refl
       ["C"; "A"; "B"] ready_builder Hperm)))).
Defined.

(** ** Cleanup *)

Lemma cleanup_spec (b : Builder) :
  calls (cleanup b) = calls b ++ cleanup_calls b /\
  connection (cleanup b) = connection b /\
  mt5_connected (cleanup b) = mt5_connected b /\
  stats (cleanup b) = stats b.
Proof.
  unfold cleanup, cleanup_calls.
  destruct (connection b) as [s|] eqn:Ec, (mt5_connected b) eqn:Em; simpl;
    rewrite ?Ec, ?Em; simpl; rewrite ?Ec, ?Em, ?app_nil_r, <- ?app_assoc;
    repeat split; reflexivity.
Qed.

(** [try ... finally] runs its final block on every outcome of the body. *)
Lemma try_finally_runs_final {A} (body : M A) (final : Builder -> Builder) (b : Builder) :
  try_finally body final b = (final (fst (body b)), snd (body b)).
Proof. unfold try_finally. now destruct (body b). Qed.

(** [try ... except Exception] lets nothing through but what is not an
    [Exception], provided the handler raises nothing. *)
Lemma try_except_outcome {A} (body : M A) (a : A) (b : Builder) (e : exn) :
  snd (try_except body (fun _ => ret a) b) = Raise e -> is_Exception e = false.
Proof.
  unfold try_except. destruct (body b) as [b' [x|e']]; simpl; [discriminate|].
  destruct (is_Exception e') eqn:E; simpl; [discriminate|]. now intros [= <-].
Qed.

(** C8: on every run of [build_database], whatever the configuration,
    the terminal, the database, the thread pool and the backend do, and
    whether the body returns, raises or is interrupted, the last thing the
    run does is to call [cleanup], and the run ends either with a boolean
    or with the interrupt, never with an [Exception].  But [cleanup]
    disconnects from the terminal only if the flag [mt5_connected] is
    set, and [connect_to_mt5] sets it only after it has read the answers
    of the two information calls.  On a terminal that has started and
    gives no terminal or no account information, the reading raises, the
    run answers [False], and it ends without the disconnection: after
    the calls made before the run, the trace holds nothing but the
    closing of a store connection that was already open. *)
Theorem build_database_cleanup_misses_terminal :
  (forall (fault : nat -> statement -> bool) (mt5 : Terminal) (env : Periphery)
          (pool : Schedule) (b : Builder),
     let out := build_database fault mt5 env pool b in
     (exists earlier, calls (fst out) = earlier ++ cleanup_calls (fst out)) /\
     (forall e, snd out = Raise e -> e = KeyboardInterrupt)) /\
  (forall (fault : nat -> statement -> bool) (mt5 : Terminal) (config : Config)
          (pool : Schedule) (api : TerminalApi) (b : Builder)
          (has_terminal has_account : bool),
     terminal_started api (mt5_executable_path config) ->
     terminal_info api = Ok has_terminal ->
     account_info api = Ok has_account ->
     has_terminal && has_account = false ->
     mt5_connected b = false ->
     let out := build_database fault mt5 (terminal_env api config) pool b in
     snd out = Ok false /\
     mt5_connected (fst out) = false /\
     calls (fst out)
     = calls b ++ match connection b with
                  | Some _ => [CallConnectionClose]
                  | None => []
                  end).
Proof.
  split.
  - intros fault mt5 env pool b. simpl. unfold build_database.
    rewrite try_finally_runs_final. simpl.
    match goal with |- context [fst (try_except ?body ?h b)] =>
      set (run := try_except body h b) end.
    destruct (cleanup_spec (fst run)) as (Hc & Hconn & Hm & _). split.
    + exists (calls (fst run)). rewrite Hc. unfold cleanup_calls.
      now rewrite Hconn, Hm.
    + intros e He. apply try_except_outcome in He. now destruct e.
  - intros fault mt5 config pool api b has_terminal has_account
      Hstart Ht Ha Hmiss Hflag.
    assert (Hconnect : connect_to_mt5_with api (mt5_executable_path config) b
                       = (b, Ok false)).
    { unfold connect_to_mt5_with, try_except, connect_body.
      unfold terminal_started in Hstart. rewrite Hstart, Ht, Ha, Hmiss.
      reflexivity. }
    cbv zeta. unfold build_database. rewrite try_finally_runs_final.
    assert (Ebody : forall body_rest,
      try_except
        (let* config0 := load_config (terminal_env api config) in
         let* connected :=
           connect_to_mt5 (terminal_env api config)
             (mt5_executable_path config0) in
         if negb connected then ret false else body_rest config0)
        (fun _ => ret false) b = (b, Ok false)).
    { intros body_rest.
      cbv [try_except bind ret terminal_env scenario_env load_config
           connect_to_mt5].
      cbv [mt5_executable_path] in Hconnect |- *. rewrite Hconnect.
      reflexivity. }
    rewrite Ebody. cbn [fst snd].
    destruct (cleanup_spec b) as (Hc & _ & Hm & _).
    rewrite Hc, Hm. unfold cleanup_calls. rewrite Hflag, app_nil_r.
    repeat split; assumption.
Qed.

(** A terminal that starts but reports no account: the run answers
    [False] and leaves the terminal started. *)
Lemma build_database_cleanup_misses_terminal_witness :
  terminal_started no_account_api (mt5_executable_path scenario_config) /\
  let out := build_database no_fault scenario_terminal
               (terminal_env no_account_api scenario_config) in_order
               fresh_builder in
  snd out = Ok false /\ calls (fst out) = [].
Proof.
  split; [reflexivity|].
  destruct (proj2 build_database_cleanup_misses_terminal no_fault
              scenario_terminal scenario_config in_order no_account_api
              fresh_builder true false eq_refl eq_refl eq_refl eq_refl eq_refl)
    as (Hs & _ & Hc).
  cbv zeta in Hs, Hc |- *. split; [exact Hs|exact Hc].
Defined.

(** The run is interrupted while the pool works: the interrupt reaches
    the caller, after the task has run to its end and the connections
    have been closed. *)
Example interrupted_run_cleans_up :
  let out := build_database no_fault scenario_terminal (scenario_env scenario_config)
               interrupted fresh_builder in
  snd out = Raise KeyboardInterrupt /\
  calls (fst out)
    = [CallSymbolSelect "EURUSD";
       CallCopyRates "EURUSD" TIMEFRAME_M1 0 50000;
       CallCopyRates "EURUSD" TIMEFRAME_H1 0 50000;
       CallConnectionClose; CallShutdown] /\
  symbols_processed (stats (fst out)) = 0.
Proof. vm_compute. repeat split. Qed.

(** The database cannot be opened: the run returns [False] and the
    terminal is disconnected. *)
Example failed_setup_cleans_up :
  let out := build_database no_fault scenario_terminal
               (broken_database_env scenario_config) in_order fresh_builder in
  snd out = Ok false /\ calls (fst out) = [CallShutdown].
Proof. vm_compute. repeat split. Qed.

(** The first of the three bars written into an empty store: it comes
    from a row of the frame, with equal volume and tick volume. *)
Lemma save_price_data_volume_witness :
  exists row,
    In row eurusd_h1 /\
    process_row "EURUSD" "H1" row = Accepted (eurusd_record 1700000000) /\
    bar_volume (eurusd_record 1700000000)
      = bar_tick_volume (eurusd_record 1700000000) /\
    bar_tick_volume (eurusd_record 1700000000) = tick_volume_of row.
Proof.
  apply (proj1 (save_price_data_volume no_fault "EURUSD" "H1" eurusd_h1 empty_store)).
  - vm_compute. left. reflexivity.
  - intros [].
Defined.

(** * Further properties *)

(** ** The preparation of the rows *)

Lemma prepare_omap (symbol timeframe : string) (df : DataFrame) :
  fst (prepare symbol timeframe df) = omap (accepted_of symbol timeframe) df.
Proof.
  induction df as [|row df IH]; [reflexivity|]. simpl. unfold accepted_of at 1.
  destruct (prepare symbol timeframe df) as [d n]. simpl in IH.
  destruct (process_row symbol timeframe row); simpl; now rewrite IH.
Qed.

Lemma prepare_length (symbol timeframe : string) (df : DataFrame) :
  length (fst (prepare symbol timeframe df)) + snd (prepare symbol timeframe df)
  = length df.
Proof.
  induction df as [|row df IH]; [reflexivity|]. simpl.
  destruct (prepare symbol timeframe df) as [d n]. simpl in IH.
  destruct (process_row symbol timeframe row); simpl; lia.
Qed.

Lemma check_ohlc_keeps (row : Row) (fields : list string)
    (vals vals' : gmap string fval) (f : string) :
  check_ohlc row fields vals = inr vals' -> ~ In f fields ->
  vals' !! f = vals !! f.
Proof.
  revert vals. induction fields as [|x fields IH]; intros vals; simpl.
  - now intros [= <-].
  - destruct (row !! x) as [v|]; [|discriminate].
    destruct (Py.isna v); [discriminate|].
    destruct (Py.le_zero v) as [[]|e]; try discriminate.
    destruct (Py.float v) as [y|e]; [|destruct (is_value_or_type_error e); discriminate].
    intros H Hn. rewrite (IH _ H); [|tauto].
    apply lookup_insert_ne. tauto.
Qed.

Lemma check_ohlc_values (row : Row) (fields : list string)
    (vals vals' : gmap string fval) (f : string) :
  check_ohlc row fields vals = inr vals' -> In f fields ->
  exists x, row !! f = Some (CNum x) /\ vals' !! f = Some x.
Proof.
  revert vals. induction fields as [|x fields IH]; intros vals; simpl; [tauto|].
  destruct (row !! x) as [v|] eqn:Ex; [|discriminate].
  destruct (Py.isna v); [discriminate|].
  destruct (Py.le_zero v) as [[]|e]; try discriminate.
  destruct (Py.float v) as [y|e] eqn:Ef;
    [|destruct (is_value_or_type_error e); discriminate].
  intros H Hin.
  destruct (in_dec string_dec f fields) as [Hf|Hf]; [now apply (IH _ H)|].
  destruct Hin as [<-|Hin]; [|tauto].
  exists y. split.
  - destruct v; simpl in Ef; try discriminate. now injection Ef as ->.
  - rewrite (check_ohlc_keeps _ _ _ _ _ H Hf). apply lookup_insert_eq.
Qed.

Lemma optional_int_value (row : Row) (field : string) (z : Z) :
  optional_int row field = Ok z -> z = int_field_of row field.
Proof.
  unfold optional_int, int_field_of.
  destruct (row !! field) as [[| |e|[q|b]|s]|]; simpl; intros [= <-]; reflexivity.
Qed.

(** X2: an accepted row is stored as it is: the time of the record is the
    integer part of the epoch of the row, its four prices are the numbers
    of the row, and its spread and real volume are the integer parts of
    the respective fields, or 0 when the field is absent, missing or not
    a number. *)
Theorem process_row_record (symbol timeframe : string) (row : Row) (record : PriceRow) :
  process_row symbol timeframe row = Accepted record ->
  epoch_of row = Some (bar_time record) /\
  number_of row "open" = Some (bar_open record) /\
  number_of row "high" = Some (bar_high record) /\
  number_of row "low" = Some (bar_low record) /\
  number_of row "close" = Some (bar_close record) /\
  bar_spread record = int_field_of row "spread" /\
  bar_real_volume record = int_field_of row "real_volume".
Proof.
  unfold process_row, epoch_of.
  destruct (row !! "time") as [t|] eqn:Et; [|discriminate].
  destruct (Py.isna t) eqn:Ena; [discriminate|].
  destruct (Py.time_value t) as [time_val|e] eqn:Etv; [|discriminate].
  destruct (check_ohlc row required_fields ∅) as [reason|vals] eqn:Eo; [discriminate|].
  destruct (volume_vals row) as [[vv tv]|e] eqn:Ev; [|discriminate].
  destruct (optional_int row "spread") as [sp|e] eqn:Es; [|discriminate].
  destruct (optional_int row "real_volume") as [rv|e] eqn:Er; [|discriminate].
  pose proof (check_ohlc_values _ _ _ _ "open" Eo) as (o' & Ho & Ho'); [simpl; tauto|].
  pose proof (check_ohlc_values _ _ _ _ "high" Eo) as (h' & Hh & Hh'); [simpl; tauto|].
  pose proof (check_ohlc_values _ _ _ _ "low" Eo) as (l' & Hl & Hl'); [simpl; tauto|].
  pose proof (check_ohlc_values _ _ _ _ "close" Eo) as (c' & Hc & Hc'); [simpl; tauto|].
  unfold ohlc_get. rewrite Ho', Hh', Hl', Hc'. intros [= <-]. simpl.
  unfold number_of. rewrite Ho, Hh, Hl, Hc.
  apply optional_int_value in Es, Er. subst sp rv.
  repeat split; try reflexivity.
  destruct t as [| |e|[q|b]|s]; simpl in *; try discriminate; congruence.
Qed.

Lemma process_row_record_witness :
  epoch_of (bar_valid 1700000000) = Some 1700000000%Z.
Proof.
  exact (proj1 (process_row_record "EURUSD" "H1" (bar_valid 1700000000)
                  (eurusd_record 1700000000) eq_refl)).
Defined.

Lemma len_take (n : nat) (s : string) :
  Str.len (Str.take n s) = Nat.min n (Str.len s).
Proof.
  revert n. induction s as [|c s IH]; intros n; simpl.
  - now rewrite Nat.min_0_r.
  - destruct (Str.is_continuation c) eqn:Ec.
    + simpl. rewrite Ec. apply IH.
    + destruct n as [|n]; [reflexivity|]. simpl. rewrite Ec, IH. reflexivity.
Qed.

Lemma take_all (n : nat) (s : string) :
  Str.len s <= n -> Str.take n s = s.
Proof.
  revert n. induction s as [|c s IH]; intros n; simpl; [reflexivity|].
  destruct (Str.is_continuation c).
  - intros H. f_equal. now apply IH.
  - destruct n as [|n]; [lia|]. intros H. f_equal. apply IH. lia.
Qed.

Lemma prefix_take (n : nat) (s : string) : String.prefix (Str.take n s) s = true.
Proof.
  revert n. induction s as [|c s IH]; intros n; simpl; [reflexivity|].
  destruct (Str.is_continuation c); [|destruct n as [|n]; [reflexivity|]];
    simpl; (destruct (ascii_dec c c); [apply IH | congruence]).
Qed.

(** X3: the stored symbol is the symbol cut to its first 50 characters
    and the stored tag the tag cut to its first 10: never longer, always a
    prefix, and unchanged when short enough; consequently two symbols that
    agree on their first 50 characters are prepared into the same
    records, and thus share their keys in the table. *)
Theorem process_row_truncates (symbol timeframe : string) (row : Row) (record : PriceRow) :
  process_row symbol timeframe row = Accepted record ->
  Str.len (bar_symbol record) <= 50 /\
  Str.len (bar_timeframe record) <= 10 /\
  String.prefix (bar_symbol record) symbol = true /\
  String.prefix (bar_timeframe record) timeframe = true /\
  (Str.len symbol <= 50 -> bar_symbol record = symbol) /\
  (Str.len timeframe <= 10 -> bar_timeframe record = timeframe) /\
  (forall symbol' df,
     Str.take 50 symbol' = Str.take 50 symbol ->
     prepare symbol' timeframe df = prepare symbol timeframe df).
Proof.
  intros H. apply process_row_accepted in H as (_ & _ & -> & -> & _).
  rewrite !len_take, !prefix_take.
  repeat split; try lia; try apply take_all.
  intros symbol' df E. induction df as [|r df IH]; [reflexivity|].
  simpl. rewrite IH. unfold process_row. now rewrite E.
Qed.

Lemma process_row_truncates_witness :
  Str.len (bar_symbol (eurusd_record 1700000000)) <= 50.
Proof.
  exact (proj1 (process_row_truncates "EURUSD" "H1" (bar_valid 1700000000)
                  (eurusd_record 1700000000) eq_refl)).
Defined.

(** X4: an infinite tick volume, spread or real volume is not defaulted
    to 0: the conversion raises [OverflowError], which the handler of
    [ValueError] and [TypeError] lets through, and the row, although its
    timestamp and prices are valid, is rejected. *)
Theorem process_row_infinite_optional (symbol timeframe : string) (row : Row)
    (field : string) (negative : bool) :
  timestamp_usable row -> ohlc_positive row ->
  In field ["tick_volume"; "spread"; "real_volume"] ->
  row !! field = Some (CNum (FInf negative)) ->
  process_row symbol timeframe row = Rejected (RowError OverflowError).
Proof.
  intros (t & Et & Ht) Hohlc Hin Hf. unfold process_row. rewrite Et.
  apply epoch_convertible_time_value in Ht as [-> [z ->]].
  destruct (proj2 (check_ohlc_inr row required_fields ∅) Hohlc) as [vals ->].
  destruct Hin as [<-|[<-|[<-|[]]]].
  - unfold volume_vals. now rewrite Hf.
  - destruct (volume_vals row) as [[vv tv]|e] eqn:Ev.
    + unfold optional_int. now rewrite Hf.
    + unfold volume_vals in Ev.
      destruct (row !! "tick_volume") as [[| |?|[?|?]|?]|]; simpl in Ev;
        try discriminate. now injection Ev as <-.
  - destruct (volume_vals row) as [[vv tv]|e] eqn:Ev.
    + destruct (optional_int row "spread") as [sp|e] eqn:Es.
      * unfold optional_int. now rewrite Hf.
      * unfold optional_int in Es.
        destruct (row !! "spread") as [[| |?|[?|?]|?]|]; simpl in Es;
          try discriminate. now injection Es as <-.
    + unfold volume_vals in Ev.
      destruct (row !! "tick_volume") as [[| |?|[?|?]|?]|]; simpl in Ev;
        try discriminate. now injection Ev as <-.
Qed.

Lemma process_row_infinite_optional_witness :
  process_row "EURUSD" "H1" bar_spread_inf = Rejected (RowError OverflowError).
Proof.
  refine (process_row_infinite_optional "EURUSD" "H1" bar_spread_inf "spread" false
            _ _ _ _).
  - exists (CNum (FFin (inject_Z 1700000000))). split; [vm_compute; reflexivity | exact I].
  - intros f Hf. simpl in Hf. destruct Hf as [<-|[<-|[<-|[<-|[]]]]];
      (eexists; split; [vm_compute; reflexivity | reflexivity]).
  - simpl; tauto.
  - vm_compute. reflexivity.
Defined.

(** ** The writes of [save_price_data] *)

Lemma execute_insert_step (fault : nat -> statement -> bool) (s : Store) (record : PriceRow) :
  let s' := fst (Sql.execute_insert fault s record) in
  same_but_prices s s' /\
  (price_data s' = price_data s \/
   Sql.has_key (price_data s) record = false /\
   price_data s' = price_data s ++ [record] /\
   snd (Sql.execute_insert fault s record) = Ok 1) /\
  (forall n, snd (Sql.execute_insert fault s record) = Ok n -> n <= 1).
Proof.
  unfold Sql.execute_insert.
  destruct (Sql.binds record); simpl; [|repeat split; auto; discriminate].
  destruct (fault (executed s) (InsertPrice record)); simpl;
    [repeat split; auto; discriminate|].
  destruct (Sql.has_key (price_data s) record); simpl.
  - repeat split; auto. intros n [= <-]. lia.
  - repeat split; auto. intros n [= <-]. lia.
Qed.

(** A property of the table that every insertion of a new key keeps is
    kept by a batch and by the record-by-record loop, and their counts
    are bounded by the number of records. *)
Lemma executemany_from_keeps (P : list PriceRow -> Prop)
    (fault : nat -> statement -> bool) (records : list PriceRow) (s : Store) (k : nat) :
  (forall rows r, P rows -> Sql.has_key rows r = false -> P (rows ++ [r])) ->
  P (price_data s) ->
  let out := Sql.executemany_from fault s records k in
  P (price_data (fst out)) /\ same_but_prices s (fst out) /\
  (forall n, snd out = Ok n -> n <= k + length records).
Proof.
  intros HP. revert s k. induction records as [|x records IH]; intros s k Hs; simpl.
  - repeat split; auto. intros n [= <-]. lia.
  - pose proof (execute_insert_step fault s x) as (Hsame & Hrows & Hn). simpl in *.
    destruct (Sql.execute_insert fault s x) as [s1 [n1|e1]]; simpl in *.
    + assert (Hs1 : P (price_data s1)).
      { destruct Hrows as [->|(Hk & -> & _)]; auto. }
      destruct (IH s1 (k + n1) Hs1) as (H1 & H2 & H3).
      split; [exact H1|]. split; [eapply same_but_prices_trans; eassumption|].
      intros n Hr. specialize (H3 n Hr). specialize (Hn n1 eq_refl). lia.
    + split; [|split; [exact Hsame | discriminate]].
      destruct Hrows as [->|(Hk & -> & _)]; auto.
Qed.

Lemma insert_one_by_one_keeps (P : list PriceRow -> Prop)
    (fault : nat -> statement -> bool) (records : list PriceRow) (s : Store) (k : nat) :
  (forall rows r, P rows -> Sql.has_key rows r = false -> P (rows ++ [r])) ->
  P (price_data s) ->
  let out := insert_one_by_one fault s records k in
  P (price_data (fst out)) /\ same_but_prices s (fst out) /\
  (forall n, snd out = Ok n -> n <= k + length records).
Proof.
  intros HP. revert s k. induction records as [|x records IH]; intros s k Hs; simpl.
  - repeat split; auto. intros n [= <-]. lia.
  - pose proof (execute_insert_step fault s x) as (Hsame & Hrows & Hn). simpl in *.
    destruct (Sql.execute_insert fault s x) as [s1 [n1|e1]]; simpl in *.
    + assert (Hs1 : P (price_data s1)).
      { destruct Hrows as [->|(Hk & -> & _)]; auto. }
      destruct (IH s1 (k + n1) Hs1) as (H1 & H2 & H3).
      split; [exact H1|]. split; [eapply same_but_prices_trans; eassumption|].
      intros n Hr. specialize (H3 n Hr). specialize (Hn n1 eq_refl). lia.
    + assert (Hs1 : P (price_data s1)).
      { destruct Hrows as [->|(Hk & -> & _)]; auto. }
      destruct (is_sqlite_error e1); simpl;
        (split; [exact Hs1|]; split; [exact Hsame|]).
      * intros n [= <-]. lia.
      * discriminate.
Qed.

Lemma save_stats_step (fault : nat -> statement -> bool) (symbol timeframe : string)
    (df : DataFrame) (s : Store) (n : nat) :
  let out := save_stats fault symbol timeframe df s n in
  price_data (fst out) = price_data s /\
  (exists added, download_stats (fst out) = download_stats s ++ added /\
                 length added <= 1) /\
  snd out <= n /\
  (committed_price_data s = price_data s ->
   committed_download_stats s = download_stats s ->
   committed_price_data (fst out) = price_data (fst out) /\
   committed_download_stats (fst out) = download_stats (fst out)) /\
  (~ dated df -> 0 < length df -> 0 < n -> out = (s, 0)).
Proof.
  unfold save_stats.
  destruct ((0 <? length df)%nat && (0 <? n)%nat) eqn:Eg; simpl.
  2:{ repeat split; auto; try (exists []; rewrite app_nil_r; auto).
      intros _ H1%Nat.ltb_lt H2%Nat.ltb_lt. rewrite H1, H2 in Eg. discriminate. }
  destruct (iso_of (head df)) as [d1|e1] eqn:E1.
  2:{ simpl. repeat split; auto; try lia. exists []. rewrite app_nil_r; auto. }
  destruct (iso_of (last df)) as [d2|e2] eqn:E2.
  2:{ simpl. repeat split; auto; try lia. exists []. rewrite app_nil_r; auto. }
  unfold Sql.execute_stat.
  match goal with |- context [fault ?a ?b] => destruct (fault a b) end; simpl.
  - repeat split; auto. + exists []. rewrite app_nil_r; auto.
    + intros Hd. exfalso. apply Hd. now exists d1, d2.
  - repeat split; auto. + eexists [_]. split; [reflexivity | simpl; lia].
    + intros Hd. exfalso. apply Hd. now exists d1, d2.
Qed.

(** The whole of [save_price_data], for a property of the table kept by
    the insertion of a new key. *)
Lemma save_price_data_keeps (P : list PriceRow -> Prop)
    (fault : nat -> statement -> bool) (symbol timeframe : string)
    (df : DataFrame) (s : Store) :
  (forall rows r, P rows -> Sql.has_key rows r = false -> P (rows ++ [r])) ->
  P (price_data s) ->
  let out := save_price_data fault symbol timeframe df s in
  P (price_data (fst out)) /\
  (exists added, download_stats (fst out) = download_stats s ++ added /\
                 length added <= 1) /\
  snd out <= length (fst (prepare symbol timeframe df)) /\
  (committed_price_data (fst out) = committed_price_data s /\
   committed_download_stats (fst out) = committed_download_stats s /\
   snd out = 0 \/
   committed_price_data (fst out) = price_data (fst out) /\
   committed_download_stats (fst out) = download_stats (fst out)).
Proof.
  intros HP Hs. unfold save_price_data.
  destruct (prepare symbol timeframe df) as [data bad]. simpl fst.
  assert (Hnil : exists added : list StatRow,
             download_stats s = download_stats s ++ added /\ length added <= 1)
    by (exists []; rewrite app_nil_r; auto).
  destruct data as [|first rest]; [simpl; repeat split; auto|].
  pose proof (execute_insert_step fault s first) as (Hsame1 & Hrows1 & Hn1).
  simpl in Hsame1, Hrows1, Hn1.
  destruct (Sql.execute_insert fault s first) as [s1 [n1|e1]]; simpl in *.
  2:{ destruct Hsame1 as (-> & -> & ->). repeat split; auto; try lia.
      destruct Hrows1 as [->|(Hk & -> & _)]; auto. }
  assert (Hs1 : P (price_data s1)).
  { destruct Hrows1 as [->|(Hk & -> & _)]; auto. }
  unfold Sql.executemany.
  pose proof (executemany_from_keeps P fault rest s1 0 HP Hs1) as (Hp2 & Hsame2 & Hn2).
  simpl in Hp2, Hsame2, Hn2.
  destruct (Sql.executemany_from fault s1 rest 0) as [s2 [n2|e2]]; simpl in *.
  - pose proof (save_stats_step fault symbol timeframe df (Sql.commit s2) (n2 + 1))
      as (Hq & Hst & Hle & Hcm & _).
    simpl in *.
    destruct (save_stats fault symbol timeframe df (Sql.commit s2) (n2 + 1)) as [s' m].
    simpl in *. rewrite Hq. split; [exact Hp2|].
    destruct Hsame1 as (H1 & _), Hsame2 as (H2 & _). rewrite H2, H1 in Hst.
    split; [exact Hst|]. specialize (Hn2 n2 eq_refl).
    split; [lia|]. right. rewrite <- Hq. auto.
  - assert (Hframe : same_but_prices s s2)
      by (eapply same_but_prices_trans; eassumption).
    destruct (is_sqlite_error e2).
    2:{ simpl. destruct Hframe as (-> & -> & ->). repeat split; auto; lia. }
    pose proof (insert_one_by_one_keeps P fault rest s2 0 HP Hp2) as (Hp3 & Hsame3 & Hn3).
    simpl in Hp3, Hsame3, Hn3.
    assert (Hframe3 : same_but_prices s (fst (insert_one_by_one fault s2 rest 0)))
      by (eapply same_but_prices_trans; eassumption).
    destruct (insert_one_by_one fault s2 rest 0) as [s3 [n3|e3]]; simpl in *.
    2:{ destruct Hframe3 as (-> & -> & ->). repeat split; auto; lia. }
    destruct (0 <? n3)%nat.
    2:{ simpl. destruct Hframe3 as (-> & -> & ->). repeat split; auto; lia. }
    pose proof (save_stats_step fault symbol timeframe df (Sql.commit s3) (n3 + 1))
      as (Hq & Hst & Hle & Hcm & _).
    simpl in *.
    destruct (save_stats fault symbol timeframe df (Sql.commit s3) (n3 + 1)) as [s' m].
    simpl in *. rewrite Hq. split; [exact Hp3|].
    destruct Hframe3 as (H3 & _). rewrite H3 in Hst.
    split; [exact Hst|]. specialize (Hn3 n3 eq_refl).
    split; [lia|]. right. rewrite <- Hq. auto.
Qed.

(** X5: [save_price_data] only ever appends: whatever the backend does,
    the price rows that were in the table are still there, in place and
    unchanged, followed by the new ones, and the statistics table has
    grown by at most one row. *)
Theorem save_price_data_appends (fault : nat -> statement -> bool)
    (symbol timeframe : string) (df : DataFrame) (s : Store) :
  let s' := fst (save_price_data fault symbol timeframe df s) in
  (exists added, price_data s' = price_data s ++ added) /\
  (exists added, download_stats s' = download_stats s ++ added /\ length added <= 1).
Proof.
  pose proof (save_price_data_keeps
                (fun rows => exists added, rows = price_data s ++ added)
                fault symbol timeframe df s) as H.
  simpl in *. destruct H as (H1 & H2 & _).
  - intros rows r [added ->] _. exists (added ++ [r]). now rewrite app_assoc.
  - exists []. now rewrite app_nil_r.
  - auto.
Qed.

Lemma has_key_In (rows : list PriceRow) (r : PriceRow) :
  Sql.has_key rows r = true <-> In (key_of r) (map key_of rows).
Proof.
  unfold Sql.has_key. rewrite existsb_exists, in_map_iff. split.
  - intros (x & Hin & Hk). exists x. split; [|exact Hin].
    unfold Sql.same_key in Hk. apply andb_prop in Hk as [Hk H3].
    apply andb_prop in Hk as [H1 H2].
    apply String.eqb_eq in H1, H2. apply Z.eqb_eq in H3.
    unfold key_of. congruence.
  - intros (x & Hk & Hin). exists x. split; [exact Hin|].
    unfold key_of in Hk. injection Hk as H1 H2 H3.
    unfold Sql.same_key. rewrite H1, H2, H3.
    now rewrite !String.eqb_refl, Z.eqb_refl.
Qed.

(** X6: the unique index is never violated: if no two price rows have
    the same (symbol, timeframe, time) before the call, none have after
    it, on the connection and in the committed table, whatever the frame
    holds (duplicates included) and whatever the backend does. *)
Theorem save_price_data_unique_keys (fault : nat -> statement -> bool)
    (symbol timeframe : string) (df : DataFrame) (s : Store) :
  unique_keys (price_data s) -> unique_keys (committed_price_data s) ->
  let s' := fst (save_price_data fault symbol timeframe df s) in
  unique_keys (price_data s') /\ unique_keys (committed_price_data s').
Proof.
  intros Hs Hc.
  pose proof (save_price_data_keeps unique_keys fault symbol timeframe df s) as H.
  simpl in *. destruct H as (H1 & _ & _ & H4); [|exact Hs|].
  - intros rows r Hrows Hk. unfold unique_keys in *. rewrite map_app. simpl.
    apply NoDup_app. split; [exact Hrows|]. split; [|apply NoDup_singleton].
    intros k Hin Hin'. apply list_elem_of_In in Hin.
    apply list_elem_of_singleton in Hin'. subst k.
    apply has_key_In in Hin. congruence.
  - split; [exact H1|]. destruct H4 as [(-> & _)|[-> _]]; assumption.
Qed.

Lemma save_price_data_unique_keys_witness :
  unique_keys
    (price_data (fst (save_price_data no_fault "EURUSD" "H1"
                        (eurusd_h1 ++ eurusd_h1) empty_store))).
Proof.
  apply (save_price_data_unique_keys no_fault "EURUSD" "H1" (eurusd_h1 ++ eurusd_h1)
           empty_store); apply NoDup_nil_2.
Defined.

Lemma save_price_data_le (fault : nat -> statement -> bool)
    (symbol timeframe : string) (df : DataFrame) (s : Store) :
  snd (save_price_data fault symbol timeframe df s) <= length df.
Proof.
  pose proof (save_price_data_keeps (fun _ => True) fault symbol timeframe df s) as H.
  simpl in *. destruct H as (_ & _ & H3 & _); auto.
  pose proof (prepare_length symbol timeframe df) as Hlen. lia.
Qed.

(** X7: the returned count never exceeds the number of prepared records,
    hence the number of rows of the frame; and a positive count means
    that the call has committed: the committed tables are then the tables
    seen on the connection.  Conversely a call that commits nothing
    returns 0. *)
Theorem save_price_data_count (fault : nat -> statement -> bool)
    (symbol timeframe : string) (df : DataFrame) (s : Store) :
  let out := save_price_data fault symbol timeframe df s in
  snd out <= length (fst (prepare symbol timeframe df)) /\
  snd out <= length df /\
  (0 < snd out ->
   committed_price_data (fst out) = price_data (fst out) /\
   committed_download_stats (fst out) = download_stats (fst out)) /\
  (committed_price_data (fst out) <> price_data (fst out) -> snd out = 0).
Proof.
  pose proof (save_price_data_keeps (fun _ => True) fault symbol timeframe df s) as H.
  simpl in *. destruct H as (_ & _ & H3 & H4); auto.
  pose proof (prepare_length symbol timeframe df) as Hlen.
  split; [exact H3|]. split; [lia|]. split.
  - intros Hpos. destruct H4 as [(_ & _ & H0)|H4]; [lia | exact H4].
  - intros Hne. destruct H4 as [(_ & _ & H0)|[H4 _]]; [exact H0 | congruence].
Qed.

Lemma save_price_data_count_witness :
  committed_price_data
    (fst (save_price_data no_fault "EURUSD" "H1" eurusd_h1 empty_store))
  = price_data (fst (save_price_data no_fault "EURUSD" "H1" eurusd_h1 empty_store)).
Proof.
  apply (proj1 (proj2 (proj2 (save_price_data_count no_fault "EURUSD" "H1" eurusd_h1
                                empty_store)))).
  vm_compute. lia.
Defined.

(** X8: on a backend that accepts the prepared records, and for a dated
    frame whose first prepared record is not in the table yet, the
    returned count is exactly the number of rows the call has added. *)
Theorem save_price_data_exact_count (fault : nat -> statement -> bool)
    (symbol timeframe : string) (df : DataFrame) (s : Store)
    (first : PriceRow) (rest : list PriceRow) :
  fst (prepare symbol timeframe df) = first :: rest ->
  Forall (healthy fault) (first :: rest) -> dated df ->
  Sql.has_key (price_data s) first = false ->
  let out := save_price_data fault symbol timeframe df s in
  price_data (fst out) = insert_all (price_data s) (first :: rest) /\
  snd out = length (price_data (fst out)) - length (price_data s).
Proof.
  intros Hdata Hh Hd Hnew.
  destruct (save_price_data_healthy fault symbol timeframe df s first rest Hdata Hh Hd)
    as (s' & E & Hp & _).
  simpl. rewrite E. simpl. split; [exact Hp|].
  assert (Hi : insert_ignore (price_data s) first = price_data s ++ [first])
    by (unfold insert_ignore; now rewrite Hnew).
  assert (H : length (price_data s ++ [first]) <= length (price_data s')).
  { rewrite Hp. change (insert_all (price_data s) (first :: rest))
      with (insert_all (insert_ignore (price_data s) first) rest).
    rewrite Hi. apply insert_all_length. }
  rewrite Hi. rewrite length_app in *. simpl in *. lia.
Qed.

Lemma save_price_data_exact_count_witness :
  snd (save_price_data no_fault "EURUSD" "H1" eurusd_h1 empty_store)
  = length (price_data (fst (save_price_data no_fault "EURUSD" "H1" eurusd_h1
                               empty_store))) - 0.
Proof.
  refine (proj2 (save_price_data_exact_count no_fault "EURUSD" "H1" eurusd_h1
                   empty_store _ _ prepare_eurusd_h1 _ dated_eurusd_h1 eq_refl)).
  repeat constructor; apply healthy_no_fault; reflexivity.
Defined.

(** X9: a frame whose [time] column does not hold timestamps (for
    instance the raw epochs of the terminal) is written and committed
    like any other, but the call then fails on [isoformat] while it
    builds the statistics row: no statistics row is written and the call
    returns 0 although the rows are stored. *)
Theorem save_price_data_undated (fault : nat -> statement -> bool)
    (symbol timeframe : string) (df : DataFrame) (s : Store)
    (first : PriceRow) (rest : list PriceRow) :
  fst (prepare symbol timeframe df) = first :: rest ->
  Forall (healthy fault) (first :: rest) -> ~ dated df ->
  let out := save_price_data fault symbol timeframe df s in
  snd out = 0 /\
  price_data (fst out) = insert_all (price_data s) (first :: rest) /\
  committed_price_data (fst out) = price_data (fst out) /\
  download_stats (fst out) = download_stats s.
Proof.
  intros Hdata Hh Hd.
  assert (Hlen : 0 < length df).
  { pose proof (prepare_length symbol timeframe df) as H.
    rewrite Hdata in H. simpl in H. lia. }
  unfold save_price_data.
  destruct (prepare symbol timeframe df) as [data bad]. simpl in Hdata. subst data.
  inversion Hh as [|? ? Hfirst Hrest]; subst.
  destruct (execute_insert_healthy fault s first Hfirst) as (s1 & -> & Hp1 & Hs1).
  unfold Sql.executemany.
  destruct (executemany_from_healthy fault rest s1 0 Hrest) as (s2 & -> & Hp2 & Hs2).
  pose proof (save_stats_step fault symbol timeframe df (Sql.commit s2)
                (0 + (length (price_data s2) - length (price_data s1)) + 1))
    as (_ & _ & _ & _ & H).
  cbv zeta in H. rewrite H by (auto; lia). simpl.
  destruct Hs1 as (H1 & _), Hs2 as (H2 & _).
  repeat split; [now rewrite Hp2, Hp1 | congruence].
Qed.

Lemma save_price_data_undated_witness :
  ~ dated eurusd_h1_rates /\
  snd (save_price_data no_fault "EURUSD" "H1" eurusd_h1_rates empty_store) = 0 /\
  length (committed_price_data
            (fst (save_price_data no_fault "EURUSD" "H1" eurusd_h1_rates
                    empty_store))) = 3.
Proof.
  assert (Hd : ~ dated eurusd_h1_rates).
  { intros (d1 & d2 & H & _). vm_compute in H. discriminate H. }
  assert (Hp : fst (prepare "EURUSD" "H1" eurusd_h1_rates)
               = eurusd_record 1700000000
                 :: [eurusd_record 1700003600; eurusd_record 1700007200])
    by (vm_compute; reflexivity).
  assert (Hh : Forall (healthy no_fault)
                 (eurusd_record 1700000000
                  :: [eurusd_record 1700003600; eurusd_record 1700007200]))
    by (repeat constructor; apply healthy_no_fault; reflexivity).
  pose proof (save_price_data_undated no_fault "EURUSD" "H1" eurusd_h1_rates
                empty_store _ _ Hp Hh Hd) as (H0 & H1 & H2 & _).
  split; [exact Hd|]. split; [exact H0|]. rewrite H2, H1. reflexivity.
Defined.

(** X10: when no row of the frame is valid, and in particular when the
    frame is empty, the call returns 0 without running any statement: the
    connection is left exactly as it was. *)
Theorem save_price_data_nothing_valid (fault : nat -> statement -> bool)
    (symbol timeframe : string) (df : DataFrame) (s : Store) :
  (forall row, In row df -> is_rejected (process_row symbol timeframe row)) ->
  save_price_data fault symbol timeframe df s = (s, 0) /\
  snd (prepare symbol timeframe df) = length df.
Proof.
  intros H.
  assert (E : fst (prepare symbol timeframe df) = []).
  { rewrite prepare_omap. induction df as [|row df IH]; [reflexivity|]. simpl.
    unfold accepted_of at 1.
    destruct (H row (or_introl eq_refl)) as [reason ->].
    apply IH. intros r Hr. apply H. now right. }
  pose proof (prepare_length symbol timeframe df) as Hlen.
  rewrite E in Hlen. simpl in Hlen. split; [|exact Hlen].
  unfold save_price_data. destruct (prepare symbol timeframe df) as [data bad].
  simpl in E. now subst data.
Qed.

Lemma save_price_data_nothing_valid_witness :
  save_price_data no_fault "EURUSD" "H1" [bar_close_negative] empty_store
  = (empty_store, 0).
Proof.
  apply (save_price_data_nothing_valid no_fault "EURUSD" "H1" [bar_close_negative]
           empty_store).
  intros row [<-|[]]. eexists. vm_compute. reflexivity.
Defined.

(** ** A transient failure of the batch *)

Lemma quiet_cons (fault : nat -> statement -> bool) (n : nat) (r : PriceRow)
    (records : list PriceRow) :
  quiet fault n (r :: records) ->
  Sql.binds r = true /\ fault n (InsertPrice r) = false /\ quiet fault (S n) records.
Proof.
  intros H. destruct (H 0 r eq_refl) as [Hb Hf]. rewrite Nat.add_0_r in Hf.
  repeat split; auto; destruct (H (S j) r0 H0) as [? Hf'];
    [assumption | now rewrite Nat.add_succ_r in Hf'].
Qed.

Lemma execute_insert_quiet (fault : nat -> statement -> bool) (s : Store) (r : PriceRow) :
  Sql.binds r = true -> fault (executed s) (InsertPrice r) = false ->
  exists s',
    Sql.execute_insert fault s r = (s', Ok (length (price_data s') - length (price_data s))) /\
    price_data s' = insert_ignore (price_data s) r /\
    same_but_prices s s' /\ executed s' = S (executed s).
Proof.
  intros Hb Hf. unfold Sql.execute_insert, insert_ignore. rewrite Hb, Hf. simpl.
  destruct (Sql.has_key (price_data s) r).
  - exists (Sql.tick s). simpl. rewrite Nat.sub_diag. repeat split.
  - exists (Sql.tick (Sql.add_price r s)). simpl. rewrite length_app. simpl.
    replace (length (price_data s) + 1 - length (price_data s)) with 1 by lia.
    repeat split.
Qed.

Lemma executemany_from_quiet (fault : nat -> statement -> bool)
    (records : list PriceRow) (s : Store) (k : nat) :
  quiet fault (executed s) records ->
  exists s',
    Sql.executemany_from fault s records k =
      (s', Ok (k + (length (price_data s') - length (price_data s)))) /\
    price_data s' = insert_all (price_data s) records /\
    same_but_prices s s' /\ executed s' = executed s + length records.
Proof.
  revert s k. induction records as [|x records IH]; intros s k H; simpl.
  - exists s. rewrite Nat.sub_diag, !Nat.add_0_r. repeat split.
  - apply quiet_cons in H as (Hb & Hf & Hq).
    destruct (execute_insert_quiet fault s x Hb Hf) as (s1 & -> & Hp1 & Hs1 & He1).
    rewrite <- He1 in Hq.
    destruct (IH s1 (k + (length (price_data s1) - length (price_data s))) Hq)
      as (s' & -> & Hp & Hs & He).
    exists s'. split; [|split; [|split]].
    + do 2 f_equal.
      assert (length (price_data s) <= length (price_data s1))
        by (rewrite Hp1; apply (insert_all_length [x])).
      assert (length (price_data s1) <= length (price_data s'))
        by (rewrite Hp; apply insert_all_length).
      lia.
    + now rewrite Hp, Hp1.
    + eapply same_but_prices_trans; eassumption.
    + lia.
Qed.

Lemma insert_one_by_one_quiet (fault : nat -> statement -> bool)
    (records : list PriceRow) (s : Store) (k : nat) :
  quiet fault (executed s) records ->
  exists s',
    insert_one_by_one fault s records k =
      (s', Ok (k + (length (price_data s') - length (price_data s)))) /\
    price_data s' = insert_all (price_data s) records /\
    same_but_prices s s'.
Proof.
  revert s k. induction records as [|x records IH]; intros s k H; simpl.
  - exists s. rewrite Nat.sub_diag, !Nat.add_0_r. repeat split.
  - apply quiet_cons in H as (Hb & Hf & Hq).
    destruct (execute_insert_quiet fault s x Hb Hf) as (s1 & -> & Hp1 & Hs1 & He1).
    rewrite <- He1 in Hq.
    destruct (IH s1 (k + (length (price_data s1) - length (price_data s))) Hq)
      as (s' & -> & Hp & Hs).
    exists s'. split; [|split].
    + do 2 f_equal.
      assert (length (price_data s) <= length (price_data s1))
        by (rewrite Hp1; apply (insert_all_length [x])).
      assert (length (price_data s1) <= length (price_data s'))
        by (rewrite Hp; apply insert_all_length).
      lia.
    + now rewrite Hp, Hp1.
    + eapply same_but_prices_trans; eassumption.
Qed.

Lemma executemany_from_trips (fault : nat -> statement -> bool)
    (pre post : list PriceRow) (x : PriceRow) (s : Store) (k : nat) :
  quiet fault (executed s) pre -> Sql.binds x = true ->
  fault (executed s + length pre) (InsertPrice x) = true ->
  exists s',
    Sql.executemany_from fault s (pre ++ x :: post) k = (s', Raise SqliteError) /\
    price_data s' = insert_all (price_data s) pre /\
    same_but_prices s s' /\ executed s' = S (executed s + length pre).
Proof.
  revert s k. induction pre as [|y pre IH]; intros s k H Hb Hf; simpl.
  - rewrite Nat.add_0_r in Hf. unfold Sql.execute_insert. rewrite Hb, Hf. simpl.
    eexists. split; [reflexivity|]. simpl. rewrite Nat.add_0_r. repeat split.
  - apply quiet_cons in H as (Hby & Hfy & Hq).
    destruct (execute_insert_quiet fault s y Hby Hfy) as (s1 & -> & Hp1 & Hs1 & He1).
    rewrite <- He1 in Hq.
    destruct (IH s1 (k + (length (price_data s1) - length (price_data s))) Hq Hb)
      as (s' & -> & Hp & Hs & He).
    { rewrite He1. simpl in Hf. now rewrite Nat.add_succ_r in Hf. }
    exists s'. split; [reflexivity|]. split; [now rewrite Hp, Hp1|].
    split; [eapply same_but_prices_trans; eassumption|].
    rewrite He, He1. simpl. lia.
Qed.

(** X11: when the batch fails once, on a failure that does not come back,
    the record-by-record pass inserts everything that is missing: after
    the call the table holds all the prepared records.  But the count
    leaves out the rows that the failed batch had already inserted: it is
    the number of new rows from the failing record on, plus one, and when
    there is no such new row the call returns 0 and commits nothing. *)
Theorem save_price_data_transient (fault : nat -> statement -> bool)
    (symbol timeframe : string) (df : DataFrame) (s : Store)
    (first x : PriceRow) (pre post : list PriceRow) :
  fst (prepare symbol timeframe df) = first :: pre ++ x :: post ->
  Forall (fun r => Sql.binds r = true) (first :: pre ++ x :: post) ->
  (forall n r, fault n (InsertPrice r) = true <-> n = executed s + 1 + length pre) ->
  dated df ->
  let rows1 := insert_all (price_data s) (first :: pre) in
  let rows2 := insert_all rows1 (x :: post) in
  let out := save_price_data fault symbol timeframe df s in
  price_data (fst out) = rows2 /\
  (length rows1 < length rows2 ->
   snd out = length rows2 - length rows1 + 1 /\
   committed_price_data (fst out) = rows2) /\
  (length rows2 = length rows1 ->
   snd out = 0 /\ committed_price_data (fst out) = committed_price_data s).
Proof.
  intros Hdata Hb Hf Hd. cbv zeta.
  remember (insert_all (price_data s) (first :: pre)) as rows1 eqn:E1.
  remember (insert_all rows1 (x :: post)) as rows2 eqn:E2.
  assert (Hq : forall n records,
             Forall (fun r => Sql.binds r = true) records ->
             (executed s + 1 + length pre < n \/
              n + length records <= executed s + 1 + length pre) ->
             quiet fault n records).
  { intros n records Hall Hn j r Hj. split.
    - exact (proj1 (List.Forall_forall _ _) Hall r
               (proj1 (list_elem_of_In _ _) (list_elem_of_lookup_2 _ _ _ Hj))).
    - destruct (fault (n + j) (InsertPrice r)) eqn:E; [|reflexivity].
      apply Hf in E. apply lookup_lt_Some in Hj. lia. }
  pose proof (Forall_inv Hb) as Hb1. pose proof (Forall_inv_tail Hb) as Hbrest.
  simpl in Hb1.
  assert (Hbpre : Forall (fun r => Sql.binds r = true) pre)
    by (apply Forall_app in Hbrest; tauto).
  assert (Hbx : Sql.binds x = true).
  { apply Forall_app in Hbrest as [_ H]. exact (Forall_inv H). }
  unfold save_price_data.
  destruct (prepare symbol timeframe df) as [data bad]. simpl in Hdata. subst data.
  destruct (execute_insert_quiet fault s first Hb1) as (s1 & -> & Hp1 & Hs1 & He1).
  { destruct (fault (executed s) (InsertPrice first)) eqn:E; [|reflexivity].
    apply Hf in E. lia. }
  unfold Sql.executemany.
  destruct (executemany_from_trips fault pre post x s1 0) as (s2 & -> & Hp2 & Hs2 & He2).
  { apply Hq; [exact Hbpre | lia]. }
  { exact Hbx. }
  { apply Hf. lia. }
  simpl.
  destruct (insert_one_by_one_quiet fault (pre ++ x :: post) s2 0)
    as (s3 & -> & Hp3 & Hs3).
  { apply Hq; [exact Hbrest | lia]. }
  assert (Hrows1 : price_data s2 = rows1)
    by (subst rows1; now rewrite Hp2, Hp1).
  assert (Hrows2 : price_data s3 = rows2).
  { subst rows2. rewrite Hp3, insert_all_app, <- Hrows1. f_equal.
    apply insert_all_present, List.Forall_forall. intros r Hin.
    rewrite Hp2. now apply has_key_insert_all. }
  clear E1 E2. subst rows1 rows2. simpl Nat.add.
  destruct (0 <? length (price_data s3) - length (price_data s2))%nat eqn:Epos.
  - apply Nat.ltb_lt in Epos.
    pose proof (save_stats_spec fault symbol timeframe df (Sql.commit s3)
                  (length (price_data s3) - length (price_data s2) + 1)) as H.
    pose proof (save_stats_step fault symbol timeframe df (Sql.commit s3)
                  (length (price_data s3) - length (price_data s2) + 1)) as H'.
    cbv zeta in H, H'.
    destruct (save_stats fault symbol timeframe df (Sql.commit s3) _) as [s' m].
    simpl in H, H'. destruct H as (Hp & _ & _ & _ & Hm).
    destruct H' as (_ & _ & _ & Hc & _). simpl.
    split; [exact Hp|]. split.
    + intros _. split; [exact (Hm Hd)|]. rewrite <- Hp. now apply Hc.
    + intros E. lia.
  - apply Nat.ltb_ge in Epos. simpl. split; [reflexivity|]. split.
    + intros E. lia.
    + intros _. split; [reflexivity|].
      destruct Hs1 as (_ & H1 & _), Hs2 as (_ & H2 & _), Hs3 as (_ & H3 & _).
      congruence.
Qed.

(** The statement that inserts the third of three bars fails once: the
    three bars are stored, and the call returns 2. *)
Lemma save_price_data_transient_witness :
  snd (save_price_data (fault_once 2) "EURUSD" "H1" eurusd_h1 empty_store) = 2 /\
  length (price_data
            (fst (save_price_data (fault_once 2) "EURUSD" "H1" eurusd_h1
                    empty_store))) = 3.
Proof.
  pose proof (save_price_data_transient (fault_once 2) "EURUSD" "H1" eurusd_h1
                empty_store (eurusd_record 1700000000) (eurusd_record 1700007200)
                [eurusd_record 1700003600] [] prepare_eurusd_h1) as H.
  destruct H as (Hrows & Hpos & _).
  - repeat constructor.
  - intros n r. unfold fault_once. simpl. apply Nat.eqb_eq.
  - exact dated_eurusd_h1.
  - split.
    + apply Hpos. simpl. lia.
    + rewrite Hrows. reflexivity.
Defined.

(** ** The result of the per-symbol task *)

Lemma save_price_data_on_count (fault : nat -> statement -> bool)
    (symbol timeframe : string) (df : DataFrame) (b : Builder) :
  snd (save_price_data_on fault symbol timeframe df b) <= length df.
Proof.
  unfold save_price_data_on. destruct (connection b) as [s|]; simpl; [|lia].
  pose proof (save_price_data_le fault symbol timeframe df s) as H.
  now destruct (save_price_data fault symbol timeframe df s).
Qed.

(** One fetch: its entry and its effect on the totals. *)
Lemma fetch_timeframe_entry (fault : nat -> statement -> bool) (mt5 : Terminal)
    (symbol : string) (max_bars : Z) (tf_name : string) (tf_value : Timeframe)
    (b : Builder) (results : SymbolResult) :
  let out := fetch_timeframe fault mt5 symbol max_bars tf_name tf_value b results in
  errors (stats (fst out)) = errors (stats b) /\
  match snd out with
  | Ok results' =>
    exists entry,
      res_timeframes results' = <[tf_name := entry]> (res_timeframes results) /\
      entry_consistent entry /\
      res_total_bars results' = res_total_bars results + bars_saved entry /\
      total_bars_downloaded (stats (fst out))
        = total_bars_downloaded (stats b) + bars_saved entry
  | Raise e =>
    total_bars_downloaded (stats (fst out)) = total_bars_downloaded (stats b)
  end.
Proof.
  assert (Hfail : forall e, entry_consistent (failed_timeframe e)).
  { intros e. unfold entry_consistent. simpl. repeat split; eauto; try lia;
      try discriminate. }
  unfold fetch_timeframe. cbv zeta.
  destruct (copy_rates_from_pos mt5 symbol tf_value 0%Z max_bars)
    as [[[|row more]|]|e] eqn:Ecr.
  1,3: simpl; split; [reflexivity|]; eexists; split; [reflexivity|];
       split; [apply Hfail|]; simpl; split; lia.
  2: simpl; split; reflexivity.
  set (df := if Pandas.has_column (row :: more) "time"
             then Pandas.dropna_time (Pandas.convert_time (row :: more))
             else row :: more).
  destruct (length df =? 0)%nat eqn:Elen.
  { simpl. split; [reflexivity|]. eexists; split; [reflexivity|].
    split; [apply Hfail|]. simpl. split; lia. }
  pose proof (save_price_data_on_frame fault symbol tf_name df
                (Upd.log (CallCopyRates symbol tf_value 0%Z max_bars) b)) as H.
  pose proof (save_price_data_on_count fault symbol tf_name df
                (Upd.log (CallCopyRates symbol tf_value 0%Z max_bars) b)) as Hcount.
  simpl in H.
  destruct (save_price_data_on fault symbol tf_name df
              (Upd.log (CallCopyRates symbol tf_value 0%Z max_bars) b)) as [b' saved].
  simpl in H, Hcount. destruct H as (_ & Hst & _).
  destruct (iso_of (head df)) as [d1|e1]; [|simpl; now rewrite Hst].
  destruct (iso_of (last df)) as [d2|e2]; [|simpl; now rewrite Hst].
  simpl. rewrite Hst. split; [reflexivity|].
  eexists. split; [reflexivity|]. simpl. split; [|split; reflexivity].
  unfold entry_consistent. simpl. apply Nat.eqb_neq in Elen.
  repeat split; eauto; try lia; apply Nat.ltb_lt.
Qed.

Lemma download_timeframes_result (fault : nat -> statement -> bool) (mt5 : Terminal)
    (symbol : string) (max_bars : Z) (tfs : list string)
    (b : Builder) (results r : SymbolResult) :
  map_Forall (fun _ => entry_consistent) (res_timeframes results) ->
  snd (download_timeframes fault mt5 symbol max_bars tfs b results) = Ok r ->
  map_Forall (fun _ => entry_consistent) (res_timeframes r) /\
  total_bars_downloaded
    (stats (fst (download_timeframes fault mt5 symbol max_bars tfs b results)))
    + res_total_bars results
  = total_bars_downloaded (stats b) + res_total_bars r.
Proof.
  revert b results. induction tfs as [|x tfs IH]; intros b results Hall; simpl.
  - intros [= <-]. split; [exact Hall | reflexivity].
  - destruct (timeframes !! x) as [tf_value|]; [|now apply IH].
    pose proof (fetch_timeframe_entry fault mt5 symbol max_bars x tf_value b results)
      as [_ H].
    simpl in H.
    destruct (fetch_timeframe fault mt5 symbol max_bars x tf_value b results)
      as [b1 [results1|e]]; simpl in H.
    + destruct H as (entry & Heq & Hok & Hr & Hs). intros Hr'.
      destruct (IH b1 results1) as [H1 H2]; [|exact Hr'|].
      * rewrite Heq. now apply map_Forall_insert_2.
      * split; [exact H1|]. lia.
    + destruct (is_Exception e); [|discriminate]. intros Hr'.
      match type of Hr' with snd (download_timeframes _ _ _ _ _ ?b2 ?r2) = _ =>
        destruct (IH b2 r2) as [H1 H2]; [|exact Hr'|] end.
      * simpl. apply map_Forall_insert_2; [|exact Hall].
        unfold entry_consistent. simpl. repeat split; eauto; try lia; discriminate.
      * split; [exact H1|]. simpl in H2. lia.
Qed.

(** X12: whenever the task returns a result, the total of the result is
    exactly what the task has added to the run-wide count of downloaded
    bars, and every entry of the result is consistent: it saved no more
    bars than it fetched, it is marked successful exactly when it saved at
    least one bar, a successful entry carries its two dates and no error,
    and an entry with no bars carries its error. *)
Theorem download_symbol_data_result (fault : nat -> statement -> bool)
    (mt5 : Terminal) (symbol : string) (tfs : list string) (max_bars : Z)
    (b : Builder) (r : SymbolResult) :
  let out := download_symbol_data fault mt5 symbol tfs max_bars b in
  snd out = Ok r ->
  total_bars_downloaded (stats (fst out))
    = total_bars_downloaded (stats b) + res_total_bars r /\
  map_Forall (fun _ => entry_consistent) (res_timeframes r) /\
  res_symbol r = symbol.
Proof.
  simpl. unfold download_symbol_data.
  destruct (symbol_select mt5 symbol) as [[|]|e].
  - intros Hr.
    pose proof (download_timeframes_result fault mt5 symbol max_bars tfs _ _ r
                  (map_Forall_empty _) Hr) as [H1 H2].
    simpl in H2. split; [lia|]. split; [exact H1|].
    clear H1 H2. revert Hr. generalize (Upd.log (CallSymbolSelect symbol) b).
    assert (Hsym : forall tfs b0 results,
              res_symbol results = symbol ->
              snd (download_timeframes fault mt5 symbol max_bars tfs b0 results) = Ok r ->
              res_symbol r = symbol).
    { clear. induction tfs as [|x tfs IH]; intros b0 results Hs; simpl.
      - now intros [= <-].
      - destruct (timeframes !! x) as [tf_value|]; [|now apply IH].
        pose proof (fetch_timeframe_shape fault mt5 symbol max_bars x tf_value b0 results)
          as H.
        simpl in H.
        destruct (fetch_timeframe fault mt5 symbol max_bars x tf_value b0 results)
          as [b1 [results1|e]]; simpl in H.
        + apply IH. destruct H as (_ & _ & _ & _ & _ & _ & H & _). congruence.
        + destruct (is_Exception e); [|discriminate]. now apply IH. }
    intros b0. now apply Hsym.
  - simpl. intros [= <-]. simpl. split; [lia|]. split; [apply map_Forall_empty|reflexivity].
  - destruct (is_Exception e); simpl; [|discriminate].
    intros [= <-]. simpl. split; [lia|]. split; [apply map_Forall_empty|reflexivity].
Qed.

Lemma download_symbol_data_result_witness :
  total_bars_downloaded
    (stats (fst (download_symbol_data no_fault scenario_terminal "EURUSD"
                   ["M1"; "H1"] 50000 ready_builder))) = 0 + 3.
Proof.
  refine (proj1 (download_symbol_data_result no_fault scenario_terminal "EURUSD"
                   ["M1"; "H1"] 50000 ready_builder
                   {| res_symbol := "EURUSD"; res_timeframes := _;
                      res_total_bars := 3; res_success := true; res_error := None |}
                   _)).
  vm_compute. reflexivity.
Defined.

Lemma download_timeframes_fetches (fault : nat -> statement -> bool) (mt5 : Terminal)
    (symbol : string) (max_bars : Z) (tfs : list string)
    (b : Builder) (results : SymbolResult) :
  raises_exceptions_only mt5 ->
  exists b' r,
    download_timeframes fault mt5 symbol max_bars tfs b results = (b', Ok r) /\
    calls b' = calls b
               ++ map (fun v => CallCopyRates symbol v 0%Z max_bars) (tag_values tfs) /\
    (forall tf, is_Some (res_timeframes results !! tf) \/
                (In tf tfs /\ is_Some (timeframes !! tf)) ->
                is_Some (res_timeframes r !! tf)).
Proof.
  intros [_ Hcopy]. revert b results.
  induction tfs as [|x tfs IH]; intros b results; simpl.
  - exists b, results. split; [reflexivity|]. rewrite app_nil_r.
    split; [reflexivity|]. intros tf [H|[[] _]]. exact H.
  - unfold tag_values. simpl. fold (tag_values tfs).
    destruct (timeframes !! x) as [tf_value|] eqn:Ex.
    2:{ destruct (IH b results) as (b' & r & -> & Hc & Hk).
        exists b', r. split; [reflexivity|]. split; [exact Hc|].
        intros tf [H|[[<-|H] Hs]]; [auto | | auto].
        rewrite Ex in Hs. now destruct Hs. }
    pose proof (fetch_timeframe_shape fault mt5 symbol max_bars x tf_value b results) as H.
    simpl in H.
    destruct (fetch_timeframe fault mt5 symbol max_bars x tf_value b results)
      as [b1 [results1|e]]; simpl in H.
    + destruct H as (Hc & _ & _ & _ & _ & _ & _ & entry & Heq & _).
      destruct (IH b1 results1) as (b' & r & -> & Hc' & Hk).
      exists b', r. split; [reflexivity|].
      split; [rewrite Hc', Hc, <- app_assoc; reflexivity|].
      intros tf Htf. apply Hk. rewrite Heq.
      destruct (decide (x = tf)) as [->|Hne].
      * left. rewrite lookup_insert_eq. eauto.
      * rewrite lookup_insert_ne by exact Hne.
        destruct Htf as [H|[[H|H] Hs]]; [auto | congruence | auto].
    + destruct H as (Hc & _ & _ & _ & _ & He).
      assert (Hexc : is_Exception e = true) by (destruct He; eauto).
      rewrite Hexc.
      match goal with |- context [download_timeframes _ _ _ _ tfs ?b2 ?r2] =>
        destruct (IH b2 r2) as (b' & r & -> & Hc' & Hk) end.
      exists b', r. split; [reflexivity|].
      split; [rewrite Hc'; simpl; rewrite Hc, <- app_assoc; reflexivity|].
      intros tf Htf. apply Hk. simpl.
      destruct (decide (x = tf)) as [->|Hne].
      * left. rewrite lookup_insert_eq. eauto.
      * rewrite lookup_insert_ne by exact Hne.
        destruct Htf as [H|[[H|H] Hs]]; [auto | congruence | auto].
Qed.

(** X13: for a symbol that can be selected, on a terminal that raises
    only [Exception]s, the task always returns a successful result; it
    calls the terminal once to select the symbol and then once per
    supported tag of the list, in the order of the list, each time from
    position 0 and for [max_bars] bars; and the result has an entry under
    every supported tag of the list, whatever happened to the fetch. *)
Theorem download_symbol_data_fetches (fault : nat -> statement -> bool)
    (mt5 : Terminal) (symbol : string) (tfs : list string) (max_bars : Z)
    (b : Builder) :
  raises_exceptions_only mt5 -> symbol_select mt5 symbol = Ok true ->
  exists b' r,
    download_symbol_data fault mt5 symbol tfs max_bars b = (b', Ok r) /\
    res_success r = true /\
    calls b' = calls b
               ++ CallSymbolSelect symbol
                  :: map (fun v => CallCopyRates symbol v 0%Z max_bars) (tag_values tfs) /\
    (forall tf, In tf tfs -> In tf supported_tags ->
                is_Some (res_timeframes r !! tf)).
Proof.
  intros Hmt5 Hsel. unfold download_symbol_data. rewrite Hsel.
  destruct (download_timeframes_fetches fault mt5 symbol max_bars tfs
              (Upd.log (CallSymbolSelect symbol) b)
              {| res_symbol := symbol; res_timeframes := ∅; res_total_bars := 0;
                 res_success := true; res_error := None |} Hmt5)
    as (b' & r & E & Hc & Hk).
  destruct (download_timeframes_spec fault mt5 symbol max_bars tfs
              (Upd.log (CallSymbolSelect symbol) b)
              {| res_symbol := symbol; res_timeframes := ∅; res_total_bars := 0;
                 res_success := true; res_error := None |} Hmt5)
    as (b'' & r' & E' & Hs & _).
  rewrite E in E'. injection E' as <- <-.
  exists b', r. split; [exact E|]. split; [exact Hs|]. split.
  - rewrite Hc. simpl. now rewrite <- app_assoc.
  - intros tf Hin Hsup. apply Hk. right. split; [exact Hin|].
    now apply timeframes_supported.
Qed.

Lemma scenario_terminal_raises_exceptions_only : raises_exceptions_only scenario_terminal.
Proof.
  split; [discriminate|]. intros symbol tf start count e. simpl.
  destruct tf; try discriminate. destruct (String.eqb symbol "EURUSD"); discriminate.
Defined.

Lemma download_symbol_data_fetches_witness :
  exists b' r,
    download_symbol_data no_fault scenario_terminal "EURUSD" ["H1"; "X9"; "M1"]
      50000 ready_builder = (b', Ok r) /\
    calls b' = [CallSymbolSelect "EURUSD";
                CallCopyRates "EURUSD" TIMEFRAME_H1 0 50000;
                CallCopyRates "EURUSD" TIMEFRAME_M1 0 50000].
Proof.
  destruct (download_symbol_data_fetches no_fault scenario_terminal "EURUSD"
              ["H1"; "X9"; "M1"] 50000 ready_builder
              scenario_terminal_raises_exceptions_only eq_refl)
    as (b' & r & E & _ & Hc & _).
  exists b', r. split; [exact E | exact Hc].
Defined.

(** ** The coordinating loop, in general *)

(** X14: for any list of symbols and any completion order of their
    tasks, without interrupt and on a terminal that raises only
    [Exception]s, the loop ends normally, counts every task as
    processed, and sorts every symbol into exactly one of the two lists:
    the symbols that could be selected into the completed ones, the
    others into the failed ones, each list in completion order; so the
    two lists together are a rearrangement of the submitted symbols. *)
Theorem run_pool_partition (fault : nat -> statement -> bool) (mt5 : Terminal)
    (tfs : list string) (max_bars : Z) (symbols order : list string) (b : Builder) :
  raises_exceptions_only mt5 -> Permutation order symbols ->
  let out := run_pool
               (fun symbol => download_symbol_data fault mt5 symbol tfs max_bars)
               order None b in
  snd out = Ok tt /\
  symbols_processed (stats (fst out)) = symbols_processed (stats b) + length symbols /\
  exists completed failed,
    symbols_completed (stats (fst out)) = symbols_completed (stats b) ++ completed /\
    symbols_failed (stats (fst out)) = symbols_failed (stats b) ++ failed /\
    completed = List.filter (selectable mt5) order /\
    failed = List.filter (fun symbol => negb (selectable mt5 symbol)) order /\
    Permutation (completed ++ failed) symbols.
Proof.
  intros Hmt5 Hperm.
  destruct (run_pool_spec fault mt5 tfs max_bars order b Hmt5)
    as (b' & E & Hp & Hc & Hf & _).
  simpl. rewrite E. simpl. split; [reflexivity|].
  split; [now rewrite Hp, (Permutation_length Hperm)|].
  eexists _, _. split; [exact Hc|]. split; [exact Hf|].
  split; [reflexivity|]. split; [reflexivity|].
  etransitivity; [|exact Hperm].
  clear. induction order as [|x order IH]; simpl; [constructor|].
  destruct (selectable mt5 x); simpl.
  - now constructor.
  - etransitivity; [apply Permutation_sym, Permutation_middle|]. now constructor.
Qed.

Lemma run_pool_partition_witness :
  symbols_processed
    (stats (fst (run_pool
                   (fun symbol => download_symbol_data no_fault abc_terminal symbol
                                    ["H1"] 50000)
                   ["B"; "A"] None ready_builder))) = 0 + 2.
Proof.
  exact (proj1 (proj2 (run_pool_partition no_fault abc_terminal ["H1"] 50000
                         ["A"; "B"] ["B"; "A"] ready_builder
                         abc_terminal_raises_exceptions_only (perm_swap _ _ _)))).
Defined.

(** ** The configuration *)

Lemma merge_lookup (defaults : list (string * json)) (config : gmap string json)
    (key : string) :
  fold_left
    (fun (config : gmap string json) (item : string * json) =>
       match config !! item.1 with
       | Some _ => config
       | None => <[item.1 := item.2]> config
       end)
    defaults config !! key
  = match config !! key with
    | Some value => Some value
    | None => (list_to_map defaults : gmap string json) !! key
    end.
Proof.
  revert config. induction defaults as [|[k v] defaults IH]; intros config; simpl.
  - destruct (config !! key); [reflexivity | apply eq_sym, lookup_empty].
  - rewrite IH. destruct (config !! k) as [x|] eqn:Ek.
    + destruct (config !! key) eqn:E; [reflexivity|].
      rewrite lookup_insert_ne; [reflexivity | congruence].
    + destruct (decide (k = key)) as [->|Hne].
      * rewrite Ek, !lookup_insert_eq. reflexivity.
      * rewrite !lookup_insert_ne by exact Hne. reflexivity.
Qed.

Lemma merge_defaults_lookup (config : gmap string json) (key : string) :
  merge_defaults config !! key
  = match config !! key with
    | Some value => Some value
    | None => (list_to_map default_config : gmap string json) !! key
    end.
Proof. apply merge_lookup. Qed.

Lemma default_keys_present (key : string) :
  In key (map fst default_config) ->
  is_Some ((list_to_map default_config : gmap string json) !! key).
Proof.
  intros H. simpl in H.
  repeat (destruct H as [<-|H]; [vm_compute; eauto|]). destruct H.
Qed.

Lemma load_config_lookup (file : ConfigFile) (writable : bool) (key : string) :
  snd (load_config_file file writable) !! key
  = match file with
    | FileObject user =>
      match user !! key with
      | Some value => Some value
      | None => (list_to_map default_config : gmap string json) !! key
      end
    | _ => (list_to_map default_config : gmap string json) !! key
    end.
Proof.
  destruct file as [| |user]; simpl; try reflexivity. apply merge_defaults_lookup.
Qed.

(** X15: whatever the state of the configuration file, the configuration
    returned has every key of the defaults, so that none of the fallback
    values that [build_database] and [filter_symbols_by_category] pass to
    [config.get] is ever used; a value given in the file is kept, a key
    missing from the file gets its default, and loading again returns
    the same configuration. *)
Theorem load_config_complete (file : ConfigFile) (writable : bool) :
  let config := snd (load_config_file file writable) in
  (forall key, In key (map fst default_config) -> is_Some (config !! key)) /\
  (forall key fallback fallback',
     In key consulted_keys ->
     dict_get config key fallback = dict_get config key fallback') /\
  (forall user key value,
     file = FileObject user -> user !! key = Some value ->
     config !! key = Some value) /\
  (forall user key,
     file = FileObject user -> user !! key = None ->
     config !! key = (list_to_map default_config : gmap string json) !! key) /\
  (forall writable',
     snd (load_config_file (fst (load_config_file file writable)) writable') = config).
Proof.
  assert (Hall : forall key, In key (map fst default_config) ->
                   is_Some (snd (load_config_file file writable) !! key)).
  { intros key Hin. rewrite load_config_lookup.
    destruct file as [| |user]; try now apply default_keys_present.
    destruct (user !! key); [eauto | now apply default_keys_present]. }
  simpl. split; [exact Hall|]. split; [|split; [|split]].
  - intros key f f' Hin. unfold dict_get.
    destruct (Hall key) as [v ->]; [|reflexivity].
    simpl in Hin. simpl.
    repeat (destruct Hin as [<-|Hin]; [tauto|]). destruct Hin.
  - intros user key value -> Hk. rewrite load_config_lookup. now rewrite Hk.
  - intros user key -> Hk. rewrite load_config_lookup. now rewrite Hk.
  - intros w'. destruct file as [| |user]; simpl; try reflexivity.
    destruct writable; simpl; [|reflexivity].
    apply map_eq. intros key. rewrite merge_defaults_lookup.
    now destruct (_ !! key).
Qed.

Lemma load_config_complete_witness :
  snd (load_config_file (FileObject {["max_workers" := JNumber (inject_Z 8)]}) true)
    !! "max_workers" = Some (JNumber (inject_Z 8)).
Proof.
  apply (proj1 (proj2 (proj2 (load_config_complete
           (FileObject {["max_workers" := JNumber (inject_Z 8)]}) true)))
           {["max_workers" := JNumber (inject_Z 8)]}); [reflexivity|].
  apply lookup_singleton_eq.
Defined.

(** ** The filter by category *)

Lemma filter_symbols_by_category_In (symbols : list string) (config : Config)
    (symbol : string) :
  In symbol (filter_symbols_by_category symbols config) <->
  In symbol symbols /\ category_enabled config (classify_symbol symbol) = true.
Proof.
  unfold filter_symbols_by_category. rewrite filter_In. unfold category_enabled.
  reflexivity.
Qed.

(** X16: the filter keeps exactly the symbols whose category is switched
    on, in their order; a symbol classified OTHER is always kept, whatever
    the flags; filtering a second time changes nothing; and with all four
    flags off what remains is exactly the OTHER symbols. *)
Theorem filter_symbols_by_category_spec (symbols : list string) (config : Config) :
  (forall symbol,
     In symbol (filter_symbols_by_category symbols config) <->
     In symbol symbols /\ category_enabled config (classify_symbol symbol) = true) /\
  (forall symbol,
     In symbol symbols -> classify_symbol symbol = OTHER ->
     In symbol (filter_symbols_by_category symbols config)) /\
  filter_symbols_by_category (filter_symbols_by_category symbols config) config
    = filter_symbols_by_category symbols config /\
  (include_indices config = false -> include_forex config = false ->
   include_commodities config = false -> include_crypto config = false ->
   filter_symbols_by_category symbols config
     = List.filter (fun symbol => match classify_symbol symbol with
                                  | OTHER => true
                                  | _ => false
                                  end) symbols).
Proof.
  split; [intros symbol; apply filter_symbols_by_category_In|].
  split; [|split].
  - intros symbol Hin Hc. apply filter_symbols_by_category_In.
    split; [exact Hin|]. now rewrite Hc.
  - unfold filter_symbols_by_category.
    induction symbols as [|x symbols IH]; [reflexivity|]. simpl.
    destruct (classify_symbol x) eqn:Ex; simpl;
      match goal with
      | |- context [if ?c then _ else _] =>
        destruct c eqn:Ec; simpl; rewrite ?Ex, ?Ec; now rewrite ?IH
      | _ => rewrite ?Ex; now rewrite IH
      end.
  - intros H1 H2 H3 H4. unfold filter_symbols_by_category.
    apply filter_ext. intros x. rewrite H1, H2, H3, H4.
    now destruct (classify_symbol x).
Qed.

Lemma filter_symbols_by_category_spec_witness :
  filter_symbols_by_category ["US30"; "EURUSD"; "ZZZZZZ"; "BTCUSD"]
    {| mt5_executable_path := ""; symbols_to_download := [];
       cfg_timeframes := []; max_bars_per_request := 0;
       include_indices := false; include_forex := false;
       include_commodities := false; include_crypto := false;
       auto_detect_symbols := true; max_workers := 1 |}
  = ["ZZZZZZ"].
Proof.
  rewrite (proj2 (proj2 (proj2 (filter_symbols_by_category_spec _ _))));
    reflexivity.
Defined.

(** ** The symbol table *)

Lemma find_app {A} (p : A -> bool) (l l' : list A) :
  List.find p (l ++ l') = match List.find p l with
                          | Some x => Some x
                          | None => List.find p l'
                          end.
Proof. induction l as [|x l IH]; simpl; [reflexivity|]. now destruct (p x). Qed.

Lemma last_named_cons (name : string) (symbol : RawSymbol) (symbols : list RawSymbol) :
  last_named name (symbol :: symbols)
  = match last_named name symbols with
    | Some found => Some found
    | None => if String.eqb (raw_name symbol) name then Some symbol else None
    end.
Proof. unfold last_named. simpl. rewrite find_app. simpl. reflexivity. Qed.

Lemma replace_rows_lookup (fault : nat -> InfoRow -> bool) (clock : nat -> Z)
    (i : nat) (symbols : list RawSymbol) (table : gmap string InfoRow) :
  (forall j row, fault j row = false) ->
  snd (replace_rows fault clock i symbols table) = true /\
  forall name,
    match last_named name symbols with
    | Some symbol =>
      exists j, symbols !! j = Some symbol /\
                fst (replace_rows fault clock i symbols table) !! name
                = Some (info_row (clock (i + j)) symbol)
    | None => fst (replace_rows fault clock i symbols table) !! name = table !! name
    end.
Proof.
  intros Hf. revert i table. induction symbols as [|symbol symbols IH]; intros i table.
  - simpl. auto.
  - simpl. rewrite Hf.
    destruct (IH (S i) (<[raw_name symbol:=info_row (clock i) symbol]> table))
      as [H1 H2].
    split; [exact H1|]. intros name. specialize (H2 name).
    rewrite last_named_cons.
    destruct (last_named name symbols) as [found|].
    + destruct H2 as (j & Hj & Hl). exists (S j). split; [exact Hj|].
      now rewrite Nat.add_succ_r.
    + rewrite H2.
      destruct (String.eqb_spec (raw_name symbol) name) as [->|Hne].
      * exists 0. split; [reflexivity|]. rewrite Nat.add_0_r.
        apply lookup_insert_eq.
      * now apply lookup_insert_ne.
Qed.

Lemma last_named_In (name : string) (symbols : list RawSymbol) :
  (exists symbol, In symbol symbols /\ raw_name symbol = name) ->
  exists found, last_named name symbols = Some found /\ raw_name found = name /\
                In found symbols.
Proof.
  intros (symbol & Hin & Hn). unfold last_named.
  destruct (List.find (fun s => String.eqb (raw_name s) name) (rev symbols)) as [x|] eqn:E.
  - apply find_some in E as [Hx Hp]. exists x. split; [reflexivity|].
    split; [now apply String.eqb_eq | now apply in_rev].
  - exfalso. pose proof (find_none _ _ E symbol (proj1 (in_rev _ _) Hin)) as H.
    simpl in H. apply String.eqb_eq in Hn. congruence.
Qed.

Lemma save_symbols_info_lookup (fault : nat -> InfoRow -> bool)
    (clock : nat -> Z) (symbols : list RawSymbol) (db : SymbolDb) :
  (forall i row, fault i row = false) ->
  let db' := save_symbols_info fault clock symbols db in
  (forall name,
     match last_named name symbols with
     | Some symbol =>
       exists j, symbols !! j = Some symbol /\
                 symbol_info db' !! name = Some (info_row (clock j) symbol)
     | None => symbol_info db' !! name = symbol_info db !! name
     end) /\
  committed_symbol_info db' = symbol_info db'.
Proof.
  intros Hf. cbv zeta. unfold save_symbols_info.
  pose proof (replace_rows_lookup fault clock 0 symbols (symbol_info db) Hf)
    as [H1 H2].
  destruct (replace_rows fault clock 0 symbols (symbol_info db)) as [t ok].
  simpl in H1, H2. subst ok. simpl. split; [exact H2|reflexivity].
Qed.

Lemma save_symbols_info_row (fault : nat -> InfoRow -> bool)
    (clock : nat -> Z) (symbols : list RawSymbol) (db : SymbolDb)
    (symbol : RawSymbol) :
  (forall i row, fault i row = false) ->
  In symbol symbols ->
  exists row,
    symbol_info (save_symbols_info fault clock symbols db) !! raw_name symbol
    = Some row /\
    info_symbol row = raw_name symbol /\
    info_category row = classify_symbol (raw_name symbol).
Proof.
  intros Hf Hin.
  pose proof (proj1 (save_symbols_info_lookup fault clock symbols db Hf)
                (raw_name symbol)) as H.
  cbv zeta in H.
  destruct (last_named_In (raw_name symbol) symbols) as (found & E & Hn & _);
    [eauto|].
  rewrite E in H. destruct H as (j & _ & Hl).
  exists (info_row (clock j) found). simpl. rewrite Hn. auto.
Qed.

(** X17: when no statement fails, [save_symbols_info] is an upsert keyed
    by the symbol: every symbol of the list has its row, built from the
    last description of that symbol in the list and stamped with the time
    of one of the statements, with the category that [classify_symbol]
    gives to its name; the rows of the other symbols are untouched;
    everything is committed; and saving the same list again, at whatever
    time, changes nothing but the times of the last update. *)
Theorem save_symbols_info_upsert (fault : nat -> InfoRow -> bool)
    (clock : nat -> Z) (symbols : list RawSymbol) (db : SymbolDb) :
  (forall i row, fault i row = false) ->
  let db' := save_symbols_info fault clock symbols db in
  (forall name,
     match last_named name symbols with
     | Some symbol =>
       exists j, symbols !! j = Some symbol /\
                 symbol_info db' !! name = Some (info_row (clock j) symbol)
     | None => symbol_info db' !! name = symbol_info db !! name
     end) /\
  (forall symbol, In symbol symbols ->
     exists row, symbol_info db' !! raw_name symbol = Some row /\
                 info_symbol row = raw_name symbol /\
                 info_category row = classify_symbol (raw_name symbol)) /\
  committed_symbol_info db' = symbol_info db' /\
  (forall (later : nat -> Z) name,
     unstamped <$> (symbol_info (save_symbols_info fault later symbols db') !! name)
     = unstamped <$> (symbol_info db' !! name)).
Proof.
  intros Hf. cbv zeta.
  destruct (save_symbols_info_lookup fault clock symbols db Hf) as [Hlook Hc].
  cbv zeta in Hlook, Hc.
  split; [exact Hlook|]. split; [|split; [exact Hc|]].
  - intros symbol Hin. now apply save_symbols_info_row.
  - intros later name.
    pose proof (proj1 (save_symbols_info_lookup fault later symbols
                         (save_symbols_info fault clock symbols db) Hf) name)
      as Hlater.
    cbv zeta in Hlater. specialize (Hlook name).
    destruct (last_named name symbols) as [symbol|].
    + destruct Hlater as (j & _ & ->). destruct Hlook as (k & _ & ->).
      reflexivity.
    + now rewrite Hlater.
Qed.

Lemma replace_rows_failed (fault : nat -> InfoRow -> bool) (clock : nat -> Z)
    (i : nat) (symbols : list RawSymbol) (table : gmap string InfoRow) :
  snd (replace_rows fault clock i symbols table) = false <->
  exists j symbol, symbols !! j = Some symbol /\
                   fault (i + j) (info_row (clock (i + j)) symbol) = true.
Proof.
  revert i table. induction symbols as [|symbol symbols IH]; intros i table; simpl.
  - split; [discriminate | intros (j & s & H & _); discriminate].
  - destruct (fault i (info_row (clock i) symbol)) eqn:Ef; simpl.
    + split; [|reflexivity]. intros _. exists 0, symbol.
      rewrite Nat.add_0_r. auto.
    + rewrite IH. split.
      * intros (j & s & Hj & Hfj). exists (S j), s. split; [exact Hj|].
        now rewrite Nat.add_succ_r.
      * intros ([|j] & s & Hj & Hfj).
        -- simpl in Hj. injection Hj as <-. rewrite Nat.add_0_r in Hfj. congruence.
        -- exists j, s. split; [exact Hj|]. now rewrite Nat.add_succ_r in Hfj.
Qed.

(** X18: when a statement of [save_symbols_info] fails, the exception is
    swallowed and nothing is committed: the committed table is the one
    from before the call, and the call commits exactly when no statement
    fails. *)
Theorem save_symbols_info_failure (fault : nat -> InfoRow -> bool)
    (clock : nat -> Z) (symbols : list RawSymbol) (db : SymbolDb) :
  let db' := save_symbols_info fault clock symbols db in
  ((exists j symbol, symbols !! j = Some symbol /\
                     fault j (info_row (clock j) symbol) = true) ->
   committed_symbol_info db' = committed_symbol_info db) /\
  ((forall j symbol, symbols !! j = Some symbol ->
                     fault j (info_row (clock j) symbol) = false) ->
   committed_symbol_info db' = symbol_info db').
Proof.
  simpl. unfold save_symbols_info.
  pose proof (replace_rows_failed fault clock 0 symbols (symbol_info db)) as H.
  destruct (replace_rows fault clock 0 symbols (symbol_info db)) as [t [|]];
    simpl in *.
  - split; [|reflexivity]. intros Hex. apply H in Hex. discriminate.
  - split; [reflexivity|]. intros Hno.
    destruct (proj1 H eq_refl) as (j & s & Hj & Hf). rewrite (Hno j s Hj) in Hf.
    discriminate.
Qed.

(** X19: [get_available_symbols] asks nothing and writes nothing when the
    builder is not connected; otherwise it returns the names the terminal
    lists, in order, even if their descriptions could not be saved; and
    when they are saved, every returned symbol that passes
    [filter_symbols_by_category] has a committed row whose stored
    category is one the configuration switches on. *)
Theorem get_available_symbols_spec (symbols_get : res (option (list RawSymbol)))
    (fault : nat -> InfoRow -> bool) (clock : nat -> Z) (db : SymbolDb) :
  get_available_symbols_of false symbols_get fault clock db = (db, Ok []) /\
  (forall symbols,
     symbols_get = Ok (Some symbols) ->
     snd (get_available_symbols_of true symbols_get fault clock db)
       = Ok (map raw_name symbols)) /\
  (forall symbols config name,
     symbols_get = Ok (Some symbols) ->
     (forall i row, fault i row = false) ->
     In name (filter_symbols_by_category (map raw_name symbols) config) ->
     exists row,
       committed_symbol_info
         (fst (get_available_symbols_of true symbols_get fault clock db))
         !! name = Some row /\
       category_enabled config (info_category row) = true).
Proof.
  split; [reflexivity|]. split.
  - intros symbols ->. simpl. now destruct symbols.
  - intros symbols config name -> Hf Hin.
    apply filter_symbols_by_category_In in Hin as [Hin Hen].
    apply in_map_iff in Hin as (symbol & <- & Hin).
    destruct symbols as [|s0 symbols]; [destruct Hin|].
    simpl.
    pose proof (proj2 (save_symbols_info_lookup fault clock (s0 :: symbols) db Hf))
      as Hc.
    cbv zeta in Hc.
    destruct (save_symbols_info_row fault clock (s0 :: symbols) db symbol Hf Hin)
      as (row & Hr & _ & Hcat).
    exists row. rewrite Hc, Hr, Hcat. auto.
Qed.

Lemma save_symbols_info_upsert_witness :
  exists row,
    symbol_info (save_symbols_info no_info_fault (second_clock 1700000000)
                   [bare_symbol "XAUUSD"; bare_symbol "US30"] empty_symbol_db)
      !! "XAUUSD" = Some row /\
    info_symbol row = "XAUUSD" /\
    info_category row = classify_symbol "XAUUSD".
Proof.
  apply (proj1 (proj2 (save_symbols_info_upsert no_info_fault
           (second_clock 1700000000)
           [bare_symbol "XAUUSD"; bare_symbol "US30"] empty_symbol_db
           (fun _ _ => eq_refl))) (bare_symbol "XAUUSD")).
  simpl; tauto.
Defined.

Lemma save_symbols_info_failure_witness :
  committed_symbol_info
    (save_symbols_info info_fault_second (second_clock 1700000000)
       [bare_symbol "XAUUSD"; bare_symbol "US30"] empty_symbol_db) = ∅.
Proof.
  apply (proj1 (save_symbols_info_failure info_fault_second
           (second_clock 1700000000)
           [bare_symbol "XAUUSD"; bare_symbol "US30"] empty_symbol_db)).
  exists 1, (bare_symbol "US30"). split; reflexivity.
Defined.

Lemma get_available_symbols_spec_witness :
  snd (get_available_symbols_of true
         (Ok (Some [bare_symbol "XAUUSD"; bare_symbol "US30"]))
         info_fault_second (second_clock 1700000000) empty_symbol_db)
  = Ok ["XAUUSD"; "US30"].
Proof.
  exact (proj1 (proj2 (get_available_symbols_spec
           (Ok (Some [bare_symbol "XAUUSD"; bare_symbol "US30"]))
           info_fault_second (second_clock 1700000000) empty_symbol_db)) _ eq_refl).
Defined.

(** ** The connection to the terminal *)

Lemma connect_to_mt5_with_cases (api : TerminalApi) (executable_path : string)
    (b : Builder) :
  let out := connect_to_mt5_with api executable_path b in
  (connect_body api executable_path = Ok true /\
   out = ({| connection := connection b; mt5_connected := true;
             stats := stats b; calls := calls b |}, Ok true)) \/
  (connect_body api executable_path <> Ok true /\ fst out = b /\
   (snd out = Ok false \/ snd out = Raise KeyboardInterrupt)).
Proof.
  simpl. unfold connect_to_mt5_with, try_except.
  destruct (connect_body api executable_path) as [[|]|e] eqn:E.
  - left. auto.
  - right. split; [discriminate|]. auto.
  - right. split; [discriminate|]. destruct e; simpl; auto.
Qed.

(** X20: [connect_to_mt5] returns [True], and sets [mt5_connected], only
    when the terminal has started and both information calls have
    answered; in every other case the builder is left as it was.  In
    particular, when the terminal has started but one of the two answers
    is missing, the method returns [False] with the flag unset, and the
    [cleanup] that follows does not shut the started terminal down. *)
Theorem connect_to_mt5_flag (api : TerminalApi) (executable_path : string)
    (b : Builder) :
  let out := connect_to_mt5_with api executable_path b in
  (snd out = Ok true ->
   mt5_connected (fst out) = true /\
   terminal_started api executable_path /\
   terminal_info api = Ok true /\ account_info api = Ok true) /\
  (snd out <> Ok true -> fst out = b) /\
  (forall has_terminal has_account,
     terminal_started api executable_path ->
     terminal_info api = Ok has_terminal -> account_info api = Ok has_account ->
     has_terminal && has_account = false ->
     mt5_connected b = false ->
     out = (b, Ok false) /\
     ~ In CallShutdown (cleanup_calls (fst out))).
Proof.
  pose proof (connect_to_mt5_with_cases api executable_path b) as H. simpl in *.
  split; [|split].
  - intros Hr. destruct H as [[Hb ->]|(_ & _ & [H|H])]; [|congruence|congruence].
    simpl. split; [reflexivity|]. unfold connect_body in Hb. unfold terminal_started.
    destruct (if negb (executable_path =? "") && path_exists api executable_path
              then initialize api (Some executable_path) else initialize api None)
      as [[|]|e]; try discriminate.
    destruct (terminal_info api) as [[|]|e]; try discriminate;
      destruct (account_info api) as [[|]|e']; try discriminate; auto.
  - intros Hr. destruct H as [[_ E]|(_ & H & _)]; [|exact H].
    exfalso. apply Hr. now rewrite E.
  - intros t a Hs Ht Ha Hinfo Hflag.
    assert (Hb : connect_body api executable_path = Raise AttributeError).
    { unfold connect_body. unfold terminal_started in Hs.
      now rewrite Hs, Ht, Ha, Hinfo. }
    unfold connect_to_mt5_with, try_except. rewrite Hb. simpl.
    split; [reflexivity|]. unfold cleanup_calls. rewrite Hflag.
    destruct (connection b); simpl; [intros [H'|[]]; discriminate H' | tauto].
Qed.

Lemma connect_to_mt5_flag_witness :
  terminal_started no_account_api "" /\
  connect_to_mt5_with no_account_api "" fresh_builder = (fresh_builder, Ok false).
Proof.
  split; [reflexivity|].
  exact (proj1 (proj2 (proj2 (connect_to_mt5_flag no_account_api "" fresh_builder))
                  true false eq_refl eq_refl eq_refl eq_refl eq_refl)).
Defined.

(** ** [main] *)

(** X21: [main] runs [build_database] only on an affirmative answer, and
    never lets an exception of it through; and since [build_database]
    has already cleaned up when it raises, an interrupted run is cleaned
    up twice: its trace ends with the calls of [cleanup], issued two
    times over. *)
Theorem builder_main_cleanup (fault : nat -> statement -> bool) (mt5 : Terminal)
    (env : Periphery) (pool : Schedule) (response : string)
    (b b0 : Builder) (config : Config) :
  load_config env b = (b0, Ok config) ->
  let build := build_database fault mt5 env pool in
  let out := builder_main env build response b in
  snd out = Ok tt /\
  (~ In response affirmative -> fst out = b0) /\
  (In response affirmative ->
   (forall v, snd (build b0) = Ok v -> fst out = fst (build b0)) /\
   (forall e, snd (build b0) = Raise e ->
      exists earlier,
        calls (fst out)
        = earlier ++ cleanup_calls (fst out) ++ cleanup_calls (fst out))).
Proof.
  intros Hload. simpl. unfold builder_main, bind. rewrite Hload.
  destruct (bool_decide (In response affirmative)) eqn:Ed.
  - apply bool_decide_eq_true in Ed.
    set (build := build_database fault mt5 env pool).
    assert (Hb : exists mid, build b0 = (cleanup mid, snd (build b0))).
    { unfold build, build_database. rewrite try_finally_runs_final. simpl. eauto. }
    destruct Hb as [mid Hb]. destruct (build b0) as [b1 [v|e]] eqn:E;
      cbn [fst snd] in *.
    + split; [reflexivity|]. split; [intros Hn; exfalso; exact (Hn Ed)|].
      intros _. split; [auto | discriminate].
    + split; [reflexivity|]. split; [intros Hn; exfalso; exact (Hn Ed)|].
      intros _. split; [discriminate|].
      intros e' _. injection Hb as ->.
      destruct (cleanup_spec mid) as (Hc1 & Hn1 & Hm1 & _).
      destruct (cleanup_spec (cleanup mid)) as (Hc2 & Hn2 & Hm2 & _).
      exists (calls mid). rewrite Hc2, Hc1.
      unfold cleanup_calls. rewrite Hn2, Hm2, Hn1, Hm1. now rewrite <- app_assoc.
  - apply bool_decide_eq_false in Ed. simpl.
    split; [reflexivity|]. split; [auto | intros Hy; exfalso; exact (Ed Hy)].
Qed.

Lemma builder_main_cleanup_witness :
  exists earlier,
    calls (fst (builder_main (scenario_env scenario_config)
                  (build_database no_fault scenario_terminal
                     (scenario_env scenario_config) interrupted)
                  "s" fresh_builder))
    = earlier ++ [CallConnectionClose; CallShutdown]
              ++ [CallConnectionClose; CallShutdown].
Proof.
  destruct (builder_main_cleanup no_fault scenario_terminal
              (scenario_env scenario_config) interrupted "s" fresh_builder
              fresh_builder scenario_config eq_refl) as (_ & _ & H).
  destruct H as [_ H]; [simpl; tauto|].
  destruct (H KeyboardInterrupt) as [earlier He]; [vm_compute; reflexivity|].
  exists earlier. exact He.
Defined.

(** ** The coordinating loop under an interrupt *)

Lemma loop_update_id : loop_update (fun st => st).
Proof. repeat split. Qed.

Lemma lift_id (b : Builder) : lift (fun st => st) b = b.
Proof. now destruct b. Qed.

Lemma loop_update_compose (g h : Stats -> Stats) :
  loop_update g -> loop_update h -> loop_update (fun st => g (h st)).
Proof.
  intros (Ga & Ge & Gt & Gr) (Ha & He & Ht & Hr). repeat split; intros.
  - now rewrite Ha, Ga.
  - now rewrite He, Ge.
  - now rewrite Gt, Ht.
  - now rewrite Gr, Hr.
Qed.

Lemma loop_update_collect (symbol : string) (outcome : res SymbolResult)
    (b : Builder) :
  (forall e, outcome = Raise e -> is_Exception e = true) ->
  exists g, loop_update g /\
            collect symbol outcome b = (lift g b, Ok tt) /\
            forall st, symbols_processed (g st)
                       = symbols_processed st
                         + (if outcome is Ok _ then 1 else 0).
Proof.
  intros He. destruct outcome as [r|e]; simpl.
  - destruct (res_success r).
    + exists (fun st => Upd.add_completed symbol (Upd.add_processed st)).
      repeat split. intros st. simpl. lia.
    + exists (fun st => Upd.add_failed symbol (Upd.add_processed st)).
      repeat split. intros st. simpl. lia.
  - rewrite (He e eq_refl). exists (Upd.add_failed symbol).
    repeat split. intros st. simpl. lia.
Qed.

Lemma save_price_data_on_lift (fault : nat -> statement -> bool)
    (symbol timeframe : string) (df : DataFrame) (g : Stats -> Stats)
    (b : Builder) :
  save_price_data_on fault symbol timeframe df (lift g b)
  = (lift g (fst (save_price_data_on fault symbol timeframe df b)),
     snd (save_price_data_on fault symbol timeframe df b)).
Proof.
  unfold save_price_data_on. simpl.
  destruct (connection b) as [s|]; [|reflexivity].
  destruct (save_price_data fault symbol timeframe df s). reflexivity.
Qed.

Lemma fetch_timeframe_lift (fault : nat -> statement -> bool) (mt5 : Terminal)
    (symbol : string) (max_bars : Z) (tf_name : string) (tf_value : Timeframe)
    (g : Stats -> Stats) (b : Builder) (results : SymbolResult) :
  loop_update g ->
  fetch_timeframe fault mt5 symbol max_bars tf_name tf_value (lift g b) results
  = (lift g (fst (fetch_timeframe fault mt5 symbol max_bars tf_name tf_value
                    b results)),
     snd (fetch_timeframe fault mt5 symbol max_bars tf_name tf_value b results)).
Proof.
  intros (Ga & _). unfold fetch_timeframe. cbv zeta.
  change (Upd.log (CallCopyRates symbol tf_value 0 max_bars) (lift g b))
    with (lift g (Upd.log (CallCopyRates symbol tf_value 0 max_bars) b)).
  destruct (copy_rates_from_pos mt5 symbol tf_value 0 max_bars)
    as [[[|row more]|]|e]; try reflexivity.
  match goal with |- context [(length ?d =? 0)%nat] =>
    destruct (length d =? 0)%nat; [reflexivity|] end.
  rewrite save_price_data_on_lift.
  match goal with |- context [save_price_data_on ?f ?s ?t ?d ?x] =>
    destruct (save_price_data_on f s t d x) as [b' saved] end.
  cbn [fst snd].
  match goal with |- context [iso_of (head ?d)] =>
    destruct (iso_of (head d)); [|reflexivity];
    destruct (iso_of (last d)); [|reflexivity] end.
  cbn [fst snd]. f_equal. unfold lift, Upd.with_stats.
  cbn [stats connection mt5_connected calls]. now rewrite Ga.
Qed.

Lemma download_timeframes_lift (fault : nat -> statement -> bool)
    (mt5 : Terminal) (symbol : string) (max_bars : Z) (g : Stats -> Stats)
    (tfs : list string) (b : Builder) (results : SymbolResult) :
  loop_update g ->
  download_timeframes fault mt5 symbol max_bars tfs (lift g b) results
  = (lift g (fst (download_timeframes fault mt5 symbol max_bars tfs b results)),
     snd (download_timeframes fault mt5 symbol max_bars tfs b results)).
Proof.
  intros Hg. revert b results.
  induction tfs as [|tf_name rest IH]; intros b results; [reflexivity|].
  simpl. destruct (timeframes !! tf_name) as [tf_value|]; [|apply IH].
  rewrite (fetch_timeframe_lift _ _ _ _ _ _ _ _ _ Hg).
  destruct (fetch_timeframe fault mt5 symbol max_bars tf_name tf_value b results)
    as [b' [r|e]]; cbn [fst snd]; [apply IH|].
  destruct (is_Exception e); [|reflexivity].
  destruct Hg as (Ga & Ge & Gt & Gr).
  rewrite <- (IH (Upd.with_stats (Upd.add_error (stats b')) b')).
  f_equal. unfold lift, Upd.with_stats.
  cbn [stats connection mt5_connected calls]. now rewrite Ge.
Qed.

Lemma download_symbol_data_lift (fault : nat -> statement -> bool)
    (mt5 : Terminal) (symbol : string) (tfs : list string) (max_bars : Z)
    (g : Stats -> Stats) (b : Builder) :
  loop_update g ->
  download_symbol_data fault mt5 symbol tfs max_bars (lift g b)
  = (lift g (fst (download_symbol_data fault mt5 symbol tfs max_bars b)),
     snd (download_symbol_data fault mt5 symbol tfs max_bars b)).
Proof.
  intros Hg. unfold download_symbol_data. cbv zeta.
  change (Upd.log (CallSymbolSelect symbol) (lift g b))
    with (lift g (Upd.log (CallSymbolSelect symbol) b)).
  destruct (symbol_select mt5 symbol) as [[|]|e].
  - apply download_timeframes_lift, Hg.
  - reflexivity.
  - destruct (is_Exception e); [|reflexivity].
    destruct Hg as (Ga & Ge & Gt & Gr). cbn [fst snd]. f_equal.
    unfold lift, Upd.with_stats, Upd.log.
    cbn [stats connection mt5_connected calls]. now rewrite Ge.
Qed.

Lemma drain_lift (fault : nat -> statement -> bool) (mt5 : Terminal)
    (tfs : list string) (max_bars : Z) (g : Stats -> Stats)
    (order : list string) (b : Builder) :
  loop_update g ->
  drain (fun symbol => download_symbol_data fault mt5 symbol tfs max_bars)
    order (lift g b)
  = lift g (drain (fun symbol =>
                     download_symbol_data fault mt5 symbol tfs max_bars)
              order b).
Proof.
  intros Hg. revert b. induction order as [|symbol rest IH]; intros b;
    [reflexivity|].
  simpl. rewrite (download_symbol_data_lift _ _ _ _ _ _ _ Hg). cbn [fst].
  apply IH.
Qed.

Lemma drain_same_symbols (fault : nat -> statement -> bool) (mt5 : Terminal)
    (tfs : list string) (max_bars : Z) (order : list string) (b : Builder) :
  raises_exceptions_only mt5 ->
  same_symbols (stats b)
    (stats (drain (fun symbol =>
                     download_symbol_data fault mt5 symbol tfs max_bars)
              order b)).
Proof.
  intros Hmt5. revert b. induction order as [|symbol rest IH]; intros b.
  - repeat split.
  - simpl.
    destruct (download_symbol_data_spec fault mt5 symbol tfs max_bars b Hmt5)
      as (b1 & r & E & _ & (Hp & Hc & Hf) & _).
    rewrite E. cbn [fst].
    destruct (IH b1) as (Hp' & Hc' & Hf').
    repeat split; congruence.
Qed.

(** Whatever the interrupt, the tasks all run: the builder is the one
    the tasks alone leave, with the loop's updates on top. *)
Lemma run_pool_drain (fault : nat -> statement -> bool) (mt5 : Terminal)
    (tfs : list string) (max_bars : Z) (order : list string)
    (interrupt : option nat) (b : Builder) :
  raises_exceptions_only mt5 ->
  let task := fun symbol => download_symbol_data fault mt5 symbol tfs max_bars in
  exists g,
    loop_update g /\
    fst (run_pool task order interrupt b) = lift g (drain task order b) /\
    (forall st, symbols_processed (g st)
                = symbols_processed st + collected interrupt order) /\
    snd (run_pool task order interrupt b)
    = (if interrupt is Some k
       then if (k <? length order)%nat then Raise KeyboardInterrupt else Ok tt
       else Ok tt).
Proof.
  intros Hmt5 task. revert interrupt b.
  induction order as [|symbol rest IH]; intros interrupt b.
  - exists (fun st => st). split; [apply loop_update_id|].
    split; [now rewrite lift_id|]. split.
    + intros st. destruct interrupt as [k|]; simpl; [rewrite Nat.min_0_r|]; lia.
    + destruct interrupt as [[|k]|]; reflexivity.
  - destruct (download_symbol_data_spec fault mt5 symbol tfs max_bars b Hmt5)
      as (b1 & r & E & _).
    assert (Hstep : forall interrupt',
      (if interrupt is Some 0 then False else True) ->
      interrupt' = pred <$> interrupt ->
      exists g,
        loop_update g /\
        fst (run_pool task (symbol :: rest) interrupt b)
        = lift g (drain task (symbol :: rest) b) /\
        (forall st, symbols_processed (g st)
                    = symbols_processed st + S (collected interrupt' rest)) /\
        snd (run_pool task (symbol :: rest) interrupt b)
        = snd (run_pool task rest interrupt' b1)).
    { intros interrupt' Hnz ->.
      destruct (loop_update_collect symbol (Ok r) b1) as (c & Hc & Ec & Pc);
        [discriminate|].
      destruct (IH (pred <$> interrupt) (lift c b1)) as (g & Hg & Eg & Pg & Sg).
      exists (fun st => g (c st)).
      split; [now apply loop_update_compose|].
      assert (Erun : run_pool task (symbol :: rest) interrupt b
                     = run_pool task rest (pred <$> interrupt) (lift c b1)).
      { destruct interrupt as [[|k]|]; [contradiction| |];
          simpl; unfold task at 1; rewrite E; rewrite Ec; reflexivity. }
      rewrite Erun, Eg. split.
      - unfold task. rewrite (drain_lift _ _ _ _ _ _ _ Hc).
        simpl. rewrite E. reflexivity.
      - split.
        + intros st. rewrite Pg, Pc. lia.
        + rewrite Sg.
          destruct (IH (pred <$> interrupt) b1) as (_ & _ & _ & _ & ->).
          reflexivity. }
    destruct interrupt as [[|k]|].
    + exists (fun st => st). split; [apply loop_update_id|].
      split; [now rewrite lift_id|]. split; [|reflexivity].
      intros st. simpl. lia.
    + destruct (Hstep (Some k) I eq_refl) as (g & Hg & Eg & Pg & Sg).
      exists g. split; [exact Hg|]. split; [exact Eg|]. split.
      * intros st. rewrite Pg. simpl. lia.
      * rewrite Sg.
        destruct (IH (Some k) b1) as (_ & _ & _ & _ & ->). reflexivity.
    + destruct (Hstep None I eq_refl) as (g & Hg & Eg & Pg & Sg).
      exists g. split; [exact Hg|]. split; [exact Eg|]. split.
      * intros st. rewrite Pg. simpl. lia.
      * rewrite Sg.
        destruct (IH None b1) as (_ & _ & _ & _ & ->). reflexivity.
Qed.

(** X22: an interrupt of the coordinating loop cancels nothing.  When the
    terminal raises only [Exception]s and the main thread is interrupted
    after [k] of the results, the loop is left with [KeyboardInterrupt]
    and exactly [k] symbols counted as processed; but the remaining tasks
    still run to their end, so the database, the calls made to the
    terminal, the count of downloaded bars and the count of errors are
    those of the run that is not interrupted. *)
Theorem run_pool_interrupted (fault : nat -> statement -> bool)
    (mt5 : Terminal) (tfs : list string) (max_bars : Z)
    (order : list string) (k : nat) (b : Builder) :
  raises_exceptions_only mt5 ->
  k < length order ->
  let task := fun symbol => download_symbol_data fault mt5 symbol tfs max_bars in
  let cut := run_pool task order (Some k) b in
  let full := run_pool task order None b in
  snd cut = Raise KeyboardInterrupt /\
  snd full = Ok tt /\
  symbols_processed (stats (fst cut)) = symbols_processed (stats b) + k /\
  symbols_processed (stats (fst full))
  = symbols_processed (stats b) + length order /\
  connection (fst cut) = connection (fst full) /\
  calls (fst cut) = calls (fst full) /\
  total_bars_downloaded (stats (fst cut))
  = total_bars_downloaded (stats (fst full)) /\
  errors (stats (fst cut)) = errors (stats (fst full)).
Proof.
  intros Hmt5 Hk task cut full.
  destruct (run_pool_drain fault mt5 tfs max_bars order (Some k) b Hmt5)
    as (g & (_ & _ & Gt & Gr) & Eg & Pg & Sg).
  destruct (run_pool_drain fault mt5 tfs max_bars order None b Hmt5)
    as (h & (_ & _ & Ht & Hr) & Eh & Ph & Sh).
  destruct (drain_same_symbols fault mt5 tfs max_bars order b Hmt5)
    as (Dp & _).
  fold task in Eg, Sg, Eh, Sh, Dp. fold cut in Eg, Sg. fold full in Eh, Sh.
  apply Nat.ltb_lt in Hk as Hk'. rewrite Hk' in Sg.
  rewrite Eg, Eh. simpl. rewrite Pg, Ph, Gt, Ht, Gr, Hr, Dp.
  simpl. rewrite (Nat.min_l k) by lia.
  repeat split; assumption.
Qed.

Lemma run_pool_interrupted_witness :
  raises_exceptions_only abc_terminal /\
  1 < length ["A"; "B"; "C"] /\
  snd (run_pool (fun symbol =>
                   download_symbol_data no_fault abc_terminal symbol ["H1"] 10)
         ["A"; "B"; "C"] (Some 1) fresh_builder)
  = Raise KeyboardInterrupt.
Proof.
  split; [apply abc_terminal_raises_exceptions_only|].
  split; [simpl; lia|].
  apply (run_pool_interrupted no_fault abc_terminal ["H1"] 10%Z
           ["A"; "B"; "C"] 1 fresh_builder).
  - apply abc_terminal_raises_exceptions_only.
  - simpl. lia.
Defined.

(** ** The connection manager *)

Lemma fold_append_symbol (names : list string) (bk : Manager.Buckets) :
  let bk' := fold_left Manager.append_symbol names bk in
  Manager.indices bk'
  = Manager.indices bk ++ Manager.in_group Manager.Indices names /\
  Manager.forex bk'
  = Manager.forex bk ++ Manager.in_group Manager.Forex names /\
  Manager.commodities bk'
  = Manager.commodities bk ++ Manager.in_group Manager.Commodities names /\
  Manager.crypto bk'
  = Manager.crypto bk ++ Manager.in_group Manager.Crypto names /\
  Manager.stocks bk'
  = Manager.stocks bk ++ Manager.in_group Manager.Stocks names /\
  Manager.others bk'
  = Manager.others bk ++ Manager.in_group Manager.Others names.
Proof.
  revert bk. induction names as [|name names IH]; intros bk.
  - simpl. now rewrite !app_nil_r.
  - cbn [fold_left]. cbv zeta in IH |- *.
    destruct (IH (Manager.append_symbol bk name))
      as (-> & -> & -> & -> & -> & ->).
    unfold Manager.append_symbol, Manager.in_group. cbn [List.filter].
    destruct (Manager.group_of name); simpl; rewrite <- ?app_assoc;
      repeat split.
Qed.

(** What [get_available_symbols] answers is the six groups, one after
    the other. *)
Lemma manager_symbols_groups (names : list string) (limit : Z)
    (prefer_indices : bool) :
  Manager.get_available_symbols true (Some names) limit prefer_indices
  = Manager.in_group Manager.Indices names
    ++ Manager.in_group Manager.Forex names
    ++ Manager.in_group Manager.Commodities names
    ++ Manager.in_group Manager.Crypto names
    ++ Manager.in_group Manager.Stocks names
    ++ Manager.in_group Manager.Others names.
Proof.
  destruct names as [|name names]; [reflexivity|].
  unfold Manager.get_available_symbols. cbn [negb]. cbv zeta.
  destruct (fold_append_symbol (name :: names) Manager.empty_buckets)
    as (-> & -> & -> & -> & -> & ->).
  reflexivity.
Qed.

Lemma Permutation_into {A} (a : A) (l y y' : list A) :
  Permutation y (a :: y') -> Permutation (l ++ y) (a :: l ++ y').
Proof.
  intros H. etransitivity; [apply Permutation_app_head, H|].
  symmetry. apply Permutation_middle.
Qed.

Lemma in_group_Permutation (names : list string) :
  Permutation
    (Manager.in_group Manager.Indices names
     ++ Manager.in_group Manager.Forex names
     ++ Manager.in_group Manager.Commodities names
     ++ Manager.in_group Manager.Crypto names
     ++ Manager.in_group Manager.Stocks names
     ++ Manager.in_group Manager.Others names) names.
Proof.
  induction names as [|name names IH]; [constructor|].
  etransitivity; [|apply perm_skip, IH].
  unfold Manager.in_group. cbn [List.filter].
  destruct (Manager.group_of name); cbn [Manager.rank Nat.eqb];
    repeat first [ reflexivity | apply Permutation_into ].
Qed.

Lemma in_group_In (g : Manager.Group) (names : list string) (name : string) :
  In name (Manager.in_group g names) ->
  Manager.rank (Manager.group_of name) = Manager.rank g.
Proof.
  unfold Manager.in_group. rewrite filter_In, Nat.eqb_eq. tauto.
Qed.

Lemma ForallOrdPairs_app {A} (R : A -> A -> Prop) (l1 l2 : list A) :
  ForallOrdPairs R l1 -> ForallOrdPairs R l2 ->
  (forall a b, In a l1 -> In b l2 -> R a b) ->
  ForallOrdPairs R (l1 ++ l2).
Proof.
  intros H1 H2 H. induction H1 as [|a l Ha Hl IH]; [exact H2|].
  simpl. constructor.
  - apply Forall_app. split; [exact Ha|].
    apply List.Forall_forall. intros y Hy. apply H; [now left|exact Hy].
  - apply IH. intros x y Hx. apply H. now right.
Qed.

Lemma in_group_sorted (g : Manager.Group) (names : list string) :
  ForallOrdPairs Manager.group_le (Manager.in_group g names).
Proof.
  assert (H : forall l, (forall x, In x l ->
                           Manager.rank (Manager.group_of x) = Manager.rank g) ->
                        ForallOrdPairs Manager.group_le l).
  { induction l as [|a l IH]; intros Hl; constructor.
    - apply List.Forall_forall. intros y Hy. unfold Manager.group_le.
      rewrite (Hl a), (Hl y); [lia|now right|now left].
    - apply IH. intros x Hx. apply Hl. now right. }
  apply H. intros x. apply in_group_In.
Qed.

Lemma in_group_in_group (g h : Manager.Group) (names : list string) :
  Manager.in_group g (Manager.in_group h names)
  = if Nat.eqb (Manager.rank h) (Manager.rank g)
    then Manager.in_group g names else [].
Proof.
  unfold Manager.in_group. induction names as [|name names IH].
  - now destruct (Nat.eqb _ _).
  - cbn [List.filter].
    destruct (Nat.eqb (Manager.rank (Manager.group_of name)) (Manager.rank h))
      eqn:Eh.
    + cbn [List.filter]. rewrite IH. apply Nat.eqb_eq in Eh. rewrite Eh.
      destruct (Nat.eqb (Manager.rank h) (Manager.rank g)) eqn:Eg;
        reflexivity.
    + rewrite IH.
      destruct (Nat.eqb (Manager.rank h) (Manager.rank g)) eqn:Eg;
        [|reflexivity].
      apply Nat.eqb_eq in Eg. rewrite <- Eg, Eh. reflexivity.
Qed.

(** X23: the manager's [get_available_symbols], when the terminal is
    connected, answers a stable sort of the terminal's symbol names by
    group: the answer is a permutation of the names (nothing is lost or
    repeated, whatever [limit] and [prefer_indices] are), any two of its
    names stand in the order indices, forex, commodities, crypto,
    stocks, others of their groups, and within a group the names keep the terminal's order. *)
Theorem manager_symbols_stable_sort (names : list string) (limit : Z)
    (prefer_indices : bool) :
  let answer :=
    Manager.get_available_symbols true (Some names) limit prefer_indices in
  Permutation answer names /\
  ForallOrdPairs Manager.group_le answer /\
  forall g, Manager.in_group g answer = Manager.in_group g names.
Proof.
  cbv zeta. rewrite manager_symbols_groups.
  split; [apply in_group_Permutation|]. split.
  - repeat (apply ForallOrdPairs_app; [apply in_group_sorted| |]);
      try apply in_group_sorted;
      intros a b Ha Hb; unfold Manager.group_le;
      rewrite (in_group_In _ _ _ Ha);
      rewrite ?in_app_iff in Hb;
      repeat match type of Hb with
             | _ \/ _ => destruct Hb as [Hb|Hb]
             end;
      rewrite (in_group_In _ _ _ Hb); simpl; lia.
  - intros g. unfold Manager.in_group at 1. rewrite !List.filter_app.
    fold (Manager.in_group g (Manager.in_group Manager.Indices names)).
    fold (Manager.in_group g (Manager.in_group Manager.Forex names)).
    fold (Manager.in_group g (Manager.in_group Manager.Commodities names)).
    fold (Manager.in_group g (Manager.in_group Manager.Crypto names)).
    fold (Manager.in_group g (Manager.in_group Manager.Stocks names)).
    fold (Manager.in_group g (Manager.in_group Manager.Others names)).
    rewrite !in_group_in_group.
    destruct g; simpl; now rewrite ?app_nil_r.
Qed.

Lemma any_in_incl (ps qs : list string) (s : string) :
  incl ps qs -> Str.any_in ps s = true -> Str.any_in qs s = true.
Proof.
  unfold Str.any_in. intros Hi. rewrite !existsb_exists.
  intros (p & Hp & Hc). exists p. split; [apply Hi, Hp|exact Hc].
Qed.

Lemma index_patterns_incl : incl index_patterns Manager.index_patterns.
Proof.
  intros p Hp. simpl in Hp.
  repeat (destruct Hp as [<-|Hp]; [simpl; tauto|]). contradiction.
Qed.

(** X24: the two files agree on the indices.  A symbol the builder's
    [classify_symbol] calls an index is put into the group of the
    indices by the manager's [get_available_symbols], so it is among
    the first names of the manager's answer. *)
Theorem classify_symbol_index_is_manager_index (symbol : string) :
  classify_symbol symbol = INDEX ->
  Manager.group_of symbol = Manager.Indices /\
  forall names, In symbol names ->
                In symbol (Manager.in_group Manager.Indices names).
Proof.
  intros H.
  assert (Hg : Manager.group_of symbol = Manager.Indices).
  { unfold classify_symbol in H. cbv zeta in H. unfold Manager.group_of.
    cbv zeta.
    destruct (Str.any_in index_patterns (Str.upper symbol)) eqn:E.
    - now rewrite (any_in_incl _ _ _ index_patterns_incl E).
    - destruct ((Str.len symbol =? 6)%nat
                && Str.any_in forex_patterns (Str.upper symbol));
        [discriminate|].
      destruct (Str.any_in commodity_patterns (Str.upper symbol));
        [discriminate|].
      destruct (Str.any_in crypto_patterns (Str.upper symbol));
        discriminate. }
  split; [exact Hg|].
  intros names Hin. unfold Manager.in_group. apply filter_In.
  split; [exact Hin|]. now rewrite Hg.
Qed.

Lemma classify_symbol_index_is_manager_index_witness :
  classify_symbol "US30.cash" = INDEX /\
  Manager.group_of "US30.cash" = Manager.Indices.
Proof.
  split; [reflexivity|].
  apply (classify_symbol_index_is_manager_index "US30.cash"). reflexivity.
Defined.

Lemma choose_ignored (parse_int : string -> option Z)
    (installations : list Manager.Installation) (pre lines : list string) :
  Forall (Manager.ignored parse_int installations) pre ->
  Manager.choose parse_int installations (pre ++ lines)
  = Manager.choose parse_int installations lines.
Proof.
  induction 1 as [|choice pre (Hq & Hn) _ IH]; [reflexivity|].
  simpl. destruct (String.eqb_spec (Str.lower choice) "q") as [E|_];
    [contradiction|].
  destruct (parse_int choice) as [n|] eqn:En; [|exact IH].
  destruct (Hn n eq_refl) as [Hlo|Hhi].
  - replace (0 <=? n - 1)%Z with false by (symmetry; apply Z.leb_gt; lia).
    exact IH.
  - replace (n - 1 <? Z.of_nat (length installations))%Z with false
      by (symmetry; apply Z.ltb_ge; lia).
    rewrite andb_false_r. exact IH.
Qed.

(** X25: [select_installation] is decided by the first line that is
    [q] (in either case) or a number from 1 to the number of
    installations; every line before it is asked again.  With at least
    one installation found: [q] gives [None]; the number [n] gives the
    [n]-th installation found; and while only other lines are typed the
    loop does not end by itself.  With no installation found the answer
    is [None] without any line read. *)
Theorem select_installation_first_valid (parse_int : string -> option Z)
    (installations : list Manager.Installation)
    (pre : list string) (line : string) (rest : list string) :
  installations <> [] ->
  Forall (Manager.ignored parse_int installations) pre ->
  (Str.lower line = "q" ->
   Manager.select_installation parse_int installations (pre ++ line :: rest)
   = Manager.NoSelection) /\
  (forall n selected,
     Str.lower line <> "q" -> parse_int line = Some n -> (1 <= n)%Z ->
     installations !! Z.to_nat (n - 1) = Some selected ->
     Manager.select_installation parse_int installations (pre ++ line :: rest)
     = Manager.Selected selected) /\
  Manager.select_installation parse_int installations pre
  = Manager.InputClosed /\
  Manager.select_installation parse_int [] (pre ++ line :: rest)
  = Manager.NoSelection.
Proof.
  intros Hne Hpre.
  assert (Hsel : forall lines,
             Manager.select_installation parse_int installations lines
             = Manager.choose parse_int installations lines).
  { intros lines. destruct installations; [contradiction|reflexivity]. }
  rewrite !Hsel, choose_ignored by exact Hpre.
  repeat split.
  - intros Hq. simpl. now rewrite Hq.
  - intros n selected Hq Hn H1 Hl. simpl.
    destruct (String.eqb_spec (Str.lower line) "q") as [E|_];
      [contradiction|].
    rewrite Hn. cbv zeta.
    apply lookup_lt_Some in Hl as Hlt.
    replace (0 <=? n - 1)%Z with true by (symmetry; apply Z.leb_le; lia).
    replace (n - 1 <? Z.of_nat (length installations))%Z with true
      by (symmetry; apply Z.ltb_lt; lia).
    simpl. now rewrite Hl.
  - rewrite <- (app_nil_r pre), choose_ignored by exact Hpre. reflexivity.
Qed.

Lemma select_installation_first_valid_witness :
  two_installations <> [] /\
  Forall (Manager.ignored parse_digit two_installations) ["x"; "3"; "0"] /\
  Manager.select_installation parse_digit two_installations
    (["x"; "3"; "0"] ++ "Q" :: ["1"])
  = Manager.NoSelection.
Proof.
  assert (Hne : two_installations <> []) by discriminate.
  assert (Hpre : Forall (Manager.ignored parse_digit two_installations)
                   ["x"; "3"; "0"]).
  { repeat apply List.Forall_cons; [| | |apply List.Forall_nil];
      (split; [intros Hq; vm_compute in Hq; discriminate|]);
      intros n Hn; vm_compute in Hn; try discriminate;
      injection Hn as <-; simpl; lia. }
  split; [exact Hne|]. split; [exact Hpre|].
  exact (proj1 (select_installation_first_valid parse_digit
                  two_installations ["x"; "3"; "0"] "Q" ["1"] Hne Hpre)
           eq_refl).
Defined.

(** ** The whole run *)

Lemma download_timeframes_keeps_open (fault : nat -> statement -> bool)
    (mt5 : Terminal) (symbol : string) (max_bars : Z) (tfs : list string)
    (b : Builder) (results : SymbolResult) :
  let out := download_timeframes fault mt5 symbol max_bars tfs b results in
  mt5_connected (fst out) = mt5_connected b /\
  (connection b = None <-> connection (fst out) = None).
Proof.
  revert b results. induction tfs as [|x tfs IH]; intros b results; simpl.
  - tauto.
  - destruct (timeframes !! x) as [tf_value|]; [|apply IH].
    pose proof (fetch_timeframe_shape fault mt5 symbol max_bars x tf_value
                  b results) as H.
    cbv zeta in H. destruct H as (_ & Hm & _ & Hc & _).
    destruct (fetch_timeframe fault mt5 symbol max_bars x tf_value b results)
      as [b1 [results1|e]]; cbn [fst] in Hm, Hc.
    + destruct (IH b1 results1) as (Hm' & Hc'). cbv zeta in Hm', Hc'.
      rewrite Hm', Hm. split; [reflexivity|tauto].
    + destruct (is_Exception e).
      * match goal with |- context [download_timeframes _ _ _ _ tfs ?x ?r] =>
          destruct (IH x r) as (Hm' & Hc') end.
        cbv zeta in Hm', Hc'. cbn [mt5_connected connection Upd.with_stats]
          in Hm', Hc'.
        rewrite Hm', Hm. split; [reflexivity|tauto].
      * cbn [fst]. split; [exact Hm|exact Hc].
Qed.

Lemma download_symbol_data_keeps_open (fault : nat -> statement -> bool)
    (mt5 : Terminal) (symbol : string) (tfs : list string) (max_bars : Z)
    (b : Builder) :
  connection b <> None /\ mt5_connected b = true ->
  let out := download_symbol_data fault mt5 symbol tfs max_bars b in
  connection (fst out) <> None /\ mt5_connected (fst out) = true.
Proof.
  intros (Hc & Hm). unfold download_symbol_data. cbv zeta.
  destruct (symbol_select mt5 symbol) as [[|]|e].
  - match goal with |- context [download_timeframes _ _ _ _ _ ?x ?r] =>
      destruct (download_timeframes_keeps_open fault mt5 symbol max_bars tfs x r)
        as (Hm' & Hc') end.
    cbv zeta in Hm', Hc'. cbn [mt5_connected connection Upd.log] in Hm', Hc'.
    rewrite Hm'. split; [tauto|exact Hm].
  - cbn [fst]. split; assumption.
  - destruct (is_Exception e); cbn [fst]; split; assumption.
Qed.

(** X26: a run of [build_database] in which the periphery works (the
    configuration is read, names the symbols itself and asks for at
    least one worker, the terminal connects, the database opens) and
    nothing interrupts the pool, on a terminal that raises only
    [Exception]s, answers [True] whatever the downloads give: every configured symbol is counted as processed
    exactly once, the selectable ones are the completed ones and the
    others the failed ones, in whatever order the tasks complete; no
    fetch is made for a symbol that cannot be selected; and the run ends
    by closing the database and disconnecting from the terminal. *)
Theorem build_database_processes_all (fault : nat -> statement -> bool)
    (mt5 : Terminal) (config : Config) (pool : Schedule) (b : Builder) :
  raises_exceptions_only mt5 ->
  auto_detect_symbols config = false ->
  symbols_to_download config <> [] ->
  (0 < max_workers config)%Z ->
  interrupt_at pool = None ->
  Permutation (completion_order pool (symbols_to_download config))
    (symbols_to_download config) ->
  let out := build_database fault mt5 (scenario_env config) pool b in
  snd out = Ok true /\
  symbols_processed (stats (fst out))
  = symbols_processed (stats b) + length (symbols_to_download config) /\
  (exists completed,
     symbols_completed (stats (fst out))
     = symbols_completed (stats b) ++ completed /\
     Permutation completed
       (List.filter (selectable mt5) (symbols_to_download config))) /\
  (exists failed,
     symbols_failed (stats (fst out)) = symbols_failed (stats b) ++ failed /\
     Permutation failed
       (List.filter (fun symbol => negb (selectable mt5 symbol))
          (symbols_to_download config))) /\
  (forall y, selectable mt5 y = false ->
             fetches_of y (calls (fst out)) = fetches_of y (calls b)) /\
  exists earlier,
    calls (fst out) = earlier ++ [CallConnectionClose; CallShutdown].
Proof.
  intros Hmt5 Hauto Hne Hworkers Hint Hperm. cbv zeta.
  apply Z.leb_gt in Hworkers.
  unfold build_database. rewrite try_finally_runs_final.
  set (b0 := Upd.with_connection (Some empty_store)
               {| connection := connection b; mt5_connected := true;
                  stats := stats b; calls := calls b |}).
  destruct (run_pool_spec fault mt5 (cfg_timeframes config)
              (max_bars_per_request config)
              (completion_order pool (symbols_to_download config)) b0 Hmt5)
    as (b' & Erun & Hp & Hc & Hf & Hfe).
  assert (Hconn : connection b' <> None /\ mt5_connected b' = true).
  { destruct (run_pool_drain fault mt5 (cfg_timeframes config)
                (max_bars_per_request config)
                (completion_order pool (symbols_to_download config))
                None b0 Hmt5) as (g & _ & Eg & _).
    cbv zeta in Eg. rewrite Erun in Eg. cbn [fst] in Eg. rewrite Eg.
    unfold lift. cbn [connection mt5_connected Upd.with_stats].
    clear. set (order := completion_order pool (symbols_to_download config)).
    clearbody order. revert b0.
    assert (H : forall x, connection x <> None /\ mt5_connected x = true ->
                let y := drain (fun symbol =>
                                  download_symbol_data fault mt5 symbol
                                    (cfg_timeframes config)
                                    (max_bars_per_request config)) order x in
                connection y <> None /\ mt5_connected y = true).
    { induction order as [|symbol rest IH]; intros x Hx; [exact Hx|].
      simpl. apply IH.
      apply (download_symbol_data_keeps_open fault mt5 symbol
               (cfg_timeframes config) (max_bars_per_request config) x Hx). }
    intros b0. apply H. split; [discriminate|reflexivity]. }
  assert (Ebody :
    try_except
      (let* config0 := load_config (scenario_env config) in
       let* connected :=
         connect_to_mt5 (scenario_env config) (mt5_executable_path config0) in
       if negb connected then ret false
       else
         let* _ := setup_database (scenario_env config) in
         let* symbols_to_process :=
           (if auto_detect_symbols config0
            then let* all_symbols := get_available_symbols (scenario_env config) in
                 ret (filter_symbols_by_category all_symbols config0)
            else ret (symbols_to_download config0)) in
         match symbols_to_process with
         | [] => ret false
         | _ =>
           if (max_workers config0 <=? 0)%Z then throw ValueError
           else
           let* _ := run_pool
                  (fun symbol =>
                     download_symbol_data fault mt5 symbol
                       (cfg_timeframes config0) (max_bars_per_request config0))
                  (completion_order pool symbols_to_process)
                  (interrupt_at pool) in
           let* _ := print_final_stats (scenario_env config) in
           ret true
         end)
      (fun _ => ret false) b = (b', Ok true)).
  { cbv [try_except bind ret scenario_env load_config connect_to_mt5
           setup_database print_final_stats negb].
    rewrite Hauto, Hint, Hworkers. fold b0.
    destruct (symbols_to_download config) as [|s0 ss] eqn:Es;
      [contradiction|].
    rewrite Erun. reflexivity. }
  rewrite Ebody. cbn [fst snd].
  destruct (cleanup_spec b') as (Hcalls & _ & _ & Hst).
  rewrite Hst, Hp, Hc, Hf, Hcalls.
  split; [reflexivity|]. split.
  { now rewrite (Permutation_length Hperm). }
  split.
  { eexists. split; [reflexivity|]. now apply Permutation_filter. }
  split.
  { eexists. split; [reflexivity|]. now apply Permutation_filter. }
  split.
  { intros y Hy. rewrite fetches_of_app, (Hfe y Hy).
    unfold cleanup_calls.
    destruct (connection b'), (mt5_connected b'); simpl;
      now rewrite app_nil_r. }
  exists (calls b'). unfold cleanup_calls.
  destruct Hconn as (Hopen & ->).
  destruct (connection b'); [reflexivity|contradiction].
Qed.

Lemma build_database_processes_all_witness :
  raises_exceptions_only scenario_terminal /\
  snd (build_database no_fault scenario_terminal (scenario_env scenario_config)
         in_order fresh_builder) = Ok true.
Proof.
  split; [apply scenario_terminal_raises_exceptions_only|].
  apply (build_database_processes_all no_fault scenario_terminal
           scenario_config in_order fresh_builder).
  - apply scenario_terminal_raises_exceptions_only.
  - reflexivity.
  - discriminate.
  - reflexivity.
  - reflexivity.
  - reflexivity.
Defined.
